(** * Budget tracker backend: request handlers over the REST framework

    A shallow embedding of the Django applications [budgets], [users] and
    [health_check] of [Exam-Budget-Tracker-App/server].  The applications
    are declarative: most of what a request does is decided by the field
    classes, the generic view set and the token class they instantiate.
    Those library classes are embedded next to the application code, each
    under the name it has in its library, so that a handler reads the way
    the request is really processed. *)

From Stdlib Require Import ZArith QArith Ascii String List Lia.
From stdpp Require Import gmap strings list sorting.

Local Open Scope string_scope.
Local Open Scope Z_scope.

(** ** Python built-ins on [str] *)

Module Py.

(** Text is kept as a string of the code points 0..255. *)

(** [str.isspace] on one character. *)
Definition isspace (c : ascii) : bool :=
  let n := N_of_ascii c in
  ((9 <=? n) && (n <=? 13) || (28 <=? n) && (n <=? 32)
   || (n =? 133) || (n =? 160))%N.

Definition is_empty (s : string) : bool :=
  match s with EmptyString => true | String _ _ => false end.

Fixpoint lstrip (s : string) : string :=
  match s with
  | EmptyString => EmptyString
  | String c r => if isspace c then lstrip r else s
  end.

Fixpoint rstrip (s : string) : string :=
  match s with
  | EmptyString => EmptyString
  | String c r =>
      let r' := rstrip r in
      if isspace c && is_empty r' then EmptyString else String c r'
  end.

(** [s.strip()] *)
Definition strip (s : string) : string := rstrip (lstrip s).

(** [len(s)] *)
Definition len (s : string) : Z := Z.of_nat (String.length s).

(** [c in s] *)
Fixpoint contains (c : ascii) (s : string) : bool :=
  match s with
  | EmptyString => false
  | String a r => if Ascii.eqb a c then true else contains c r
  end.

(** [c * n] *)
Fixpoint replicate (n : nat) (c : ascii) : string :=
  match n with O => EmptyString | S k => String c (replicate k c) end.

End Py.

(** ** Python's [decimal.Decimal] and its comparison with [float] *)

Module PyDecimal.

Inductive digit := d0 | d1 | d2 | d3 | d4 | d5 | d6 | d7 | d8 | d9.

Definition digit_value (d : digit) : Z :=
  match d with
  | d0 => 0 | d1 => 1 | d2 => 2 | d3 => 3 | d4 => 4
  | d5 => 5 | d6 => 6 | d7 => 7 | d8 => 8 | d9 => 9
  end.

(** A finite decimal as [Decimal.as_tuple()] shows it: [sign] is [true]
    for Python's sign 1 (negative), [digits] is the coefficient, most
    significant digit first, and the value is
    [(-1)^sign * digits * 10^exponent]. *)
Record t := mk { sign : bool; digits : list digit; exponent : Z }.

Definition coefficient (ds : list digit) : Z :=
  fold_left (fun acc d => 10 * acc + digit_value d) ds 0.

(** The constructor never keeps leading zeros: [Decimal('007.50')] has
    digits (7, 5, 0) and [Decimal('0.00')] has digits (0,). *)
Definition canonical (d : t) : Prop :=
  digits d <> [] /\ (hd d0 (digits d) = d0 -> digits d = [d0]).

Definition signed_coefficient (d : t) : Z :=
  if sign d then - coefficient (digits d) else coefficient (digits d).

(** The exact rational value. *)
Definition to_Q (d : t) : Q :=
  if 0 <=? exponent d
  then inject_Z (signed_coefficient d * 10 ^ exponent d)
  else Qmake (signed_coefficient d) (Z.to_pos (10 ^ (- exponent d))).

(** Python compares a [Decimal] with a [float] exactly: the float is
    converted to the rational it denotes, with no rounding. *)
Definition lt_float (d : t) (f : Q) : bool := negb (Qle_bool f (to_Q d)).
Definition gt_float (d : t) (f : Q) : bool := negb (Qle_bool (to_Q d) f).
(** [d <= 0] *)
Definition le_zero (d : t) : bool := Qle_bool (to_Q d) 0.

(** [value.quantize(Decimal('.1') ** places)] where no rounding is
    needed, that is for [exponent >= -places]: the coefficient is padded
    with zeros up to [places] decimal places (a zero coefficient stays
    the single digit 0).  The rounding branch ([exponent < -places]) is
    not embedded: the only caller, [DecimalField.to_internal_value], has
    rejected such values in [validate_precision] before it quantizes. *)
Definition quantize (places : Z) (d : t) : option t :=
  if exponent d <? - places then None
  else
    Some {| sign := sign d;
            digits := if coefficient (digits d) =? 0 then [d0]
                      else digits d ++ repeat d0 (Z.to_nat (exponent d + places));
            exponent := - places |}.

End PyDecimal.

(** The IEEE-754 doubles that the source writes as the literals [0.01]
    and [999999999.99], as exact rationals. *)
Definition float_0_01 : Q := 5764607523034235 # 576460752303423488.
Definition float_999999999_99 : Q := 4194303999958057 # 4194304.

(** ** The REST framework's fields ([rest_framework.fields]) *)

Module rest_framework.

(** The outcome of validating one value: the validated value, or the
    message list of the [ValidationError] that was raised. *)
Inductive validated (A : Type) : Type :=
| Valid (value : A)
| ValidationError (detail : list string).
Arguments Valid {A} value.
Arguments ValidationError {A} detail.

(** The outcome of [Field.run_validation] inside a serializer: the key
    was absent and the field is skipped ([SkipField]), or as above. *)
Inductive field_result (A : Type) : Type :=
| SkipField
| Value (value : A)
| Fail (detail : list string).
Arguments SkipField {A}.
Arguments Value {A} value.
Arguments Fail {A} detail.

(** What the text of a field parses to, for the fields whose parser is
    Python's own ([decimal.Decimal(data)], [datetime.date] from ISO
    8601 text).  [TooLong] is a text of more than 1000 characters, the
    [MAX_STRING_LENGTH] that a decimal field checks before it reads the
    text; [Parsed a] a text of at most 1000 characters that the parser
    reads as [a]; [Unparsable] a text of at most 1000 characters that
    the parser does not read. *)
Inductive parse (A : Type) : Type :=
| Unparsable
| TooLong
| Parsed (a : A).
Arguments Unparsable {A}.
Arguments TooLong {A}.
Arguments Parsed {A} a.

(** [Field.run_validators]: every validator runs and the messages of
    those that raise are collected. *)
Definition run_validators {A : Type}
    (validators : list (A -> list string)) (value : A) : list string :=
  flat_map (fun validator => validator value) validators.

(** [Field.validate_empty_values] for a key that is absent: skipped on
    a partial update and when the field is not required, an error
    otherwise. *)
Definition validate_empty_values {A : Type}
    (partial required : bool) (required_message : string) : field_result A :=
  if partial then SkipField
  else if required then Fail [required_message]
  else SkipField.

(** *** [CharField] *)

Record CharField := {
  cf_required : bool;
  cf_allow_blank : bool;
  cf_max_length : option Z;
  cf_min_length : option Z;
  (** validators given to the constructor; they run before the length
      validators the constructor appends *)
  cf_validators : list (string -> list string);
  cf_msg_required : string;
  cf_msg_blank : string;
  cf_msg_max_length : string;
  cf_msg_min_length : string
}.

Definition MaxLengthValidator (limit : Z) (message : string)
    (value : string) : list string :=
  if limit <? Py.len value then [message] else [].

Definition MinLengthValidator (limit : Z) (message : string)
    (value : string) : list string :=
  if Py.len value <? limit then [message] else [].

Definition ProhibitNullCharactersValidator (value : string) : list string :=
  if Py.contains "000"%char value then ["Null characters are not allowed."]
  else [].

(** The validator list [CharField.__init__] builds. *)
Definition CharField_validators (f : CharField) : list (string -> list string) :=
  cf_validators f
  ++ match cf_max_length f with
     | Some n => [MaxLengthValidator n (cf_msg_max_length f)]
     | None => []
     end
  ++ match cf_min_length f with
     | Some n => [MinLengthValidator n (cf_msg_min_length f)]
     | None => []
     end
  ++ [ProhibitNullCharactersValidator].

(** [CharField.to_internal_value]; [trim_whitespace] is [True] unless a
    field says otherwise, and no field of this project does. *)
Definition CharField_to_internal_value (data : string) : string :=
  Py.strip data.

(** [CharField.run_validation]: the blank test is made on the stripped
    text, then the text is stripped, then the validators run. *)
Definition CharField_run_validation (f : CharField) (partial : bool)
    (data : option string) : field_result string :=
  match data with
  | None => validate_empty_values partial (cf_required f) (cf_msg_required f)
  | Some text =>
      if Py.is_empty text || Py.is_empty (Py.strip text) then
        if cf_allow_blank f then Value "" else Fail [cf_msg_blank f]
      else
        let value := CharField_to_internal_value text in
        match run_validators (CharField_validators f) value with
        | [] => Value value
        | errors => Fail errors
        end
  end.

(** *** [DecimalField] *)

Record DecimalField := {
  df_max_digits : Z;
  df_decimal_places : Z;
  (** [min_value], a float in this project *)
  df_min_value : option Q;
  df_msg_required : string;
  df_msg_invalid : string;
  df_msg_max_string_length : string;
  df_msg_min_value : string;
  df_msg_max_digits : string;
  df_msg_max_decimal_places : string;
  df_msg_max_whole_digits : string
}.

(** [DecimalField.validate_precision] *)
Definition validate_precision (f : DecimalField) (value : PyDecimal.t)
    : validated PyDecimal.t :=
  let digittuple := PyDecimal.digits value in
  let exponent := PyDecimal.exponent value in
  let ndigits := Z.of_nat (length digittuple) in
  let '(total_digits, whole_digits, decimal_places) :=
    if 0 <=? exponent then
      (ndigits + exponent, ndigits + exponent, 0)
    else if Z.abs exponent <? ndigits then
      (ndigits, ndigits - Z.abs exponent, Z.abs exponent)
    else
      (Z.abs exponent, 0, Z.abs exponent) in
  if df_max_digits f <? total_digits then
    ValidationError [df_msg_max_digits f]
  else if df_decimal_places f <? decimal_places then
    ValidationError [df_msg_max_decimal_places f]
  else if df_max_digits f - df_decimal_places f <? whole_digits then
    ValidationError [df_msg_max_whole_digits f]
  else Valid value.

(** [DecimalField.to_internal_value] on text that Python reads as the
    finite decimal [value]: [self.quantize(self.validate_precision(value))].
    The last case is never taken, see [quantize]. *)
Definition DecimalField_to_internal_value (f : DecimalField)
    (value : PyDecimal.t) : validated PyDecimal.t :=
  match validate_precision f value with
  | ValidationError detail => ValidationError detail
  | Valid v =>
      match PyDecimal.quantize (df_decimal_places f) v with
      | Some q => Valid q
      | None => ValidationError [df_msg_invalid f]
      end
  end.

(** [MinValueValidator(limit)]: raises when [value < limit]. *)
Definition MinValueValidator (limit : Q) (message : string)
    (value : PyDecimal.t) : list string :=
  if PyDecimal.lt_float value limit then [message] else [].

Definition DecimalField_validators (f : DecimalField)
    : list (PyDecimal.t -> list string) :=
  match df_min_value f with
  | Some limit => [MinValueValidator limit (df_msg_min_value f)]
  | None => []
  end.

(** [Field.run_validation] for a decimal field.  The length of the
    text is checked first: a text of more than 1000 characters fails
    with [max_string_length], whatever it would read as.  [Parsed d]
    stands for a text of at most 1000 characters that [decimal.Decimal]
    reads as the finite decimal [d]; a text of at most 1000 characters
    that it does not read, or reads as a NaN or an infinity, is
    [Unparsable]. *)
Definition DecimalField_run_validation (f : DecimalField) (partial : bool)
    (data : option (parse PyDecimal.t)) : field_result PyDecimal.t :=
  match data with
  | None => validate_empty_values partial true (df_msg_required f)
  | Some TooLong => Fail [df_msg_max_string_length f]
  | Some Unparsable => Fail [df_msg_invalid f]
  | Some (Parsed d) =>
      match DecimalField_to_internal_value f d with
      | ValidationError detail => Fail detail
      | Valid value =>
          match run_validators (DecimalField_validators f) value with
          | [] => Value value
          | errors => Fail errors
          end
      end
  end.

(** *** [DateField]: a date is kept as its proleptic ordinal.  The
    field has no limit on the length of the text: a text of more than
    1000 characters is not a date and fails as any other text that is
    not one. *)
Definition DateField_run_validation (partial : bool)
    (msg_required msg_invalid : string)
    (data : option (parse Z)) : field_result Z :=
  match data with
  | None => validate_empty_values partial true msg_required
  | Some Unparsable | Some TooLong => Fail [msg_invalid]
  | Some (Parsed d) => Value d
  end.

(** The step of [Serializer.to_internal_value] for one field: the
    field's own validation, then the serializer's [validate_<name>]
    method on the value it produced. *)
Definition with_validate_method {A : Type}
    (r : field_result A) (validate_method : A -> validated A) : field_result A :=
  match r with
  | SkipField => SkipField
  | Fail detail => Fail detail
  | Value v =>
      match validate_method v with
      | Valid v' => Value v'
      | ValidationError detail => Fail detail
      end
  end.

(** The entry a field contributes to [serializer.errors]. *)
Definition field_errors {A : Type} (name : string) (r : field_result A)
    : list (string * list string) :=
  match r with Fail detail => [(name, detail)] | _ => [] end.

(** The entry a field contributes to [validated_data]. *)
Definition field_value {A : Type} (r : field_result A) : option A :=
  match r with Value v => Some v | _ => None end.

(** Status codes of [rest_framework.status] that the handlers use. *)
Inductive status :=
| HTTP_200_OK
| HTTP_201_CREATED
| HTTP_204_NO_CONTENT
| HTTP_400_BAD_REQUEST
| HTTP_401_UNAUTHORIZED
| HTTP_403_FORBIDDEN
| HTTP_404_NOT_FOUND
| HTTP_500_INTERNAL_SERVER_ERROR.

#[global] Instance status_eq_dec : EqDecision status.
Proof. solve_decision. Defined.

Definition status_code (s : status) : Z :=
  match s with
  | HTTP_200_OK => 200
  | HTTP_201_CREATED => 201
  | HTTP_204_NO_CONTENT => 204
  | HTTP_400_BAD_REQUEST => 400
  | HTTP_401_UNAUTHORIZED => 401
  | HTTP_403_FORBIDDEN => 403
  | HTTP_404_NOT_FOUND => 404
  | HTTP_500_INTERNAL_SERVER_ERROR => 500
  end.

End rest_framework.
Export rest_framework.

(** ** Models ([users/models.py], [budgets/models.py]) and the database *)

(** A row of table [users]; the primary key is the key of the table. *)
Record User := {
  username : string;
  email : string;
  (** the password hash *)
  password : string;
  first_name : string;
  last_name : string;
  user_created_at : Z;
  user_updated_at : Z
}.

(** A row of table [budgets]. [user] is the owner's primary key. *)
Record Budget := {
  user : Z;
  title : string;
  description : string;
  date : Z;
  initial_amount : PyDecimal.t;
  created_at : Z;
  updated_at : Z
}.

(** A row of table [token_blacklist]. *)
Record TokenBlacklist := {
  token : string;
  blacklisted_at : Z
}.

Record Database := {
  users : gmap Z User;
  budgets : gmap Z Budget;
  token_blacklist : gmap Z TokenBlacklist
}.

(** The primary key an INSERT receives, a key that is not in use: one
    more than the largest key in the table, 1 for an empty table.  The
    sequence of the database may be further on than that, since it does
    not hand out again the key of a row that was deleted; what holds of
    both is that the key is free. *)
Definition next_pk {A : Type} (table : gmap Z A) : Z :=
  foldr Z.max 0 (elements (dom table)) + 1.

(** [Budget.Meta.ordering = ['-date', '-created_at']]: a row may come
    before another when its date is later, or equal with a creation time
    that is not earlier. *)
Definition ordering (a b : Z * Budget) : Prop :=
  date a.2 > date b.2 \/ (date a.2 = date b.2 /\ created_at a.2 >= created_at b.2).

#[global] Instance ordering_dec (a b : Z * Budget) : Decision (ordering a b).
Proof. unfold ordering. apply _. Defined.

(** The rows of a queryset in the order of [Meta.ordering]. *)
Definition ordered (queryset : gmap Z Budget) : list (Z * Budget) :=
  merge_sort ordering (map_to_list queryset).

(** ** What the project leaves to its settings and libraries

    [settings.py] is not among the sources, and the validators, the
    password hasher and the token backend are library code whose result
    depends on it.  They are taken as given. *)
Record TokenPayload := {
  token_type : string;
  exp : Z;
  jti : option string;
  user_id : Z
}.

Record Settings := {
  (** [REST_FRAMEWORK['PAGE_SIZE']] of the page-number pagination; 0
      stands for a size that is not set *)
  PAGE_SIZE : N;
  (** [django.contrib.auth.password_validation.validate_password] under
      [AUTH_PASSWORD_VALIDATORS]: the messages it raises, none if the
      password passes *)
  validate_password : string -> list string;
  (** the username and e-mail validators of [AbstractUser] *)
  UnicodeUsernameValidator : string -> list string;
  EmailValidator : string -> list string;
  (** [BaseUserManager.normalize_email], [AbstractBaseUser.normalize_username] *)
  normalize_email : string -> string;
  normalize_username : string -> string;
  (** [make_password] *)
  make_password : string -> string;
  (** the token backend: [decode] checks the signature and reads the
      claims; [encode] signs a claim set *)
  token_backend_decode : string -> option TokenPayload;
  token_backend_encode : TokenPayload -> string;
  ACCESS_TOKEN_LIFETIME : Z
}.

(** What a handler sees of a request besides its body: [request_user]
    is the key of [request.user] as the authentication class set it
    from the access token ([None] for an anonymous request, one without
    a valid access token), [now] the clock, [uuid4] the identifier the
    next issued token would get.  A request that carries an access
    token which the authentication class refuses is answered 401 before
    any view runs, whatever the permissions of the view; on a view that
    asks for an authenticated user this is the answer to [None] too, and
    on the open views such a request is not among those described
    here. *)
Record Request := {
  request_user : option Z;
  now : Z;
  uuid4 : string
}.

(** Response bodies.  A budget is shown as its key and row, a user as
    the JSON object of the serializer; of a page, the count and the
    results are kept (the links to the next and previous page are not). *)
Inductive Data :=
| Detail (message : string)
| Errors (errors : list (string * list string))
| BudgetData (pk : Z) (row : Budget)
| Rows (results : list (Z * Budget))
| Page (count : Z) (results : list (Z * Budget))
| Profile (fields : list (string * string))
| Access (access : string)
| Status (value : string)
| NoData.

Record Response := { status_of : status; data : Data }.

(** ** [budgets/serializers.py] *)

Module BudgetSerializer.

(** The body of a create or update request. [p_user] is a [user] key
    the client may send. *)
Record Payload := {
  p_user : option Z;
  p_title : option string;
  p_description : option string;
  p_date : option (parse Z);
  p_initial_amount : option (parse PyDecimal.t)
}.

Record ValidatedData := {
  vd_title : option string;
  vd_description : option string;
  vd_date : option Z;
  vd_initial_amount : option PyDecimal.t
}.

(** The fields the model serializer builds from [Budget] and
    [Meta.extra_kwargs].  [id], [user], [created_at] and [updated_at]
    are in [read_only_fields]: they are not among the writable fields
    and [to_internal_value] never reads their keys. *)
Definition title_field : CharField := {|
  cf_required := true;
  cf_allow_blank := false;
  cf_max_length := Some 255;
  cf_min_length := None;
  cf_validators := [];
  cf_msg_required := "Title is required.";
  cf_msg_blank := "Title cannot be blank.";
  cf_msg_max_length := "Title must be at most 255 characters.";
  cf_msg_min_length := ""
|}.

Definition description_field : CharField := {|
  cf_required := false;
  cf_allow_blank := true;
  cf_max_length := None;
  cf_min_length := None;
  cf_validators := [];
  cf_msg_required := "This field is required.";
  cf_msg_blank := "This field may not be blank.";
  cf_msg_max_length := "";
  cf_msg_min_length := ""
|}.

(** [DecimalField(max_digits=10, decimal_places=2,
    validators=[MinValueValidator(0.01)])]: the limit of the model's
    validator becomes the [min_value] of the serializer field, the
    float it is in the model. *)
Definition initial_amount_field : DecimalField := {|
  df_max_digits := 10;
  df_decimal_places := 2;
  df_min_value := Some float_0_01;
  df_msg_required := "Initial amount is required.";
  df_msg_invalid := "Enter a valid decimal number.";
  df_msg_max_string_length := "String value too large.";
  df_msg_min_value := "Ensure this value is greater than or equal to 0.01.";
  df_msg_max_digits := "Ensure that there are no more than 10 digits in total.";
  df_msg_max_decimal_places :=
    "Ensure that there are no more than 2 decimal places.";
  df_msg_max_whole_digits :=
    "Ensure that there are no more than 8 digits before the decimal point."
|}.

Definition validate_title (value : string) : validated string :=
  if Py.is_empty value || Py.is_empty (Py.strip value) then
    ValidationError ["Title cannot be empty."]
  else if 255 <? Py.len value then
    ValidationError ["Title must be at most 255 characters."]
  else Valid (Py.strip value).

Definition validate_initial_amount (value : PyDecimal.t)
    : validated PyDecimal.t :=
  if PyDecimal.le_zero value then
    ValidationError ["Initial amount must be greater than 0."]
  else if PyDecimal.gt_float value float_999999999_99 then
    ValidationError ["Initial amount is too large."]
  else Valid value.

(** [not value] on a [datetime.date]: a date is never falsy. *)
Definition date_is_falsy (value : Z) : bool := false.

Definition validate_date (value : Z) : validated Z :=
  if date_is_falsy value then ValidationError ["Date is required."]
  else Valid value.

(** The four writable fields, each through its field class and then
    its [validate_<name>] method. *)
Definition run_title (partial : bool) (data : option string) : field_result string :=
  with_validate_method
    (CharField_run_validation title_field partial data) validate_title.

Definition run_description (partial : bool) (data : option string)
    : field_result string :=
  CharField_run_validation description_field partial data.

Definition run_date (partial : bool) (data : option (parse Z)) : field_result Z :=
  with_validate_method
    (DateField_run_validation partial "Date is required."
       "Enter a valid date (YYYY-MM-DD)." data)
    validate_date.

Definition run_initial_amount (partial : bool)
    (data : option (parse PyDecimal.t)) : field_result PyDecimal.t :=
  with_validate_method
    (DecimalField_run_validation initial_amount_field partial data)
    validate_initial_amount.

(** [serializer.is_valid()]: [Serializer.to_internal_value] over the
    writable fields in the order of [Meta.fields]. *)
Definition is_valid (partial : bool) (payload : Payload)
    : ValidatedData + list (string * list string) :=
  let t := run_title partial (p_title payload) in
  let d := run_description partial (p_description payload) in
  let dt := run_date partial (p_date payload) in
  let a := run_initial_amount partial (p_initial_amount payload) in
  match (field_errors "title" t ++ field_errors "description" d
         ++ field_errors "date" dt ++ field_errors "initial_amount" a)%list with
  | [] => inl {| vd_title := field_value t;
                 vd_description := field_value d;
                 vd_date := field_value dt;
                 vd_initial_amount := field_value a |}
  | errors => inr errors
  end.

(** [ModelSerializer.create] after [save(user=...)] has added the
    owner to the validated data: [Budget.objects.create] on them.
    A column without a value takes the model default; [date] and
    [initial_amount] have none, and the INSERT fails without them. *)
Definition create (owner : Z) (clock : Z) (vd : ValidatedData) : option Budget :=
  match vd_date vd, vd_initial_amount vd with
  | Some dt, Some amount =>
      Some {| user := owner;
              title := default "" (vd_title vd);
              description := default "" (vd_description vd);
              date := dt;
              initial_amount := amount;
              created_at := clock;
              updated_at := clock |}
  | _, _ => None
  end.

(** [ModelSerializer.update] after [save(user=...)]: every validated
    attribute, and the owner, is set on the instance, which is saved. *)
Definition update (owner : Z) (clock : Z) (instance : Budget)
    (vd : ValidatedData) : Budget :=
  {| user := owner;
     title := default (title instance) (vd_title vd);
     description := default (description instance) (vd_description vd);
     date := default (date instance) (vd_date vd);
     initial_amount := default (initial_amount instance) (vd_initial_amount vd);
     created_at := created_at instance;
     updated_at := clock |}.

End BudgetSerializer.

(** ** [budgets/views.py]: [BudgetViewSet(viewsets.ModelViewSet)] *)

Module BudgetViewSet.

Import BudgetSerializer.

(** [Budget.objects.filter(user=self.request.user)] *)
Definition get_queryset (request_user : Z) (db : Database) : gmap Z Budget :=
  filter (fun row : Z * Budget => user row.2 = request_user) (budgets db).

(** [serializer.save(user=self.request.user)] on a serializer without
    an instance: the row is inserted. *)
Definition perform_create (request_user : Z) (clock : Z) (vd : ValidatedData)
    (db : Database) : option (Z * Budget * Database) :=
  match BudgetSerializer.create request_user clock vd with
  | None => None
  | Some row =>
      let pk := next_pk (budgets db) in
      Some (pk, row,
            {| users := users db;
               budgets := <[pk := row]> (budgets db);
               token_blacklist := token_blacklist db |})
  end.

(** [serializer.save(user=self.request.user)] on a serializer bound to
    [instance]: the row is rewritten in place. *)
Definition perform_update (request_user : Z) (clock : Z) (pk : Z)
    (instance : Budget) (vd : ValidatedData) (db : Database)
    : Budget * Database :=
  let row := BudgetSerializer.update request_user clock instance vd in
  (row,
   {| users := users db;
      budgets := <[pk := row]> (budgets db);
      token_blacklist := token_blacklist db |}).

(** [permission_classes = [IsAuthenticated]]: the response to a request
    that carries no valid access token. *)
Definition not_authenticated : Response :=
  {| status_of := HTTP_401_UNAUTHORIZED;
     data := Detail "Authentication credentials were not provided." |}.

Definition not_found : Response :=
  {| status_of := HTTP_404_NOT_FOUND; data := Detail "Not found." |}.

(** [GenericAPIView.get_object]: [get_object_or_404] on the queryset of
    [get_queryset], by primary key. *)
Definition get_object (request_user : Z) (pk : Z) (db : Database)
    : option Budget :=
  get_queryset request_user db !! pk.

(** [PageNumberPagination.paginate_queryset] with Django's [Paginator]:
    page [number] of the rows, [None] for a page that does not exist.
    The first page exists even when there are no rows. *)
Definition num_pages (per_page : Z) (count : Z) : Z :=
  if count =? 0 then 1 else (count + per_page - 1) / per_page.

Definition paginate_queryset (per_page : Z) (number : Z)
    (rows : list (Z * Budget)) : option (list (Z * Budget)) :=
  let count := Z.of_nat (length rows) in
  if (number <? 1) || (num_pages per_page count <? number) then None
  else Some (take (Z.to_nat per_page)
               (drop (Z.to_nat ((number - 1) * per_page)) rows)).

(** [ListModelMixin.list]; [number] is the [page] query parameter, 1
    when it is not given. *)
Definition list (cfg : Settings) (request : Request) (number : Z)
    (db : Database) : Response :=
  match request_user request with
  | None => not_authenticated
  | Some u =>
      let rows := ordered (get_queryset u db) in
      if (PAGE_SIZE cfg =? 0)%N then
        {| status_of := HTTP_200_OK; data := Rows rows |}
      else
        match paginate_queryset (Z.of_N (PAGE_SIZE cfg)) number rows with
        | None => {| status_of := HTTP_404_NOT_FOUND; data := Detail "Invalid page." |}
        | Some page =>
            {| status_of := HTTP_200_OK;
               data := Page (Z.of_nat (length rows)) page |}
        end
  end.

(** [RetrieveModelMixin.retrieve] *)
Definition retrieve (request : Request) (pk : Z) (db : Database) : Response :=
  match request_user request with
  | None => not_authenticated
  | Some u =>
      match get_object u pk db with
      | None => not_found
      | Some row => {| status_of := HTTP_200_OK; data := BudgetData pk row |}
      end
  end.

(** [CreateModelMixin.create] *)
Definition create (request : Request) (payload : Payload) (db : Database)
    : Response * Database :=
  match request_user request with
  | None => (not_authenticated, db)
  | Some u =>
      match is_valid false payload with
      | inr errors =>
          ({| status_of := HTTP_400_BAD_REQUEST; data := Errors errors |}, db)
      | inl vd =>
          match perform_create u (now request) vd db with
          | None =>
              ({| status_of := HTTP_500_INTERNAL_SERVER_ERROR; data := NoData |}, db)
          | Some (pk, row, db') =>
              ({| status_of := HTTP_201_CREATED; data := BudgetData pk row |}, db')
          end
      end
  end.

(** [UpdateModelMixin.update] (PUT) and [partial_update] (PATCH, with
    [partial = true]): the object is looked up before the body is
    validated. *)
Definition update (partial : bool) (request : Request) (pk : Z)
    (payload : Payload) (db : Database) : Response * Database :=
  match request_user request with
  | None => (not_authenticated, db)
  | Some u =>
      match get_object u pk db with
      | None => (not_found, db)
      | Some instance =>
          match is_valid partial payload with
          | inr errors =>
              ({| status_of := HTTP_400_BAD_REQUEST; data := Errors errors |}, db)
          | inl vd =>
              let '(row, db') := perform_update u (now request) pk instance vd db in
              ({| status_of := HTTP_200_OK; data := BudgetData pk row |}, db')
          end
      end
  end.

(** [DestroyModelMixin.destroy] *)
Definition destroy (request : Request) (pk : Z) (db : Database)
    : Response * Database :=
  match request_user request with
  | None => (not_authenticated, db)
  | Some u =>
      match get_object u pk db with
      | None => (not_found, db)
      | Some _ =>
          ({| status_of := HTTP_204_NO_CONTENT; data := NoData |},
           {| users := users db;
              budgets := delete pk (budgets db);
              token_blacklist := token_blacklist db |})
      end
  end.

End BudgetViewSet.

(** ** [users/serializers.py]: [UserRegistrationSerializer] *)

Module UserRegistrationSerializer.

Record Payload := {
  r_username : option string;
  r_email : option string;
  r_password : option string;
  r_password_confirm : option string
}.

Record ValidatedData := {
  vd_username : string;
  vd_email : string;
  vd_password : string;
  vd_password_confirm : string
}.

(** [User.objects.filter(username=value).exists()] *)
Definition username_exists (value : string) (db : Database) : bool :=
  bool_decide (Exists (fun row : Z * User => username row.2 = value)
                 (map_to_list (users db))).

(** [User.objects.filter(email=value).exists()] *)
Definition email_exists (value : string) (db : Database) : bool :=
  bool_decide (Exists (fun row : Z * User => email row.2 = value)
                 (map_to_list (users db))).

(** The [UniqueValidator] the model serializer attaches to a field
    whose column is unique. *)
Definition UniqueValidator (exists_ : string -> Database -> bool)
    (message : string) (db : Database) (value : string) : list string :=
  if exists_ value db then [message] else [].

Definition username_field (cfg : Settings) (db : Database) : CharField := {|
  cf_required := true;
  cf_allow_blank := false;
  cf_max_length := Some 150;
  cf_min_length := None;
  cf_validators :=
    [UnicodeUsernameValidator cfg;
     UniqueValidator username_exists
       "A user with that username already exists." db];
  cf_msg_required := "Username is required.";
  cf_msg_blank := "Username cannot be blank.";
  cf_msg_max_length := "Ensure this field has no more than 150 characters.";
  cf_msg_min_length := ""
|}.

Definition email_field (cfg : Settings) (db : Database) : CharField := {|
  cf_required := true;
  cf_allow_blank := false;
  cf_max_length := Some 254;
  cf_min_length := None;
  cf_validators :=
    [EmailValidator cfg;
     UniqueValidator email_exists "user with this email already exists." db];
  cf_msg_required := "Email is required.";
  cf_msg_blank := "Email cannot be blank.";
  cf_msg_max_length := "Ensure this field has no more than 254 characters.";
  cf_msg_min_length := ""
|}.

(** [CharField(write_only=True, min_length=8, validators=[validate_password])] *)
Definition password_field (cfg : Settings) : CharField := {|
  cf_required := true;
  cf_allow_blank := false;
  cf_max_length := None;
  cf_min_length := Some 8;
  cf_validators := [validate_password cfg];
  cf_msg_required := "Password is required.";
  cf_msg_blank := "Password cannot be blank.";
  cf_msg_max_length := "";
  cf_msg_min_length := "Password must be at least 8 characters long."
|}.

(** [CharField(write_only=True, min_length=8)] *)
Definition password_confirm_field : CharField := {|
  cf_required := true;
  cf_allow_blank := false;
  cf_max_length := None;
  cf_min_length := Some 8;
  cf_validators := [];
  cf_msg_required := "Password confirmation is required.";
  cf_msg_blank := "Password confirmation cannot be blank.";
  cf_msg_max_length := "";
  cf_msg_min_length := "Password must be at least 8 characters long."
|}.

Definition validate_username (db : Database) (value : string) : validated string :=
  if username_exists value db then
    ValidationError ["This username is already taken."]
  else Valid value.

Definition validate_email (db : Database) (value : string) : validated string :=
  if email_exists value db then
    ValidationError ["This email is already registered."]
  else Valid value.

(** The object-level [validate(self, data)]. *)
Definition validate (data : ValidatedData)
    : ValidatedData + list (string * list string) :=
  if negb (String.eqb (vd_password data) (vd_password_confirm data)) then
    inr [("password_confirm", ["Passwords do not match."])]
  else inl data.

(** [serializer.is_valid()]: the four fields in the order of
    [Meta.fields]; [validate] runs only when no field has failed. *)
Definition is_valid (cfg : Settings) (db : Database) (payload : Payload)
    : ValidatedData + list (string * list string) :=
  let u := with_validate_method
             (CharField_run_validation (username_field cfg db) false
                (r_username payload))
             (validate_username db) in
  let e := with_validate_method
             (CharField_run_validation (email_field cfg db) false
                (r_email payload))
             (validate_email db) in
  let p := CharField_run_validation (password_field cfg) false
             (r_password payload) in
  let c := CharField_run_validation password_confirm_field false
             (r_password_confirm payload) in
  match u, e, p, c with
  | Value vu, Value ve, Value vp, Value vc =>
      validate {| vd_username := vu; vd_email := ve;
                  vd_password := vp; vd_password_confirm := vc |}
  | _, _, _, _ =>
      inr (field_errors "username" u ++ field_errors "email" e
           ++ field_errors "password" p ++ field_errors "password_confirm" c)%list
  end.

(** [create(self, validated_data)]: [password_confirm] is dropped and
    [User.objects.create_user] normalizes the names, hashes the
    password and inserts the row.  The unique indexes of the table
    refuse a name that is taken after normalization ([None]). *)
Definition create (cfg : Settings) (clock : Z) (data : ValidatedData)
    (db : Database) : option (User * Database) :=
  let name := normalize_username cfg (vd_username data) in
  let mail := normalize_email cfg (vd_email data) in
  if username_exists name db || email_exists mail db then None
  else
    let row := {| username := name;
                  email := mail;
                  password := make_password cfg (vd_password data);
                  first_name := "";
                  last_name := "";
                  user_created_at := clock;
                  user_updated_at := clock |} in
    Some (row,
          {| users := <[next_pk (users db) := row]> (users db);
             budgets := budgets db;
             token_blacklist := token_blacklist db |}).

(** [serializer.data] of a saved serializer: the fields of
    [Meta.fields] that are not write-only, read from the instance. *)
Definition to_representation (instance : User) : list (string * string) :=
  [("username", username instance); ("email", email instance)].

End UserRegistrationSerializer.

(** ** [rest_framework_simplejwt.tokens.RefreshToken] *)

Module RefreshToken.

(** [Token.verify]: the expiry, the token identifier and the token
    type are checked. *)
Definition verify (clock : Z) (payload : TokenPayload) : bool :=
  (clock <? exp payload)
  && bool_decide (is_Some (jti payload))
  && String.eqb (token_type payload) "refresh".

(** [RefreshToken(token)]: [None] when the constructor raises. *)
Definition init (cfg : Settings) (clock : Z) (token : string)
    : option TokenPayload :=
  match token_backend_decode cfg token with
  | None => None
  | Some payload => if verify clock payload then Some payload else None
  end.

(** [str(token)] *)
Definition str (cfg : Settings) (payload : TokenPayload) : string :=
  token_backend_encode cfg payload.

(** [token.access_token]: a new access token for the same user. *)
Definition access_token (cfg : Settings) (request : Request)
    (payload : TokenPayload) : TokenPayload :=
  {| token_type := "access";
     exp := now request + ACCESS_TOKEN_LIFETIME cfg;
     jti := Some (uuid4 request);
     user_id := user_id payload |}.

End RefreshToken.

(** [TokenRefreshView] of the token library, mounted at
    [api/token/refresh/] in [api/urls.py]. *)
Definition token_refresh (cfg : Settings) (request : Request)
    (refresh : option string) (db : Database) : Response :=
  match refresh with
  | None => {| status_of := HTTP_400_BAD_REQUEST;
               data := Errors [("refresh", ["This field is required."])] |}
  | Some text =>
      match RefreshToken.init cfg (now request) text with
      | None => {| status_of := HTTP_401_UNAUTHORIZED;
                   data := Detail "Token is invalid or expired" |}
      | Some payload =>
          {| status_of := HTTP_200_OK;
             data := Access (RefreshToken.str cfg
                               (RefreshToken.access_token cfg request payload)) |}
      end
  end.

(** ** [users/views.py]: [UserViewSet] *)

Module UserViewSet.

(** [register], with [permission_classes=[AllowAny]]. *)
Definition register (cfg : Settings) (request : Request)
    (payload : UserRegistrationSerializer.Payload) (db : Database)
    : Response * Database :=
  match UserRegistrationSerializer.is_valid cfg db payload with
  | inr errors =>
      ({| status_of := HTTP_400_BAD_REQUEST; data := Errors errors |}, db)
  | inl validated_data =>
      match UserRegistrationSerializer.create cfg (now request) validated_data db with
      | None =>
          ({| status_of := HTTP_500_INTERNAL_SERVER_ERROR; data := NoData |}, db)
      | Some (instance, db') =>
          ({| status_of := HTTP_201_CREATED;
              data := Profile (UserRegistrationSerializer.to_representation instance) |},
           db')
      end
  end.

(** [logout]; [refresh_token] is [request.data.get('refresh_token')].
    The view set's [IsAuthenticated] applies. *)
Definition logout (cfg : Settings) (request : Request)
    (refresh_token : option string) (db : Database) : Response * Database :=
  match request_user request with
  | None => (BudgetViewSet.not_authenticated, db)
  | Some _ =>
      match refresh_token with
      | None | Some "" =>
          ({| status_of := HTTP_400_BAD_REQUEST;
              data := Detail "Refresh token is required." |}, db)
      | Some text =>
          match RefreshToken.init cfg (now request) text with
          | None =>
              ({| status_of := HTTP_400_BAD_REQUEST;
                  data := Detail "Invalid token: Token is invalid or expired" |}, db)
          | Some token_ =>
              let row := {| token := RefreshToken.str cfg token_;
                            blacklisted_at := now request |} in
              ({| status_of := HTTP_200_OK;
                  data := Detail "Successfully logged out." |},
               {| users := users db;
                  budgets := budgets db;
                  token_blacklist :=
                    <[next_pk (token_blacklist db) := row]> (token_blacklist db) |})
          end
      end
  end.

End UserViewSet.

(** ** [health_check] and the URL configuration *)

(** Modelled from the spec: [health_check/views.py], the module that
    defines the view function [health_check], is not among the sources.
    The specification gives its contract: the body [{"status": "ok"}]
    with status 200 for any request, authenticated or not. *)
Definition health_check (request : Request) : Response :=
  {| status_of := HTTP_200_OK; data := Status "ok" |}.

(** What a URL pattern leads to: a view, or the patterns of an included
    module. *)
Inductive Target :=
| View (name : string)
| Include (patterns : list (string * string)).

(** [s] without the prefix [p], when [p] is a prefix of [s]. *)
Fixpoint strip_prefix (p s : string) : option string :=
  match p, s with
  | EmptyString, _ => Some s
  | String a p', String b s' => if Ascii.eqb a b then strip_prefix p' s' else None
  | String _ _, EmptyString => None
  end.

(** [health_check/urls.py] *)
Definition health_check_urlpatterns : list (string * string) :=
  [("up", "health_check")].

(** [api/urls.py]; the patterns of [users.urls] and [budgets.urls] are
    given, those modules are not among the sources. *)
Definition urlpatterns (users_urls budgets_urls : list (string * string))
    : list (string * Target) :=
  [("api/token/", View "token_obtain_pair");
   ("api/token/refresh/", View "token_refresh");
   ("api/", Include users_urls);
   ("api/", Include budgets_urls);
   ("", Include health_check_urlpatterns)].

(** A [path()] route of a view matches the whole remaining path. *)
Fixpoint resolve_view (patterns : list (string * string)) (path : string)
    : option string :=
  match patterns with
  | [] => None
  | (route, name) :: rest =>
      if String.eqb route path then Some name else resolve_view rest path
  end.

(** Django's resolver: the first pattern that matches wins; an include
    matches when its prefix does and one of its patterns matches the
    rest. [path] is the request path without its leading slash. *)
Fixpoint resolve (patterns : list (string * Target)) (path : string)
    : option string :=
  match patterns with
  | [] => None
  | (route, View name) :: rest =>
      if String.eqb route path then Some name else resolve rest path
  | (route, Include inner) :: rest =>
      match strip_prefix route path with
      | Some remainder =>
          match resolve_view inner remainder with
          | Some name => Some name
          | None => resolve rest path
          end
      | None => resolve rest path
      end
  end.

(** A GET request for [path]: the response of the health check when the
    resolver finds it, [None] for every other view (their handlers are
    the functions above). *)
Definition get (users_urls budgets_urls : list (string * string))
    (path : string) (request : Request) : option Response :=
  match resolve (urlpatterns users_urls budgets_urls) path with
  | Some "health_check" => Some (health_check request)
  | _ => None
  end.

(** ** Notions used in the statements *)

(** A string that is empty or begins with a character that is not white
    space. *)
Definition no_leading_space (s : string) : Prop :=
  match s with
  | EmptyString => True
  | String c _ => Py.isspace c = false
  end.

(** The decimal 999999999.99 of the specification. *)
Definition cap : Q := 99999999999 # 100.

(** The body [payload] with the key [user] set to [x]. *)
Definition with_user (x : option Z) (payload : BudgetSerializer.Payload)
    : BudgetSerializer.Payload :=
  {| BudgetSerializer.p_user := x;
     BudgetSerializer.p_title := BudgetSerializer.p_title payload;
     BudgetSerializer.p_description := BudgetSerializer.p_description payload;
     BudgetSerializer.p_date := BudgetSerializer.p_date payload;
     BudgetSerializer.p_initial_amount := BudgetSerializer.p_initial_amount payload |}.

(** The rows a list response carries, paginated or not. *)
Definition results_of (resp : Response) : option (list (Z * Budget)) :=
  match data resp with
  | Rows results => Some results
  | Page _ results => Some results
  | _ => None
  end.

(** Every amount in the table has two decimal places and at most ten
    digits. *)
Definition amounts_well_formed (db : Database) : Prop :=
  forall pk row, budgets db !! pk = Some row ->
    PyDecimal.exponent (initial_amount row) = -2
    /\ (length (PyDecimal.digits (initial_amount row)) <= 10)%nat.

(** The keys of a JSON object. *)
Definition keys (fields : list (string * string)) : list string := fields.*1.

(** ** Fixtures, after [budgets/tests.py] and [users/tests.py] *)

Module fixtures.

Import PyDecimal.

(** The claims of a refresh token issued to the user with key [u]. *)
Definition refresh_of (u : Z) : TokenPayload :=
  {| token_type := "refresh"; exp := 2000; jti := Some "0f3c"; user_id := u |}.

(** A configuration under which the registrations of the tests pass:
    no password validator beyond the field's own minimum length, names
    kept as they are, and a token backend that knows two tokens. *)
Definition test_settings : Settings := {|
  PAGE_SIZE := 10;
  validate_password := fun _ => [];
  UnicodeUsernameValidator := fun _ => [];
  EmailValidator := fun _ => [];
  normalize_email := fun s => s;
  normalize_username := fun s => s;
  make_password := fun raw => "pbkdf2_sha256$" ++ raw;
  token_backend_decode := fun text =>
    if String.eqb text "refresh.testuser" then Some (refresh_of 1)
    else if String.eqb text "refresh.testuser2" then Some (refresh_of 2)
    else None;
  token_backend_encode := fun payload =>
    token_type payload ++ (if user_id payload =? 1 then ".testuser" else ".testuser2");
  ACCESS_TOKEN_LIFETIME := 300
|}.

Definition test_user : User := {|
  username := "testuser";
  email := "testuser@example.com";
  password := "pbkdf2_sha256$SecurePass123!";
  first_name := ""; last_name := "";
  user_created_at := 0; user_updated_at := 0
|}.

Definition test_user_2 : User := {|
  username := "testuser2";
  email := "testuser2@example.com";
  password := "pbkdf2_sha256$SecurePass123!";
  first_name := ""; last_name := "";
  user_created_at := 0; user_updated_at := 0
|}.

(** 3000.00, dated 2026-01-01 *)
Definition budget_for_user1 : Budget := {|
  user := 1;
  title := "Existing Budget";
  description := "Already created budget";
  date := 739617;
  initial_amount := mk false [d3; d0; d0; d0; d0; d0] (-2);
  created_at := 10;
  updated_at := 10
|}.

(** 2000.00, dated 2026-02-01 *)
Definition budget_for_user2 : Budget := {|
  user := 2;
  title := "User 2 Budget";
  description := "";
  date := 739648;
  initial_amount := mk false [d2; d0; d0; d0; d0; d0] (-2);
  created_at := 20;
  updated_at := 20
|}.

(** 1000.00, dated 2026-02-01 like the budget of the second user, and
    created after [budget_for_user1] *)
Definition later_budget_for_user1 : Budget := {|
  user := 1;
  title := "Budget 2";
  description := "Budget 2 description";
  date := 739648;
  initial_amount := mk false [d1; d0; d0; d0; d0; d0] (-2);
  created_at := 30;
  updated_at := 30
|}.

Definition two_users : gmap Z User := {[ 1 := test_user; 2 := test_user_2 ]}.

Definition database : Database := {|
  users := two_users;
  budgets := {[ 1 := budget_for_user1; 2 := budget_for_user2;
                3 := later_budget_for_user1 ]};
  token_blacklist := ∅
|}.

(** 5000.00, dated 2026-02-15 *)
Definition valid_budget_data : BudgetSerializer.Payload := {|
  BudgetSerializer.p_user := None;
  BudgetSerializer.p_title := Some "Monthly Budget";
  BudgetSerializer.p_description := Some "My monthly budget for expenses";
  BudgetSerializer.p_date := Some (Parsed 739662);
  BudgetSerializer.p_initial_amount :=
    Some (Parsed (mk false [d5; d0; d0; d0; d0; d0] (-2)))
|}.

(** The body of [test_update_budget_user_cannot_change_ownership]. *)
Definition hacked_budget : BudgetSerializer.Payload := {|
  BudgetSerializer.p_user := Some 2;
  BudgetSerializer.p_title := Some "Hacked Budget";
  BudgetSerializer.p_description := None;
  BudgetSerializer.p_date := None;
  BudgetSerializer.p_initial_amount := None
|}.

(** A request authenticated as the user with key [u]. *)
Definition authenticated (u : Z) : Request :=
  {| request_user := Some u; now := 1000; uuid4 := "7d44" |}.

Definition anonymous : Request :=
  {| request_user := None; now := 1000; uuid4 := "7d44" |}.

Definition new_user (pw pw_confirm : string) : UserRegistrationSerializer.Payload := {|
  UserRegistrationSerializer.r_username := Some "newuser";
  UserRegistrationSerializer.r_email := Some "newuser@example.com";
  UserRegistrationSerializer.r_password := Some pw;
  UserRegistrationSerializer.r_password_confirm := Some pw_confirm
|}.

(** One hundred million, written without decimals. *)
Definition hundred_million : PyDecimal.t :=
  mk false [d1; d0; d0; d0; d0; d0; d0; d0; d0] 0.

(** 0.005 *)
Definition half_a_cent : PyDecimal.t := mk false [d5] (-3).

(** A space followed by 255 letters: 256 characters. *)
Definition padded_title : string := String " " (Py.replicate 255 "A").

End fixtures.

(** ** [users/serializers.py]: [UserSerializer], and [UserViewSet.me] *)

(** A JSON value of a response that is a number or a text. *)
Inductive JSON :=
| JInt (n : Z)
| JStr (s : string).

Module UserSerializer.

(** [serializer.data] for a user: the fields of [Meta.fields], in
    that order. *)
Definition to_representation (pk : Z) (instance : User) : list (string * JSON) :=
  [("id", JInt pk);
   ("username", JStr (username instance));
   ("email", JStr (email instance));
   ("first_name", JStr (first_name instance));
   ("last_name", JStr (last_name instance))].

End UserSerializer.

(** [UserViewSet.me]: the serializer of the view set on [request.user].
    The authentication class reads the user of the access token from
    the table and refuses the request when the row is gone. *)
Definition me (request : Request) (db : Database) : status * list (string * JSON) :=
  match request_user request with
  | None =>
      (HTTP_401_UNAUTHORIZED,
       [("detail", JStr "Authentication credentials were not provided.")])
  | Some u =>
      match users db !! u with
      | None => (HTTP_401_UNAUTHORIZED, [("detail", JStr "User not found")])
      | Some instance => (HTTP_200_OK, UserSerializer.to_representation u instance)
      end
  end.

(** The value of a key of a JSON object. *)
Fixpoint json_get (key : string) (object : list (string * JSON)) : option JSON :=
  match object with
  | [] => None
  | (k, v) :: rest => if String.eqb k key then Some v else json_get key rest
  end.

(** ** Further notions used in the statements *)

(** The body a client sends to put back a budget it was shown. *)
Definition payload_of (row : Budget) : BudgetSerializer.Payload :=
  {| BudgetSerializer.p_user := Some (user row);
     BudgetSerializer.p_title := Some (title row);
     BudgetSerializer.p_description := Some (description row);
     BudgetSerializer.p_date := Some (Parsed (date row));
     BudgetSerializer.p_initial_amount := Some (Parsed (initial_amount row)) |}.

(** No two users of the table share a username or an e-mail address. *)
Definition unique_names (db : Database) : Prop :=
  forall pk1 pk2 r1 r2,
    users db !! pk1 = Some r1 -> users db !! pk2 = Some r2 ->
    username r1 = username r2 \/ email r1 = email r2 -> pk1 = pk2.

(** The row [row] comes strictly before every other budget of its
    owner in the order of [Meta.ordering]. *)
Definition latest_of_owner (db : Database) (pk : Z) (row : Budget) : Prop :=
  forall pk' r, budgets db !! pk' = Some r -> user r = user row -> pk' <> pk ->
    date r < date row \/ (date r = date row /\ created_at r < created_at row).

(** The messages under a key of [serializer.errors]. *)
Fixpoint errors_of (key : string) (errors : list (string * list string))
    : option (list string) :=
  match errors with
  | [] => None
  | (k, messages) :: rest =>
      if String.eqb k key then Some messages else errors_of key rest
  end.

(** 999999999.990000001 *)
Definition just_above_the_cap : PyDecimal.t :=
  PyDecimal.mk false
    [PyDecimal.d9; PyDecimal.d9; PyDecimal.d9; PyDecimal.d9; PyDecimal.d9;
     PyDecimal.d9; PyDecimal.d9; PyDecimal.d9; PyDecimal.d9; PyDecimal.d9;
     PyDecimal.d9; PyDecimal.d0; PyDecimal.d0; PyDecimal.d0; PyDecimal.d0;
     PyDecimal.d0; PyDecimal.d0; PyDecimal.d1] (-9).

(** A key that is missing from the body, or whose text is empty or
    white space only. *)
Definition lacks (value : option string) : Prop :=
  match value with
  | None => True
  | Some text => Py.strip text = ""
  end.

(** * Properties *)

(** ** Stripping *)

Section strip_facts.

Lemma is_empty_true (s : string) : Py.is_empty s = true <-> s = "".
Proof. destruct s; simpl; split; congruence. Qed.

Lemma rstrip_idempotent (s : string) : Py.rstrip (Py.rstrip s) = Py.rstrip s.
Proof.
  induction s as [|c r IH]; simpl; [reflexivity|].
  destruct (Py.isspace c && Py.is_empty (Py.rstrip r)) eqn:E; simpl.
  - reflexivity.
  - rewrite IH, E. reflexivity.
Qed.

Lemma lstrip_no_leading_space (s : string) : no_leading_space (Py.lstrip s).
Proof.
  induction s as [|c r IH]; simpl; [exact I|].
  destruct (Py.isspace c) eqn:E; simpl; auto.
Qed.

Lemma lstrip_fixed (s : string) : no_leading_space s -> Py.lstrip s = s.
Proof. destruct s as [|c r]; simpl; intros H; [reflexivity | now rewrite H]. Qed.

Lemma rstrip_no_leading_space (s : string) :
  no_leading_space s -> no_leading_space (Py.rstrip s).
Proof.
  destruct s as [|c r]; simpl; intros H; [exact I|].
  rewrite H. simpl. exact H.
Qed.

Lemma strip_idempotent (s : string) : Py.strip (Py.strip s) = Py.strip s.
Proof.
  unfold Py.strip.
  rewrite (lstrip_fixed (Py.rstrip (Py.lstrip s))).
  - apply rstrip_idempotent.
  - apply rstrip_no_leading_space, lstrip_no_leading_space.
Qed.

Lemma lstrip_length (s : string) : (String.length (Py.lstrip s) <= String.length s)%nat.
Proof.
  induction s as [|c r IH]; simpl; [lia|].
  destruct (Py.isspace c); simpl; lia.
Qed.

Lemma rstrip_length (s : string) : (String.length (Py.rstrip s) <= String.length s)%nat.
Proof.
  induction s as [|c r IH]; simpl; [lia|].
  destruct (Py.isspace c && Py.is_empty (Py.rstrip r)); simpl; lia.
Qed.

Lemma strip_len (s : string) : Py.len (Py.strip s) <= Py.len s.
Proof.
  unfold Py.len, Py.strip.
  pose proof (rstrip_length (Py.lstrip s)). pose proof (lstrip_length s). lia.
Qed.

End strip_facts.

(** ** [CharField] *)

Section CharField_facts.

(** A character field hands on the stripped text, or nothing. *)
Lemma CharField_value_is_stripped (f : CharField) (partial : bool)
    (text value : string) :
  CharField_run_validation f partial (Some text) = Value value ->
  value = Py.strip text.
Proof.
  unfold CharField_run_validation.
  destruct (Py.is_empty text || Py.is_empty (Py.strip text)) eqn:E.
  - destruct (cf_allow_blank f); [|discriminate].
    intros [= <-]. apply orb_true_iff in E as [E|E]; apply is_empty_true in E.
    + subst text. reflexivity.
    + now rewrite E.
  - unfold CharField_to_internal_value.
    destruct (run_validators _ _); [|discriminate]. now intros [= <-].
Qed.

(** Blank text is refused by a field that does not allow it. *)
Lemma CharField_blank (f : CharField) (partial : bool) (text : string) :
  cf_allow_blank f = false -> Py.strip text = "" ->
  CharField_run_validation f partial (Some text) = Fail [cf_msg_blank f].
Proof.
  intros Hb Hs. unfold CharField_run_validation.
  rewrite Hs, Hb. simpl. now rewrite orb_true_r.
Qed.

Lemma run_validators_app {A : Type} (vs ws : list (A -> list string)) (x : A) :
  run_validators (vs ++ ws) x = (run_validators vs x ++ run_validators ws x)%list.
Proof. unfold run_validators. apply flat_map_app. Qed.

Lemma run_validators_raises {A : Type} (vs : list (A -> list string))
    (validator : A -> list string) (x : A) :
  validator ∈ vs -> validator x <> [] -> run_validators vs x <> [].
Proof.
  intros Hin Hne. apply list_elem_of_split in Hin as (l1 & l2 & ->).
  rewrite run_validators_app. unfold run_validators at 2. simpl.
  intros H. apply app_eq_nil in H as [_ H]. apply app_eq_nil in H as [H _].
  contradiction.
Qed.

(** One validator that raises makes the field fail. *)
Lemma CharField_validator_raises (f : CharField) (partial : bool)
    (text : string) (validator : string -> list string) :
  cf_allow_blank f = false ->
  validator ∈ CharField_validators f ->
  validator (Py.strip text) <> [] ->
  exists detail, CharField_run_validation f partial (Some text) = Fail detail.
Proof.
  intros Hb Hin Hne. unfold CharField_run_validation.
  destruct (Py.is_empty text || Py.is_empty (Py.strip text)).
  - rewrite Hb. eauto.
  - unfold CharField_to_internal_value.
    pose proof (run_validators_raises _ _ _ Hin Hne) as Hr.
    destruct (run_validators _ _); [contradiction | eauto].
Qed.

(** Without a key the text field of a full request fails. *)
Lemma CharField_required (f : CharField) :
  cf_required f = true ->
  CharField_run_validation f false None = Fail [cf_msg_required f].
Proof. intros H. simpl. unfold validate_empty_values. now rewrite H. Qed.

End CharField_facts.

(** ** Decimals *)

Section decimal_facts.

Import PyDecimal.

Lemma coefficient_snoc (ds : list digit) (d : digit) :
  coefficient (ds ++ [d]) = 10 * coefficient ds + digit_value d.
Proof. unfold coefficient. now rewrite fold_left_app. Qed.

Lemma digit_value_bounds (d : digit) : 0 <= digit_value d < 10.
Proof. destruct d; simpl; lia. Qed.

Lemma coefficient_bounds (ds : list digit) :
  0 <= coefficient ds < 10 ^ Z.of_nat (length ds).
Proof.
  induction ds as [|d ds IH] using rev_ind.
  - simpl. unfold coefficient. simpl. lia.
  - rewrite coefficient_snoc, length_app. simpl length.
    replace (Z.of_nat (length ds + 1)) with (Z.of_nat (length ds) + 1) by lia.
    rewrite Z.pow_add_r by lia.
    pose proof (digit_value_bounds d). lia.
Qed.

Lemma coefficient_app_zeros (ds : list digit) (k : nat) :
  coefficient (ds ++ repeat d0 k) = coefficient ds * 10 ^ Z.of_nat k.
Proof.
  induction k as [|k IH].
  - simpl. rewrite app_nil_r. lia.
  - replace (repeat d0 (S k)) with (repeat d0 k ++ [d0])%list.
    + rewrite app_assoc, coefficient_snoc, IH. simpl digit_value.
      replace (Z.of_nat (S k)) with (Z.of_nat k + 1) by lia.
      rewrite Z.pow_add_r by lia. lia.
    + change [d0] with (repeat d0 1). rewrite <- repeat_app.
      now replace (k + 1)%nat with (S k) by lia.
Qed.

(** The amount field accepts exactly the numerals with at most two
    decimal places and at most eight digits before the point. *)
Lemma validate_precision_Valid (d v : t) :
  validate_precision BudgetSerializer.initial_amount_field d = Valid v <->
  v = d /\ -2 <= exponent d /\ Z.of_nat (length (digits d)) + exponent d <= 8.
Proof.
  unfold validate_precision. simpl.
  destruct (Z.leb_spec 0 (exponent d)).
  - repeat (match goal with |- context [?a <? ?b] => destruct (Z.ltb_spec a b) end);
      split; try discriminate; try (intros [= <-]); try (intros (-> & ? & ?));
      try lia; auto with lia.
  - destruct (Z.ltb_spec (Z.abs (exponent d)) (Z.of_nat (length (digits d))));
    repeat (match goal with |- context [?a <? ?b] => destruct (Z.ltb_spec a b) end);
      split; try discriminate; try (intros [= <-]); try (intros (-> & ? & ?));
      try lia; auto with lia.
Qed.

Lemma validate_precision_places (d : t) :
  exponent d < -2 ->
  exists detail,
    validate_precision BudgetSerializer.initial_amount_field d = ValidationError detail.
Proof.
  intros H.
  destruct (validate_precision _ d) as [v|detail] eqn:E; [|eauto].
  apply validate_precision_Valid in E. lia.
Qed.

(** Quantizing a numeral that needs no rounding. *)
Lemma quantize_Some (d : t) :
  -2 <= exponent d ->
  exists q, quantize 2 d = Some q /\ exponent q = -2 /\ sign q = sign d
    /\ coefficient (digits q) = coefficient (digits d) * 10 ^ (exponent d + 2)
    /\ Z.of_nat (length (digits q))
       <= Z.max 1 (Z.of_nat (length (digits d)) + exponent d + 2).
Proof.
  intros H. unfold quantize. change (- (2)) with (-2).
  destruct (Z.ltb_spec (exponent d) (-2)); [lia|].
  eexists. split; [reflexivity|]. simpl. repeat split.
  - destruct (Z.eqb_spec (coefficient (digits d)) 0) as [E|E].
    + rewrite E. reflexivity.
    + rewrite coefficient_app_zeros. f_equal. f_equal. lia.
  - destruct (Z.eqb_spec (coefficient (digits d)) 0); simpl length.
    + lia.
    + rewrite length_app, repeat_length. lia.
Qed.

Lemma to_Q_two_places (q : t) :
  exponent q = -2 -> to_Q q = (signed_coefficient q # 100).
Proof. unfold to_Q. intros ->. reflexivity. Qed.

Lemma quantize_value (d q : t) :
  quantize 2 d = Some q -> to_Q q == to_Q d.
Proof.
  intros Hq. assert (-2 <= exponent d) as Hexp.
  { unfold quantize in Hq. change (- (2)) with (-2) in Hq.
    destruct (Z.ltb_spec (exponent d) (-2)); [discriminate|lia]. }
  destruct (quantize_Some d Hexp) as (q' & Hq' & He & Hs & Hc & _).
  rewrite Hq in Hq'. injection Hq' as <-.
  rewrite (to_Q_two_places q He).
  assert (signed_coefficient q = signed_coefficient d * 10 ^ (exponent d + 2)) as ->.
  { unfold signed_coefficient. rewrite Hs, Hc. destruct (sign d); lia. }
  unfold to_Q. destruct (Z.leb_spec 0 (exponent d)).
  - unfold Qeq, inject_Z. simpl. rewrite Z.pow_add_r by lia. lia.
  - assert (exponent d = -1 \/ exponent d = -2) as [E|E] by lia; rewrite E;
      unfold Qeq; simpl; lia.
Qed.

End decimal_facts.

(** ** The amount of a budget *)

Section amount_facts.

Import PyDecimal BudgetSerializer.

Lemma quantized_bounds (d q : t) :
  -2 <= exponent d -> Z.of_nat (length (digits d)) + exponent d <= 8 ->
  quantize 2 d = Some q ->
  exponent q = -2 /\ (length (digits q) <= 10)%nat
  /\ 0 <= coefficient (digits q) < 10 ^ 10.
Proof.
  intros He Hw Hq.
  destruct (quantize_Some d He) as (q' & Hq' & Hexp & _ & _ & Hlen).
  rewrite Hq in Hq'. injection Hq' as <-.
  assert (length (digits q) <= 10)%nat as Hl by lia.
  repeat split; try assumption; pose proof (coefficient_bounds (digits q)) as Hb.
  - lia.
  - eapply Z.lt_le_trans; [apply Hb|]. apply Z.pow_le_mono_r; lia.
Qed.

(** What the amount field lets through, and in which form: the numeral
    has at most two decimal places and eight digits before the point,
    it is not less than the float 0.01, and it comes out quantized. *)
Lemma run_initial_amount_Value (partial : bool) (d v : t) :
  run_initial_amount partial (Some (Parsed d)) = Value v <->
  -2 <= exponent d /\ Z.of_nat (length (digits d)) + exponent d <= 8
  /\ quantize 2 d = Some v /\ (float_0_01 <= to_Q v)%Q.
Proof.
  unfold run_initial_amount, with_validate_method, DecimalField_run_validation,
    DecimalField_to_internal_value.
  change (df_decimal_places initial_amount_field) with 2.
  destruct (validate_precision initial_amount_field d) as [d'|detail] eqn:Ep.
  - apply validate_precision_Valid in Ep as (-> & He & Hw).
    destruct (quantize 2 d) as [q|] eqn:Eq.
    + destruct (quantized_bounds d q He Hw Eq) as (Hexp & _ & Hc).
      assert (to_Q q = (signed_coefficient q # 100)) as HQ
        by now apply to_Q_two_places.
      unfold run_validators, DecimalField_validators, MinValueValidator. simpl.
      unfold lt_float. destruct (Qle_bool float_0_01 (to_Q q)) eqn:Emin; simpl.
      * apply Qle_bool_iff in Emin.
        unfold validate_initial_amount, le_zero, gt_float.
        assert (Qle_bool (to_Q q) 0 = false) as ->.
        { apply not_true_is_false. intros E. apply Qle_bool_iff in E.
          rewrite HQ in Emin, E. unfold Qle, float_0_01 in *. simpl in *. lia. }
        assert (Qle_bool (to_Q q) float_999999999_99 = true) as ->.
        { apply Qle_bool_iff. rewrite HQ. unfold Qle, float_999999999_99. simpl.
          unfold signed_coefficient. destruct (sign q); lia. }
        simpl. split.
        -- intros [= <-]. auto.
        -- intros (_ & _ & [= <-] & _). reflexivity.
      * split; [discriminate|]. intros (_ & _ & [= <-] & Hmin).
        apply Qle_bool_iff in Hmin. congruence.
    + split; [discriminate|]. intros (_ & _ & ? & _). discriminate.
  - split; [discriminate|]. intros (He & Hw & _).
    assert (validate_precision initial_amount_field d = Valid d) as E
      by now apply validate_precision_Valid.
    congruence.
Qed.

(** A submitted numeral is let through or refused, never skipped. *)
Lemma run_initial_amount_decided (partial : bool) (d : t) :
  (exists v, run_initial_amount partial (Some (Parsed d)) = Value v) \/
  (exists detail, run_initial_amount partial (Some (Parsed d)) = Fail detail).
Proof.
  unfold run_initial_amount, with_validate_method, DecimalField_run_validation.
  destruct (DecimalField_to_internal_value _ d); [|eauto].
  destruct (run_validators _ _); [|eauto].
  destruct (validate_initial_amount _); eauto.
Qed.

Lemma run_initial_amount_refused (partial : bool) (d : t) :
  (forall v, run_initial_amount partial (Some (Parsed d)) <> Value v) ->
  exists detail, run_initial_amount partial (Some (Parsed d)) = Fail detail.
Proof.
  intros H. destruct (run_initial_amount_decided partial d) as [[v Hv]|?]; [|assumption].
  now apply H in Hv.
Qed.

(** One cent: [MinValueValidator(0.01)] compares with the float 0.01,
    which is a little more than one hundredth. *)
Example one_cent_refused :
  run_initial_amount false (Some (Parsed (mk false [d1] (-2))))
  = Fail ["Ensure this value is greater than or equal to 0.01."].
Proof. reflexivity. Qed.

Example two_cents_accepted :
  run_initial_amount false (Some (Parsed (mk false [d2] (-2))))
  = Value (mk false [d2] (-2)).
Proof. reflexivity. Qed.

Example five_thousand_accepted :
  run_initial_amount false (Some (Parsed (mk false [d5; d0; d0; d0; d0; d0] (-2))))
  = Value (mk false [d5; d0; d0; d0; d0; d0] (-2)).
Proof. reflexivity. Qed.

End amount_facts.

(** ** Tables *)

Section table_facts.

Context {A : Type}.

Lemma foldr_max_upper (ks : list Z) (k : Z) : k ∈ ks -> k <= foldr Z.max 0 ks.
Proof.
  induction ks as [|x ks IH]; intros Hin.
  - inversion Hin.
  - apply elem_of_cons in Hin as [->|Hin]; simpl; [lia|].
    specialize (IH Hin). lia.
Qed.

(** The key of an INSERT is not in use. *)
Lemma next_pk_fresh (table : gmap Z A) : table !! next_pk table = None.
Proof.
  apply not_elem_of_dom. intros Hin.
  apply elem_of_elements, foldr_max_upper in Hin. unfold next_pk in Hin. lia.
Qed.

Lemma next_pk_insert (table : gmap Z A) (row : A) :
  <[next_pk table := row]> table !! next_pk table = Some row
  /\ size (<[next_pk table := row]> table) = S (size table)
  /\ forall k, k <> next_pk table ->
       <[next_pk table := row]> table !! k = table !! k.
Proof.
  split; [apply lookup_insert_eq|]. split.
  - apply map_size_insert_None, next_pk_fresh.
  - intros k Hk. now apply lookup_insert_ne.
Qed.

End table_facts.

(** ** The budget view set *)

Section budget_view_facts.

Import BudgetSerializer BudgetViewSet.

(** The queryset of a user holds the rows of that user and no other. *)
Lemma get_queryset_lookup (u : Z) (db : Database) (pk : Z) (row : Budget) :
  get_queryset u db !! pk = Some row <->
  budgets db !! pk = Some row /\ user row = u.
Proof. unfold get_queryset. rewrite map_lookup_filter_Some. reflexivity. Qed.

Lemma get_object_other_owner (a b : Z) (db : Database) (pk : Z) (row : Budget) :
  a <> b -> budgets db !! pk = Some row -> user row = b ->
  get_object a pk db = None.
Proof.
  intros Hne Hrow Hb. unfold get_object.
  destruct (get_queryset a db !! pk) as [row'|] eqn:E; [|reflexivity].
  apply get_queryset_lookup in E as [E1 E2]. congruence.
Qed.

(** What a valid body leaves in the validated data. *)
Lemma is_valid_inl (partial : bool) (payload : Payload) (vd : ValidatedData) :
  is_valid partial payload = inl vd ->
  vd_title vd = field_value (run_title partial (p_title payload))
  /\ vd_description vd = field_value (run_description partial (p_description payload))
  /\ vd_date vd = field_value (run_date partial (p_date payload))
  /\ vd_initial_amount vd
     = field_value (run_initial_amount partial (p_initial_amount payload))
  /\ (forall detail, run_title partial (p_title payload) <> Fail detail)
  /\ (forall detail,
        run_initial_amount partial (p_initial_amount payload) <> Fail detail).
Proof.
  unfold is_valid.
  destruct (run_title partial (p_title payload)),
    (run_description partial (p_description payload)),
    (run_date partial (p_date payload)),
    (run_initial_amount partial (p_initial_amount payload));
    simpl; intros [= <-]; simpl; repeat split; congruence.
Qed.

Lemma create_201 (request : Request) (payload : Payload) (db : Database)
    (resp : Response) (db' : Database) :
  create request payload db = (resp, db') ->
  status_of resp = HTTP_201_CREATED ->
  exists u vd row,
    request_user request = Some u
    /\ is_valid false payload = inl vd
    /\ BudgetSerializer.create u (now request) vd = Some row
    /\ data resp = BudgetData (next_pk (budgets db)) row
    /\ users db' = users db
    /\ token_blacklist db' = token_blacklist db
    /\ budgets db' = <[next_pk (budgets db) := row]> (budgets db).
Proof.
  unfold create, perform_create.
  destruct (request_user request) as [u|]; [|intros [= <- <-]; discriminate].
  destruct (is_valid false payload) as [vd|errors] eqn:Ev;
    [|intros [= <- <-]; discriminate].
  destruct (BudgetSerializer.create u (now request) vd) as [row|] eqn:Er;
    [|intros [= <- <-]; discriminate].
  intros [= <- <-] _. exists u, vd, row. simpl. repeat split; auto.
Qed.

Lemma update_200 (partial : bool) (request : Request) (pk : Z)
    (payload : Payload) (db : Database) (resp : Response) (db' : Database) :
  update partial request pk payload db = (resp, db') ->
  status_of resp = HTTP_200_OK ->
  exists u instance vd,
    request_user request = Some u
    /\ get_object u pk db = Some instance
    /\ is_valid partial payload = inl vd
    /\ data resp = BudgetData pk (BudgetSerializer.update u (now request) instance vd)
    /\ users db' = users db
    /\ token_blacklist db' = token_blacklist db
    /\ budgets db'
       = <[pk := BudgetSerializer.update u (now request) instance vd]> (budgets db).
Proof.
  unfold update, perform_update.
  destruct (request_user request) as [u|]; [|intros [= <- <-]; discriminate].
  destruct (get_object u pk db) as [instance|] eqn:Eo;
    [|intros [= <- <-]; discriminate].
  destruct (is_valid partial payload) as [vd|errors] eqn:Ev;
    [|intros [= <- <-]; discriminate].
  intros [= <- <-] _. exists u, instance, vd. simpl. repeat split; auto.
Qed.

(** A submitted title is let through or refused, never skipped. *)
Lemma run_title_decided (partial : bool) (text : string) :
  (exists v, run_title partial (Some text) = Value v) \/
  (exists detail, run_title partial (Some text) = Fail detail).
Proof.
  unfold run_title, with_validate_method, CharField_run_validation.
  destruct (Py.is_empty text || Py.is_empty (Py.strip text)).
  - right. eexists. reflexivity.
  - destruct (run_validators _ _); [|eauto].
    destruct (validate_title _); eauto.
Qed.

(** The creation of a budget needs a title, a date and an amount. *)
Lemma create_201_fields (request : Request) (payload : Payload) (db : Database)
    (resp : Response) (db' : Database) :
  create request payload db = (resp, db') ->
  status_of resp = HTTP_201_CREATED ->
  exists pk row text,
    data resp = BudgetData pk row /\ budgets db' !! pk = Some row
    /\ p_title payload = Some text
    /\ run_title false (Some text) = Value (title row)
    /\ run_initial_amount false (p_initial_amount payload)
       = Value (initial_amount row).
Proof.
  intros Hc Hs.
  destruct (create_201 _ _ _ _ _ Hc Hs)
    as (u & vd & row & Hu & Hv & Hrow & Hdata & _ & _ & Hb).
  apply is_valid_inl in Hv as (Ht & _ & _ & Ha & Hnt & _).
  unfold BudgetSerializer.create in Hrow.
  destruct (vd_date vd) as [dt|]; [|discriminate].
  destruct (vd_initial_amount vd) as [amount|] eqn:Eam; [|discriminate].
  injection Hrow as <-.
  destruct (p_title payload) as [text|] eqn:Et.
  - exists (next_pk (budgets db)), {| user := u; title := default "" (vd_title vd);
      description := default "" (vd_description vd); date := dt;
      initial_amount := amount; created_at := now request;
      updated_at := now request |}, text.
    simpl. repeat split; try assumption.
    + rewrite Hb. apply lookup_insert_eq.
    + rewrite Ht. destruct (run_title_decided false text) as [[v E]|[detail E]].
      * now rewrite E.
      * exfalso. now apply (Hnt detail).
    + destruct (run_initial_amount false (p_initial_amount payload)); try discriminate.
      simpl in Ha. congruence.
  - exfalso. apply (Hnt ["Title is required."]). reflexivity.
Qed.

End budget_view_facts.

(** ** Ownership of budgets *)

Section ownership.

Import BudgetSerializer BudgetViewSet.

(** C1. A user who asks for, updates or deletes the budget of another
    user by its key gets the response "not found" (404, not 403) and
    nothing is changed, whatever the body of the update: the object is
    looked up in the requesting user's own budgets, which are exactly
    the rows this user owns. *)
Theorem cross_user_access_is_not_found
    (db : Database) (a b pk : Z) (row : Budget) (request : Request)
    (partial : bool) (payload : Payload) :
  a <> b ->
  budgets db !! pk = Some row ->
  user row = b ->
  request_user request = Some a ->
  retrieve request pk db = not_found
  /\ update partial request pk payload db = (not_found, db)
  /\ destroy request pk db = (not_found, db)
  /\ status_of not_found = HTTP_404_NOT_FOUND
  /\ status_of not_found <> HTTP_403_FORBIDDEN
  /\ (forall pk' row',
        get_object a pk' db = Some row' <->
        budgets db !! pk' = Some row' /\ user row' = a).
Proof.
  intros Hne Hrow Hb Hreq.
  pose proof (get_object_other_owner a b db pk row Hne Hrow Hb) as Hnone.
  unfold retrieve, update, destroy. rewrite Hreq, Hnone.
  do 3 (split; [reflexivity|]). split; [reflexivity|]. split; [discriminate|].
  intros pk' row'. apply get_queryset_lookup.
Qed.

Lemma cross_user_access_is_not_found_witness :
  retrieve (fixtures.authenticated 2) 1 fixtures.database = not_found
  /\ update true (fixtures.authenticated 2) 1 fixtures.hacked_budget fixtures.database
     = (not_found, fixtures.database)
  /\ destroy (fixtures.authenticated 2) 1 fixtures.database
     = (not_found, fixtures.database)
  /\ status_of not_found = HTTP_404_NOT_FOUND
  /\ status_of not_found <> HTTP_403_FORBIDDEN
  /\ (forall pk' row',
        get_object 2 pk' fixtures.database = Some row' <->
        budgets fixtures.database !! pk' = Some row' /\ user row' = 2).
Proof.
  apply (cross_user_access_is_not_found fixtures.database 2 1 1
           fixtures.budget_for_user1 (fixtures.authenticated 2) true
           fixtures.hacked_budget).
  - lia.
  - vm_compute. reflexivity.
  - reflexivity.
  - reflexivity.
Defined.

Lemma is_valid_with_user (partial : bool) (x : option Z) (payload : Payload) :
  is_valid partial (with_user x payload) = is_valid partial payload.
Proof. reflexivity. Qed.

(** C2. The budget that a create or an update by the authenticated
    user [u] leaves in the table is owned by [u], and a [user] key in
    the body changes nothing of what the request does.  An update
    leaves every budget of the table with the owner it had. *)
Theorem owner_is_the_authenticated_user
    (request : Request) (u : Z) (payload : Payload) (db : Database) :
  request_user request = Some u ->
  (forall resp db',
      create request payload db = (resp, db') ->
      status_of resp = HTTP_201_CREATED ->
      exists pk row,
        data resp = BudgetData pk row /\ budgets db' !! pk = Some row
        /\ user row = u)
  /\ (forall partial pk resp db',
        update partial request pk payload db = (resp, db') ->
        status_of resp = HTTP_200_OK ->
        exists row,
          data resp = BudgetData pk row /\ budgets db' !! pk = Some row
          /\ user row = u
          /\ forall pk' old, budgets db !! pk' = Some old ->
               exists new, budgets db' !! pk' = Some new /\ user new = user old)
  /\ (forall x,
        create request (with_user x payload) db = create request payload db
        /\ forall partial pk,
             update partial request pk (with_user x payload) db
             = update partial request pk payload db).
Proof.
  intros Hreq. split; [|split].
  - intros resp db' Hc Hs.
    destruct (create_201 _ _ _ _ _ Hc Hs)
      as (u' & vd & row & Hu & _ & Hrow & Hdata & _ & _ & Hb).
    assert (u' = u) as -> by congruence.
    exists (next_pk (budgets db)), row. repeat split; try assumption.
    + rewrite Hb. apply lookup_insert_eq.
    + unfold BudgetSerializer.create in Hrow.
      destruct (vd_date vd), (vd_initial_amount vd); try discriminate.
      now injection Hrow as <-.
  - intros partial pk resp db' Hup Hs.
    destruct (update_200 _ _ _ _ _ _ _ Hup Hs)
      as (u' & instance & vd & Hu & Hobj & _ & Hdata & _ & _ & Hb).
    assert (u' = u) as -> by congruence.
    eexists. repeat split; [exact Hdata | | reflexivity | ].
    + rewrite Hb. apply lookup_insert_eq.
    + intros pk' old Hold. rewrite Hb.
      destruct (decide (pk = pk')) as [->|Hpk].
      * rewrite lookup_insert_eq. eexists. split; [reflexivity|]. simpl.
        apply get_queryset_lookup in Hobj as [Hobj Hown]. congruence.
      * rewrite lookup_insert_ne by assumption. eauto.
  - intros x. split; [reflexivity|]. intros partial pk. reflexivity.
Qed.

Lemma owner_is_the_authenticated_user_witness :
  (exists pk row,
      data (create (fixtures.authenticated 1)
              (with_user (Some 2) fixtures.valid_budget_data)
              fixtures.database).1 = BudgetData pk row
      /\ budgets (create (fixtures.authenticated 1)
                    (with_user (Some 2) fixtures.valid_budget_data)
                    fixtures.database).2 !! pk = Some row
      /\ user row = 1)
  /\ (exists row,
        data (update true (fixtures.authenticated 1) 1 fixtures.hacked_budget
                fixtures.database).1 = BudgetData 1 row
        /\ budgets (update true (fixtures.authenticated 1) 1 fixtures.hacked_budget
                      fixtures.database).2 !! 1 = Some row
        /\ user row = 1).
Proof.
  pose proof (owner_is_the_authenticated_user (fixtures.authenticated 1) 1
                (with_user (Some 2) fixtures.valid_budget_data)
                fixtures.database eq_refl) as (Hc & _ & _).
  pose proof (owner_is_the_authenticated_user (fixtures.authenticated 1) 1
                fixtures.hacked_budget fixtures.database eq_refl) as (_ & Hu & _).
  split.
  - destruct (Hc _ _ (surjective_pairing _)) as (pk & row & Hd & Hl & Ho).
    + vm_compute. reflexivity.
    + exists pk, row. auto.
  - destruct (Hu true 1 _ _ (surjective_pairing _)) as (row & Hd & Hl & Ho & _).
    + vm_compute. reflexivity.
    + exists row. auto.
Defined.

End ownership.

(** ** Validation of the amount and of the title *)

Section field_validation.

Import PyDecimal BudgetSerializer BudgetViewSet.

(** The two [validate_] methods on their own, on the value the field
    class hands them. *)
Lemma validate_title_alone (value : string) :
  (Py.strip value = "" \/ 255 < Py.len value ->
     exists detail, validate_title value = ValidationError detail)
  /\ (Py.strip value <> "" -> Py.len value <= 255 ->
      validate_title value = Valid (Py.strip value)).
Proof.
  unfold validate_title. split.
  - intros [E|E].
    + rewrite E. simpl. rewrite orb_true_r. eauto.
    + destruct (Py.is_empty value || Py.is_empty (Py.strip value)); [eauto|].
      destruct (Z.ltb_spec 255 (Py.len value)); [eauto|lia].
  - intros Hne Hlen.
    destruct (Py.is_empty value || Py.is_empty (Py.strip value)) eqn:E.
    + exfalso. apply orb_true_iff in E as [E|E]; apply is_empty_true in E.
      * subst value. now apply Hne.
      * contradiction.
    + destruct (Z.ltb_spec 255 (Py.len value)); [lia|reflexivity].
Qed.

Lemma validate_initial_amount_alone (value : PyDecimal.t) :
  ((to_Q value <= 0)%Q \/ (float_999999999_99 < to_Q value)%Q ->
     exists detail, validate_initial_amount value = ValidationError detail)
  /\ ((0 < to_Q value)%Q -> (to_Q value <= cap)%Q ->
      validate_initial_amount value = Valid value).
Proof.
  unfold validate_initial_amount, le_zero, gt_float. split.
  - intros [E|E].
    + apply Qle_bool_iff in E. rewrite E. eauto.
    + destruct (Qle_bool (to_Q value) 0); [eauto|].
      destruct (Qle_bool (to_Q value) float_999999999_99) eqn:E'; [|simpl; eauto].
      apply Qle_bool_iff in E'. exfalso. eapply Qlt_not_le; eassumption.
  - intros Hpos Hcap.
    destruct (Qle_bool (to_Q value) 0) eqn:E.
    + apply Qle_bool_iff in E. exfalso. eapply Qlt_not_le; eassumption.
    + assert (Qle_bool (to_Q value) float_999999999_99 = true) as ->; [|reflexivity].
      apply Qle_bool_iff. eapply Qle_trans; [exact Hcap|].
      unfold Qle, cap, float_999999999_99. simpl. lia.
Qed.

(** C5, as the code has it. A submitted amount that is zero or
    negative is refused, and so is one above 999999999.99.  An amount
    with at most two decimal places and at most eight digits before
    the decimal point that is greater than 0.01 is accepted; it is
    handed on quantized to two decimal places, with its value
    unchanged. *)
Theorem amount_validation (partial : bool) (d : PyDecimal.t) :
  ((to_Q d <= 0)%Q ->
     exists detail, run_initial_amount partial (Some (Parsed d)) = Fail detail)
  /\ ((cap < to_Q d)%Q ->
        exists detail, run_initial_amount partial (Some (Parsed d)) = Fail detail)
  /\ (-2 <= exponent d ->
      Z.of_nat (length (digits d)) + exponent d <= 8 ->
      (1 # 100 < to_Q d)%Q ->
      exists v, run_initial_amount partial (Some (Parsed d)) = Value v
                /\ quantize 2 d = Some v /\ (to_Q v == to_Q d)%Q).
Proof.
  split; [|split].
  - intros Hle. apply run_initial_amount_refused. intros v Hv.
    apply run_initial_amount_Value in Hv as (_ & _ & Hq & Hmin).
    apply quantize_value in Hq. rewrite Hq in Hmin.
    assert (float_0_01 <= 0)%Q as H by (eapply Qle_trans; eassumption).
    unfold Qle, float_0_01 in H. simpl in H. lia.
  - intros Hgt. apply run_initial_amount_refused. intros v Hv.
    apply run_initial_amount_Value in Hv as (He & Hw & Hq & _).
    destruct (quantized_bounds d v He Hw Hq) as (Hexp & _ & Hc).
    apply quantize_value in Hq. rewrite <- Hq in Hgt.
    rewrite (to_Q_two_places v Hexp) in Hgt.
    unfold Qlt, cap in Hgt. simpl in Hgt.
    unfold signed_coefficient in Hgt. destruct (sign v); lia.
  - intros He Hw Hgt.
    destruct (quantize_Some d He) as (q & Hq & Hexp & _).
    exists q. pose proof (quantize_value d q Hq) as Hv.
    split; [|split; assumption].
    apply run_initial_amount_Value. repeat split; try assumption.
    rewrite <- Hv in Hgt. rewrite (to_Q_two_places q Hexp) in *.
    unfold Qlt, Qle, float_0_01 in *. simpl in *. lia.
Qed.

Lemma amount_validation_witness :
  (exists detail,
      run_initial_amount false (Some (Parsed (mk true [d5; d0; d0; d0; d0; d0] (-2))))
      = Fail detail)
  /\ (exists v,
        run_initial_amount false (BudgetSerializer.p_initial_amount fixtures.valid_budget_data)
        = Value v
        /\ (to_Q v == 5000 # 1)%Q).
Proof.
  split.
  - apply (proj1 (amount_validation false (mk true [d5; d0; d0; d0; d0; d0] (-2)))).
    vm_compute. discriminate.
  - destruct (proj2 (proj2 (amount_validation false
                              (mk false [d5; d0; d0; d0; d0; d0] (-2)))))
      as (v & Hv & _ & Hq).
    + simpl. lia.
    + simpl. lia.
    + reflexivity.
    + exists v. split; [exact Hv|]. rewrite Hq. reflexivity.
Defined.

(** C5 as stated fails: one hundred million is a decimal between 0 and
    999999999.99 with no decimal places and nine digits, and the field
    refuses it, a column of ten digits with two decimal places having
    room for eight digits before the point. *)
Lemma amount_below_the_cap_refused :
  canonical fixtures.hundred_million
  /\ (0 < to_Q fixtures.hundred_million)%Q
  /\ (to_Q fixtures.hundred_million <= cap)%Q
  /\ run_initial_amount false (Some (Parsed fixtures.hundred_million))
     = Fail ["Ensure that there are no more than 8 digits before the decimal point."].
Proof.
  split; [split; [discriminate | discriminate]|].
  split; [reflexivity|]. split; [vm_compute; discriminate | reflexivity].
Qed.

(** What the amount of a stored budget looks like, given the request
    that stored it. *)
Lemma stored_amount (partial : bool) (data : option (parse PyDecimal.t))
    (v : PyDecimal.t) :
  run_initial_amount partial data = Value v ->
  exponent v = -2 /\ (length (digits v) <= 10)%nat.
Proof.
  destruct data as [[| |d]|].
  - discriminate.
  - discriminate.
  - intros Hv. apply run_initial_amount_Value in Hv as (He & Hw & Hq & _).
    destruct (quantized_bounds d v He Hw Hq) as (? & ? & _). auto.
  - unfold run_initial_amount, with_validate_method. simpl.
    unfold validate_empty_values. destruct partial; discriminate.
Qed.

(** The requests of the view set keep the amounts of the table well
    formed. *)
Lemma create_amounts_well_formed (request : Request) (payload : Payload)
    (db : Database) :
  amounts_well_formed db -> amounts_well_formed (create request payload db).2.
Proof.
  intros Hdb. destruct (create request payload db) as [resp db'] eqn:Hc.
  destruct (decide (status_of resp = HTTP_201_CREATED)) as [Hs|Hs].
  - destruct (create_201_fields _ _ _ _ _ Hc Hs)
      as (pk & row & text & Hd & _ & _ & _ & Ha).
    destruct (create_201 _ _ _ _ _ Hc Hs)
      as (u & vd & row' & _ & _ & _ & Hd' & _ & _ & Hb).
    assert (row' = row) as -> by congruence.
    intros pk' r. simpl. rewrite Hb.
    destruct (decide (next_pk (budgets db) = pk')) as [<-|Hne].
    + rewrite lookup_insert_eq. intros [= <-]. eapply stored_amount, Ha.
    + rewrite lookup_insert_ne by assumption. apply Hdb.
  - assert (db' = db) as ->; [|exact Hdb].
    revert Hc. unfold create, perform_create.
    destruct (request_user request); [|now intros [= _ <-]].
    destruct (is_valid false payload); [|now intros [= _ <-]].
    destruct (BudgetSerializer.create _ _ _); [|now intros [= _ <-]].
    intros [= <- _]. now contradiction Hs.
Qed.

Lemma update_amounts_well_formed (partial : bool) (request : Request) (pk : Z)
    (payload : Payload) (db : Database) :
  amounts_well_formed db ->
  amounts_well_formed (update partial request pk payload db).2.
Proof.
  intros Hdb. unfold update, perform_update.
  destruct (request_user request) as [u|]; [|exact Hdb].
  destruct (get_object u pk db) as [instance|] eqn:Ho; [|exact Hdb].
  destruct (is_valid partial payload) as [vd|] eqn:Ev; [|exact Hdb].
  intros pk' r. simpl.
  destruct (decide (pk = pk')) as [<-|Hne].
  - rewrite lookup_insert_eq. intros [= <-]. simpl.
    apply is_valid_inl in Ev as (_ & _ & _ & Ha & _).
    destruct (vd_initial_amount vd) as [amount|]; simpl.
    + destruct (run_initial_amount partial (p_initial_amount payload)) eqn:E;
        try discriminate.
      injection Ha as ->. eapply stored_amount, E.
    + apply get_queryset_lookup in Ho as [Ho _]. eapply Hdb, Ho.
  - rewrite lookup_insert_ne by assumption. apply Hdb.
Qed.

Lemma destroy_amounts_well_formed (request : Request) (pk : Z) (db : Database) :
  amounts_well_formed db -> amounts_well_formed (destroy request pk db).2.
Proof.
  intros Hdb. unfold destroy.
  destruct (request_user request) as [u|]; [|exact Hdb].
  destruct (get_object u pk db); [|exact Hdb].
  intros pk' r Hr. simpl in Hr.
  apply lookup_delete_Some in Hr as [_ Hr]. eapply Hdb, Hr.
Qed.

(** C10. An amount submitted with more than two decimal places is
    refused, whatever its value; an amount that is accepted, and so
    the amount of a budget a request creates, has exactly two decimal
    places and at most ten digits.  A table whose amounts all have this
    form keeps it through every create, update and delete. *)
Theorem two_decimal_places_enforced (partial : bool) (d : PyDecimal.t) :
  (exponent d < -2 ->
     exists detail, run_initial_amount partial (Some (Parsed d)) = Fail detail)
  /\ (forall v,
        run_initial_amount partial (Some (Parsed d)) = Value v ->
        exponent v = -2 /\ (length (digits v) <= 10)%nat)
  /\ (forall request payload db resp db',
        create request payload db = (resp, db') ->
        status_of resp = HTTP_201_CREATED ->
        exists pk row,
          data resp = BudgetData pk row /\ budgets db' !! pk = Some row
          /\ exponent (initial_amount row) = -2
          /\ (length (digits (initial_amount row)) <= 10)%nat)
  /\ (forall request payload pk db,
        amounts_well_formed db ->
        amounts_well_formed (create request payload db).2
        /\ amounts_well_formed (update partial request pk payload db).2
        /\ amounts_well_formed (destroy request pk db).2).
Proof.
  split; [|split; [|split]].
  - intros Hlt. apply run_initial_amount_refused. intros v Hv.
    apply run_initial_amount_Value in Hv as (He & _). lia.
  - intros v. apply stored_amount.
  - intros request payload db resp db' Hc Hs.
    destruct (create_201_fields _ _ _ _ _ Hc Hs)
      as (pk & row & text & Hd & Hl & _ & _ & Ha).
    exists pk, row. apply stored_amount in Ha. tauto.
  - intros request payload pk db Hdb.
    split; [|split].
    + now apply create_amounts_well_formed.
    + now apply update_amounts_well_formed.
    + now apply destroy_amounts_well_formed.
Qed.

Lemma two_decimal_places_enforced_witness :
  (0 < to_Q fixtures.half_a_cent)%Q /\ (to_Q fixtures.half_a_cent < cap)%Q
  /\ exists detail,
       run_initial_amount false (Some (Parsed fixtures.half_a_cent)) = Fail detail.
Proof.
  split; [reflexivity|]. split; [reflexivity|].
  apply (proj1 (two_decimal_places_enforced false fixtures.half_a_cent)).
  simpl. lia.
Defined.

(** The title field lets through the stripped text, and only when it
    is not empty, has at most 255 characters and no null character. *)
Lemma run_title_Value (partial : bool) (text v : string) :
  run_title partial (Some text) = Value v <->
  v = Py.strip text /\ Py.strip text <> "" /\ Py.len (Py.strip text) <= 255
  /\ Py.contains "000"%char (Py.strip text) = false.
Proof.
  unfold run_title, with_validate_method, CharField_run_validation,
    CharField_to_internal_value.
  destruct (Py.is_empty text || Py.is_empty (Py.strip text)) eqn:Eb.
  - simpl. split; [discriminate|]. intros (_ & Hne & _). exfalso.
    apply orb_true_iff in Eb as [E|E]; apply is_empty_true in E.
    + subst text. now apply Hne.
    + contradiction.
  - apply orb_false_iff in Eb as [_ Eb].
    unfold run_validators, CharField_validators, MaxLengthValidator,
      ProhibitNullCharactersValidator. simpl.
    destruct (Z.ltb_spec 255 (Py.len (Py.strip text))); simpl.
    + split; [discriminate|]. lia.
    + destruct (Py.contains "000"%char (Py.strip text)) eqn:En; simpl.
      * split; [discriminate|]. intros (_ & _ & _ & ?). discriminate.
      * unfold validate_title. rewrite strip_idempotent, Eb.
        destruct (Z.ltb_spec 255 (Py.len (Py.strip text))); [lia|]. simpl.
        split.
        -- intros [= <-]. repeat split; auto.
           intros E. rewrite E in Eb. discriminate.
        -- intros (-> & _). reflexivity.
Qed.

(** C6, as the code has it. An empty or white-space-only title is
    refused, and so is a title that is longer than 255 characters once
    its leading and trailing white space is removed.  A title that is
    accepted is handed on, and stored by a create request, without its
    leading and trailing white space. *)
Theorem title_validation (partial : bool) (text : string) :
  (Py.strip text = "" ->
     exists detail, run_title partial (Some text) = Fail detail)
  /\ (255 < Py.len (Py.strip text) ->
        exists detail, run_title partial (Some text) = Fail detail)
  /\ (forall v, run_title partial (Some text) = Value v -> v = Py.strip text)
  /\ (forall request payload db resp db',
        p_title payload = Some text ->
        create request payload db = (resp, db') ->
        status_of resp = HTTP_201_CREATED ->
        exists pk row,
          data resp = BudgetData pk row /\ budgets db' !! pk = Some row
          /\ title row = Py.strip text).
Proof.
  assert (forall P : Prop,
             (forall v, run_title partial (Some text) = Value v -> P -> False) ->
             P -> exists detail, run_title partial (Some text) = Fail detail) as Hno.
  { intros P HP p.
    destruct (run_title_decided partial text) as [[v Hv]|?]; [|assumption].
    exfalso. eauto. }
  split; [|split; [|split]].
  - apply Hno. intros v Hv E. apply run_title_Value in Hv. tauto.
  - apply Hno. intros v Hv E. apply run_title_Value in Hv. lia.
  - intros v Hv. now apply run_title_Value in Hv.
  - intros request payload db resp db' Ht Hc Hs.
    destruct (create_201_fields _ _ _ _ _ Hc Hs)
      as (pk & row & text' & Hd & Hl & Ht' & Hv & _).
    assert (text' = text) as -> by congruence.
    exists pk, row. apply run_title_Value in Hv. tauto.
Qed.

Lemma title_validation_witness :
  (exists detail, run_title false (Some "   ") = Fail detail)
  /\ (exists detail,
        run_title false (Some (Py.replicate 256 "A")) = Fail detail)
  /\ exists v, run_title false (Some "  Monthly Budget ") = Value v
               /\ v = "Monthly Budget".
Proof.
  split; [|split].
  - apply (proj1 (title_validation false "   ")). reflexivity.
  - apply (proj1 (proj2 (title_validation false (Py.replicate 256 "A")))).
    vm_compute. reflexivity.
  - exists "Monthly Budget". split; [reflexivity|].
    apply (proj1 (proj2 (proj2 (title_validation false "  Monthly Budget ")))).
    reflexivity.
Defined.

(** C6 as stated fails: a title of 256 characters, one space followed
    by 255 letters, is accepted and stored as the 255 letters. *)
Lemma padded_title_accepted :
  255 < Py.len fixtures.padded_title
  /\ run_title false (Some fixtures.padded_title) = Value (Py.replicate 255 "A")
  /\ status_of
       (create (fixtures.authenticated 1)
          {| p_user := None;
             p_title := Some fixtures.padded_title;
             p_description := None;
             p_date := Some (Parsed 739662);
             p_initial_amount := p_initial_amount fixtures.valid_budget_data |}
          fixtures.database).1 = HTTP_201_CREATED.
Proof. split; [reflexivity|]. split; vm_compute; reflexivity. Qed.

End field_validation.

(** ** Listing *)

Section listing.

Import BudgetSerializer.

#[local] Instance ordering_total : Total ordering.
Proof. intros a b. unfold ordering. lia. Qed.

#[local] Instance ordering_transitive : Transitive ordering.
Proof. intros a b c. unfold ordering. lia. Qed.

Lemma ordered_sorted (queryset : gmap Z Budget) :
  StronglySorted ordering (ordered queryset).
Proof. apply Sorted_StronglySorted; [apply _|]. apply Sorted_merge_sort, _. Qed.

Lemma ordered_permutation (queryset : gmap Z Budget) :
  ordered queryset ≡ₚ map_to_list queryset.
Proof. apply merge_sort_Permutation. Qed.

Lemma ordered_elem_of (u : Z) (db : Database) (r : Z * Budget) :
  r ∈ ordered (BudgetViewSet.get_queryset u db) <->
  budgets db !! r.1 = Some r.2 /\ user r.2 = u.
Proof.
  rewrite ordered_permutation. destruct r as [pk row].
  rewrite elem_of_map_to_list. apply get_queryset_lookup.
Qed.

(** A page is a run of consecutive rows. *)
Lemma paginate_queryset_Some (per_page number : Z) (rows page : list (Z * Budget)) :
  BudgetViewSet.paginate_queryset per_page number rows = Some page ->
  exists before after, rows = (before ++ page ++ after)%list.
Proof.
  unfold BudgetViewSet.paginate_queryset.
  destruct ((number <? 1) || _); [discriminate|]. intros [= <-].
  exists (take (Z.to_nat ((number - 1) * per_page)) rows),
    (drop (Z.to_nat per_page) (drop (Z.to_nat ((number - 1) * per_page)) rows)).
  now rewrite !take_drop.
Qed.

Lemma paginate_queryset_first (per_page : Z) (rows : list (Z * Budget)) :
  0 < per_page ->
  BudgetViewSet.paginate_queryset per_page 1 rows = Some (take (Z.to_nat per_page) rows).
Proof.
  intros Hp. unfold BudgetViewSet.paginate_queryset, BudgetViewSet.num_pages.
  assert ((1 <? 1) = false) as -> by reflexivity. simpl.
  destruct (Z.eqb_spec (Z.of_nat (length rows)) 0) as [E|E].
  - reflexivity.
  - destruct (Z.ltb_spec
                ((Z.of_nat (length rows) + per_page - 1) / per_page) 1) as [H|H].
    + exfalso.
      assert (1 <= (Z.of_nat (length rows) + per_page - 1) / per_page)
        by (apply Z.div_le_lower_bound; lia).
      lia.
    + reflexivity.
Qed.

(** The rows of a list response come from the ordered rows of the
    requesting user. *)
Lemma list_results (cfg : Settings) (request : Request) (u : Z) (number : Z)
    (db : Database) (results : list (Z * Budget)) :
  request_user request = Some u ->
  results_of (BudgetViewSet.list cfg request number db) = Some results ->
  exists before after,
    ordered (BudgetViewSet.get_queryset u db) = (before ++ results ++ after)%list.
Proof.
  intros Hreq. unfold BudgetViewSet.list, results_of. rewrite Hreq.
  destruct (PAGE_SIZE cfg =? 0)%N; simpl.
  - intros [= <-]. exists [], []. now rewrite app_nil_r.
  - destruct (BudgetViewSet.paginate_queryset _ number _) as [page|] eqn:E; simpl; [|discriminate].
    intros [= <-]. eapply paginate_queryset_Some, E.
Qed.

(** C7. What a user is listed are budgets of the table that this user
    owns, with a later date before an earlier one and, among equal
    dates, a creation time that is not earlier first.  The first page
    always exists, and it holds every budget of the user when they fit
    on it. *)
Theorem list_is_own_budgets_in_order (cfg : Settings) (request : Request)
    (u : Z) (number : Z) (db : Database) :
  request_user request = Some u ->
  (forall results,
      results_of (BudgetViewSet.list cfg request number db) = Some results ->
      Forall (fun r => budgets db !! r.1 = Some r.2 /\ user r.2 = u) results
      /\ StronglySorted ordering results)
  /\ (exists first,
        status_of (BudgetViewSet.list cfg request 1 db) = HTTP_200_OK
        /\ results_of (BudgetViewSet.list cfg request 1 db) = Some first
        /\ (Z.of_nat (size (BudgetViewSet.get_queryset u db)) <= Z.of_N (PAGE_SIZE cfg)
            \/ PAGE_SIZE cfg = 0%N ->
            first ≡ₚ map_to_list (BudgetViewSet.get_queryset u db))).
Proof.
  intros Hreq. split.
  - intros results Hres.
    destruct (list_results cfg request u number db results Hreq Hres)
      as (before & after & Hrows).
    pose proof (ordered_sorted (BudgetViewSet.get_queryset u db)) as Hs. rewrite Hrows in Hs.
    split.
    + apply Forall_forall. intros r Hr. apply ordered_elem_of.
      rewrite Hrows. set_solver.
    + apply StronglySorted_app in Hs as (_ & _ & Hs).
      now apply StronglySorted_app in Hs as (_ & Hs & _).
  - unfold BudgetViewSet.list, results_of. rewrite Hreq.
    destruct (N.eqb_spec (PAGE_SIZE cfg) 0) as [E|E]; simpl.
    + eexists. split; [reflexivity|]. split; [reflexivity|].
      intros _. apply ordered_permutation.
    + rewrite paginate_queryset_first by lia. simpl.
      eexists. split; [reflexivity|]. split; [reflexivity|].
      intros [Hfit|?]; [|contradiction].
      rewrite take_ge; [apply ordered_permutation|].
      rewrite (Permutation_length (ordered_permutation _)), length_map_to_list.
      lia.
Qed.

Lemma list_is_own_budgets_in_order_witness :
  results_of (BudgetViewSet.list fixtures.test_settings (fixtures.authenticated 1) 1 fixtures.database)
  = Some [(3, fixtures.later_budget_for_user1); (1, fixtures.budget_for_user1)]
  /\ Forall (fun r => budgets fixtures.database !! r.1 = Some r.2 /\ user r.2 = 1)
       [(3, fixtures.later_budget_for_user1); (1, fixtures.budget_for_user1)]
  /\ StronglySorted ordering
       [(3, fixtures.later_budget_for_user1); (1, fixtures.budget_for_user1)].
Proof.
  assert (results_of (BudgetViewSet.list fixtures.test_settings (fixtures.authenticated 1) 1
                        fixtures.database)
          = Some [(3, fixtures.later_budget_for_user1); (1, fixtures.budget_for_user1)])
    as H by (vm_compute; reflexivity).
  split; [exact H|].
  exact (proj1 (list_is_own_budgets_in_order fixtures.test_settings
                  (fixtures.authenticated 1) 1 1 fixtures.database eq_refl) _ H).
Defined.

End listing.

(** ** Registration *)

Section registration.

Import UserRegistrationSerializer.

Lemma CharField_Value_inv (f : CharField) (partial : bool) (text v : string) :
  cf_allow_blank f = false ->
  CharField_run_validation f partial (Some text) = Value v ->
  v = Py.strip text
  /\ forall validator, validator ∈ CharField_validators f ->
       validator (Py.strip text) = [].
Proof.
  intros Hb Hv. split; [eapply CharField_value_is_stripped, Hv|].
  intros validator Hin.
  destruct (validator (Py.strip text)) as [|m ms] eqn:E; [reflexivity|].
  destruct (CharField_validator_raises f partial text validator Hb Hin) as [detail Hd].
  - rewrite E. discriminate.
  - congruence.
Qed.

Lemma CharField_Value_given (f : CharField) (data : option string) (v : string) :
  cf_required f = true ->
  CharField_run_validation f false data = Value v ->
  exists text, data = Some text.
Proof.
  intros Hr. destruct data as [text|]; [eauto|].
  rewrite CharField_required by assumption. discriminate.
Qed.

Lemma with_validate_method_Value {A : Type} (r : field_result A)
    (validate_method : A -> validated A) (v : A) :
  with_validate_method r validate_method = Value v ->
  exists v0, r = Value v0 /\ validate_method v0 = Valid v.
Proof.
  unfold with_validate_method. destruct r as [|v0|detail]; try discriminate.
  destruct (validate_method v0) eqn:E; [|discriminate].
  intros [= <-]. eauto.
Qed.

(** What a valid registration has passed. *)
Lemma registration_is_valid_inl (cfg : Settings) (db : Database) (payload : Payload)
    (vd : ValidatedData) :
  is_valid cfg db payload = inl vd ->
  exists tu te tp tc,
    r_username payload = Some tu /\ r_email payload = Some te
    /\ r_password payload = Some tp /\ r_password_confirm payload = Some tc
    /\ vd = {| vd_username := Py.strip tu; vd_email := Py.strip te;
               vd_password := Py.strip tp; vd_password_confirm := Py.strip tc |}
    /\ username_exists (Py.strip tu) db = false
    /\ email_exists (Py.strip te) db = false
    /\ Py.strip tp = Py.strip tc
    /\ 8 <= Py.len (Py.strip tp)
    /\ validate_password cfg (Py.strip tp) = [].
Proof.
  unfold is_valid.
  destruct (with_validate_method _ (validate_username db)) as [|vu|] eqn:Eu;
    try (destruct (with_validate_method _ (validate_email db)),
           (CharField_run_validation (password_field cfg) _ _),
           (CharField_run_validation password_confirm_field _ _); discriminate).
  destruct (with_validate_method _ (validate_email db)) as [|ve|] eqn:Ee;
    try (destruct (CharField_run_validation (password_field cfg) _ _),
           (CharField_run_validation password_confirm_field _ _); discriminate).
  destruct (CharField_run_validation (password_field cfg) _ _) as [|vp|] eqn:Ep;
    try (destruct (CharField_run_validation password_confirm_field _ _); discriminate).
  destruct (CharField_run_validation password_confirm_field _ _) as [|vc|] eqn:Ec;
    try discriminate.
  unfold validate. simpl.
  destruct (String.eqb_spec vp vc) as [Heq|]; [|discriminate]. simpl.
  intros [= <-].
  apply with_validate_method_Value in Eu as (u0 & Eu & Evu).
  apply with_validate_method_Value in Ee as (e0 & Ee & Eve).
  apply CharField_Value_given in Eu as Htu; [destruct Htu as [tu Htu]|reflexivity].
  apply CharField_Value_given in Ee as Hte; [destruct Hte as [te Hte]|reflexivity].
  apply CharField_Value_given in Ep as Htp; [destruct Htp as [tp Htp]|reflexivity].
  apply CharField_Value_given in Ec as Htc; [destruct Htc as [tc Htc]|reflexivity].
  rewrite Htu in Eu. rewrite Hte in Ee. rewrite Htp in Ep. rewrite Htc in Ec.
  apply CharField_Value_inv in Eu as [-> _]; [|reflexivity].
  apply CharField_Value_inv in Ee as [-> _]; [|reflexivity].
  apply CharField_Value_inv in Ep as [-> Hp]; [|reflexivity].
  apply CharField_Value_inv in Ec as [-> _]; [|reflexivity].
  unfold validate_username in Evu. unfold validate_email in Eve.
  destruct (username_exists (Py.strip tu) db) eqn:Xu; [discriminate|].
  destruct (email_exists (Py.strip te) db) eqn:Xe; [discriminate|].
  injection Evu as <-. injection Eve as <-.
  exists tu, te, tp, tc. repeat split; try assumption.
  - pose proof (Hp (MinLengthValidator 8 "Password must be at least 8 characters long."))
      as Hmin.
    unfold MinLengthValidator in Hmin.
    destruct (Z.ltb_spec (Py.len (Py.strip tp)) 8); [|assumption].
    exfalso. discriminate Hmin. unfold CharField_validators. simpl.
    apply list_elem_of_further, list_elem_of_here.
  - apply (Hp (validate_password cfg)). unfold CharField_validators. simpl.
    apply list_elem_of_here.
Qed.

(** A character field sees of a text only what is left after
    stripping. *)
Lemma CharField_strip_only (f : CharField) (partial : bool) (t t' : string) :
  Py.strip t = Py.strip t' ->
  CharField_run_validation f partial (Some t)
  = CharField_run_validation f partial (Some t').
Proof.
  intros H. unfold CharField_run_validation, CharField_to_internal_value.
  assert (forall x, (Py.is_empty x || Py.is_empty (Py.strip x))
                    = Py.is_empty (Py.strip x)) as E.
  { intros [|c r]; reflexivity. }
  now rewrite !E, H.
Qed.

(** Under any settings, white space around the confirmation changes
    nothing of what a registration does. *)
Lemma register_confirmation_padding (cfg : Settings) (request : Request)
    (db : Database) (tu te tp tc tc' : option string) (c c' : string) :
  Py.strip c = Py.strip c' ->
  UserViewSet.register cfg request
    {| r_username := tu; r_email := te; r_password := tp;
       r_password_confirm := Some c |} db
  = UserViewSet.register cfg request
      {| r_username := tu; r_email := te; r_password := tp;
         r_password_confirm := Some c' |} db.
Proof.
  intros H. unfold UserViewSet.register, is_valid.
  cbn [r_username r_email r_password r_password_confirm].
  now rewrite (CharField_strip_only password_confirm_field false c c' H).
Qed.

(** C3, as the code has it. A registration that gives all four fields
    is refused with the field errors, and nothing is stored, when the
    username or the e-mail address, stripped of surrounding white
    space, is already in the table, when the password and its
    confirmation differ after both are stripped, or when the password
    is shorter than 8 characters.  A registration that succeeds adds
    one user whose password column holds the hash of the stripped
    password, and answers with the username and e-mail address of that
    user and no password. *)
Theorem registration_contract (cfg : Settings) (request : Request)
    (payload : Payload) (db : Database) (tu te tp tc : string) :
  r_username payload = Some tu ->
  r_email payload = Some te ->
  r_password payload = Some tp ->
  r_password_confirm payload = Some tc ->
  (username_exists (Py.strip tu) db = true
   \/ email_exists (Py.strip te) db = true
   \/ Py.strip tp <> Py.strip tc
   \/ Py.len tp < 8 ->
   status_of (UserViewSet.register cfg request payload db).1 = HTTP_400_BAD_REQUEST
   /\ (exists errors,
         data (UserViewSet.register cfg request payload db).1 = Errors errors)
   /\ (UserViewSet.register cfg request payload db).2 = db)
  /\ (status_of (UserViewSet.register cfg request payload db).1 = HTTP_201_CREATED ->
      exists row,
        users (UserViewSet.register cfg request payload db).2
        = <[next_pk (users db) := row]> (users db)
        /\ users db !! next_pk (users db) = None
        /\ budgets (UserViewSet.register cfg request payload db).2 = budgets db
        /\ token_blacklist (UserViewSet.register cfg request payload db).2
           = token_blacklist db
        /\ username row = normalize_username cfg (Py.strip tu)
        /\ email row = normalize_email cfg (Py.strip te)
        /\ password row = make_password cfg (Py.strip tp)
        /\ data (UserViewSet.register cfg request payload db).1
           = Profile [("username", username row); ("email", email row)]
        /\ ("password" ∉ keys [("username", username row); ("email", email row)])
        /\ ("password_confirm"
            ∉ keys [("username", username row); ("email", email row)])).
Proof.
  intros Hu He Hp Hc. unfold UserViewSet.register.
  destruct (is_valid cfg db payload) as [vd|errors] eqn:Ev.
  - apply registration_is_valid_inl in Ev
      as (tu' & te' & tp' & tc' & Hu' & He' & Hp' & Hc' & -> & Xu & Xe & Heq & Hlen & _).
    assert (tu' = tu) as -> by congruence. assert (te' = te) as -> by congruence.
    assert (tp' = tp) as -> by congruence. assert (tc' = tc) as -> by congruence.
    split.
    + intros [H|[H|[H|H]]]; try congruence.
      pose proof (strip_len tp). lia.
    + unfold create. simpl.
      destruct (username_exists _ db || email_exists _ db); simpl; [discriminate|].
      intros _. eexists. split; [reflexivity|].
      split; [apply next_pk_fresh|]. repeat split.
      * unfold keys. simpl. repeat (apply not_elem_of_cons; split; [discriminate|]).
        apply not_elem_of_nil.
      * unfold keys. simpl. repeat (apply not_elem_of_cons; split; [discriminate|]).
        apply not_elem_of_nil.
  - simpl. split; [|discriminate]. intros _. eauto.
Qed.

Lemma registration_contract_witness :
  (status_of (UserViewSet.register fixtures.test_settings fixtures.anonymous
                (fixtures.new_user "SecurePass123!" "DifferentPass456!")
                fixtures.database).1 = HTTP_400_BAD_REQUEST)
  /\ (status_of (UserViewSet.register fixtures.test_settings fixtures.anonymous
                   (fixtures.new_user "Short1!" "Short1!")
                   fixtures.database).1 = HTTP_400_BAD_REQUEST)
  /\ exists row,
       users (UserViewSet.register fixtures.test_settings fixtures.anonymous
                (fixtures.new_user "SecurePass123!" "SecurePass123!")
                fixtures.database).2 !! 3 = Some row
       /\ password row = "pbkdf2_sha256$SecurePass123!"
       /\ data (UserViewSet.register fixtures.test_settings fixtures.anonymous
                  (fixtures.new_user "SecurePass123!" "SecurePass123!")
                  fixtures.database).1
          = Profile [("username", "newuser"); ("email", "newuser@example.com")].
Proof.
  split; [|split].
  - apply (proj1 (registration_contract fixtures.test_settings fixtures.anonymous
                    (fixtures.new_user "SecurePass123!" "DifferentPass456!")
                    fixtures.database _ _ _ _ eq_refl eq_refl eq_refl eq_refl)).
    right. right. left. vm_compute. discriminate.
  - apply (proj1 (registration_contract fixtures.test_settings fixtures.anonymous
                    (fixtures.new_user "Short1!" "Short1!")
                    fixtures.database _ _ _ _ eq_refl eq_refl eq_refl eq_refl)).
    right. right. right. vm_compute. reflexivity.
  - destruct (proj2 (registration_contract fixtures.test_settings fixtures.anonymous
                       (fixtures.new_user "SecurePass123!" "SecurePass123!")
                       fixtures.database _ _ _ _ eq_refl eq_refl eq_refl eq_refl))
      as (row & Hrow & _ & _ & _ & Hn & Hm & Hpw & Hdata & _).
    + vm_compute. reflexivity.
    + exists row. split; [|split].
      * rewrite Hrow. apply lookup_insert_eq.
      * rewrite Hpw. reflexivity.
      * rewrite Hdata, Hn, Hm. reflexivity.
Defined.

(** C3 as stated fails: a confirmation that differs from the password,
    by a trailing space, does not make the registration fail. *)
Lemma registration_with_different_passwords :
  "SecurePass123!" <> "SecurePass123! "
  /\ status_of (UserViewSet.register fixtures.test_settings fixtures.anonymous
                  (fixtures.new_user "SecurePass123!" "SecurePass123! ")
                  fixtures.database).1 = HTTP_201_CREATED.
Proof. split; [discriminate | vm_compute; reflexivity]. Qed.

End registration.

(** ** Logging out *)

Section logging_out.

Import UserViewSet.

(** A token that the token class accepts is put on the blacklist. *)
Lemma logout_accepted (cfg : Settings) (request : Request) (u : Z)
    (text : string) (payload : TokenPayload) (db : Database) :
  request_user request = Some u ->
  text <> "" ->
  RefreshToken.init cfg (now request) text = Some payload ->
  logout cfg request (Some text) db
  = ({| status_of := HTTP_200_OK; data := Detail "Successfully logged out." |},
     {| users := users db;
        budgets := budgets db;
        token_blacklist :=
          <[next_pk (token_blacklist db) :=
              {| token := RefreshToken.str cfg payload;
                 blacklisted_at := now request |}]> (token_blacklist db) |}).
Proof.
  intros Hreq Hne Hinit. unfold logout. rewrite Hreq.
  destruct text as [|c r]; [contradiction|]. now rewrite Hinit.
Qed.

(** C4, as the code has it. A logout without a valid access token is
    answered 401.  With one, a refresh token that is missing, empty or
    refused by the token class (and not only one that is malformed) is
    answered 400; in all these cases nothing is stored.  Any other
    refresh token is answered 200 and one row is added to the
    blacklist, holding the token as the token class prints it (the
    submitted text itself when it is the print of its claims) and the
    time of the request; users and budgets are as they were.  A later
    refresh of any token is answered as if the logout had not
    happened. *)
Theorem logout_contract (cfg : Settings) (request : Request)
    (refresh_token : option string) (db : Database) :
  (request_user request = None ->
     status_of (logout cfg request refresh_token db).1 = HTTP_401_UNAUTHORIZED
     /\ (logout cfg request refresh_token db).2 = db)
  /\ (request_user request <> None ->
      (refresh_token = None \/ refresh_token = Some ""
       \/ (exists text, refresh_token = Some text
                        /\ RefreshToken.init cfg (now request) text = None) ->
       status_of (logout cfg request refresh_token db).1 = HTTP_400_BAD_REQUEST
       /\ (logout cfg request refresh_token db).2 = db)
      /\ (forall text payload,
            refresh_token = Some text -> text <> "" ->
            RefreshToken.init cfg (now request) text = Some payload ->
            status_of (logout cfg request refresh_token db).1 = HTTP_200_OK
            /\ users (logout cfg request refresh_token db).2 = users db
            /\ budgets (logout cfg request refresh_token db).2 = budgets db
            /\ token_blacklist (logout cfg request refresh_token db).2
               = <[next_pk (token_blacklist db) :=
                     {| token := token_backend_encode cfg payload;
                        blacklisted_at := now request |}]> (token_blacklist db)
            /\ token_blacklist db !! next_pk (token_blacklist db) = None
            /\ size (token_blacklist (logout cfg request refresh_token db).2)
               = S (size (token_blacklist db))
            /\ (token_backend_encode cfg payload = text ->
                token_blacklist (logout cfg request refresh_token db).2
                  !! next_pk (token_blacklist db)
                = Some {| token := text; blacklisted_at := now request |})))
  /\ (forall request' refresh,
        token_refresh cfg request' refresh (logout cfg request refresh_token db).2
        = token_refresh cfg request' refresh db).
Proof.
  split; [|split].
  - intros Hreq. unfold logout. rewrite Hreq. split; reflexivity.
  - intros Hreq. destruct (request_user request) as [u|] eqn:Eu; [|contradiction].
    split.
    + intros [->|[->|(text & -> & Hinit)]]; unfold logout; rewrite Eu.
      * split; reflexivity.
      * split; reflexivity.
      * destruct text as [|c r]; [split; reflexivity|].
        rewrite Hinit. split; reflexivity.
    + intros text payload -> Hne Hinit.
      rewrite (logout_accepted cfg request u text payload db Eu Hne Hinit). simpl.
      unfold RefreshToken.str.
      repeat split.
      * apply next_pk_fresh.
      * apply map_size_insert_None, next_pk_fresh.
      * intros ->. apply lookup_insert_eq.
  - reflexivity.
Qed.

Lemma logout_contract_witness :
  status_of (logout fixtures.test_settings (fixtures.authenticated 1)
               (Some "invalid.token.here") fixtures.database).1
  = HTTP_400_BAD_REQUEST
  /\ status_of (logout fixtures.test_settings (fixtures.authenticated 1)
                  (Some "refresh.testuser") fixtures.database).1
     = HTTP_200_OK
  /\ token_blacklist (logout fixtures.test_settings (fixtures.authenticated 1)
                        (Some "refresh.testuser") fixtures.database).2 !! 1
     = Some {| token := "refresh.testuser"; blacklisted_at := 1000 |}.
Proof.
  split; [|split].
  - apply (proj1 (proj2 (logout_contract fixtures.test_settings
                           (fixtures.authenticated 1) (Some "invalid.token.here")
                           fixtures.database))); [discriminate|].
    right. right. exists "invalid.token.here". split; reflexivity.
  - apply (proj2 (proj1 (proj2 (logout_contract fixtures.test_settings
                                  (fixtures.authenticated 1) (Some "refresh.testuser")
                                  fixtures.database)) ltac:(discriminate))
             "refresh.testuser" (fixtures.refresh_of 1) eq_refl
             ltac:(discriminate) eq_refl).
  - apply (proj2 (proj1 (proj2 (logout_contract fixtures.test_settings
                                  (fixtures.authenticated 1) (Some "refresh.testuser")
                                  fixtures.database)) ltac:(discriminate))
             "refresh.testuser" (fixtures.refresh_of 1) eq_refl
             ltac:(discriminate) eq_refl).
    reflexivity.
Defined.

(** What the token class refuses: a text the backend does not decode,
    and claims that have expired, carry no identifier or are not those
    of a refresh token. *)
Lemma RefreshToken_init_None (cfg : Settings) (clock : Z) (text : string) :
  RefreshToken.init cfg clock text = None <->
  token_backend_decode cfg text = None
  \/ exists payload,
       token_backend_decode cfg text = Some payload
       /\ (exp payload <= clock \/ jti payload = None
           \/ token_type payload <> "refresh").
Proof.
  unfold RefreshToken.init, RefreshToken.verify.
  destruct (token_backend_decode cfg text) as [payload|]; [|split; auto].
  destruct (Z.ltb_spec clock (exp payload)) as [Hexp|Hexp];
    destruct (jti payload) as [j|] eqn:Ej;
    destruct (String.eqb_spec (token_type payload) "refresh") as [Ht|Ht]; simpl.
  - split; [discriminate|].
    intros [?|(p' & [= <-] & [?|[?|?]])]; [discriminate|lia|congruence|contradiction].
  - split; [|reflexivity]. intros _. right. exists payload. auto.
  - split; [|reflexivity]. intros _. right. exists payload. auto.
  - split; [|reflexivity]. intros _. right. exists payload. auto.
  - split; [|reflexivity]. intros _. right. exists payload. split; [reflexivity|]. left. lia.
  - split; [|reflexivity]. intros _. right. exists payload. split; [reflexivity|]. left. lia.
  - split; [|reflexivity]. intros _. right. exists payload. split; [reflexivity|]. left. lia.
  - split; [|reflexivity]. intros _. right. exists payload. split; [reflexivity|]. left. lia.
Qed.

(** C4 as stated fails: a refresh token that is neither missing nor
    malformed, one that the backend decodes to the claims of a refresh
    token with an identifier, is refused once its expiry has passed;
    the logout is answered 400 and no row is inserted. *)
Lemma expired_refresh_token_is_not_blacklisted :
  token_backend_decode fixtures.test_settings "refresh.testuser"
  = Some (fixtures.refresh_of 1)
  /\ token_type (fixtures.refresh_of 1) = "refresh"
  /\ is_Some (jti (fixtures.refresh_of 1))
  /\ exp (fixtures.refresh_of 1) < 3000
  /\ status_of (logout fixtures.test_settings
                  {| request_user := Some 1; now := 3000; uuid4 := "7d44" |}
                  (Some "refresh.testuser") fixtures.database).1
     = HTTP_400_BAD_REQUEST
  /\ (logout fixtures.test_settings
        {| request_user := Some 1; now := 3000; uuid4 := "7d44" |}
        (Some "refresh.testuser") fixtures.database).2
     = fixtures.database.
Proof.
  split; [reflexivity|]. split; [reflexivity|]. split; [simpl; eauto|].
  split; [simpl; lia|]. split; reflexivity.
Qed.

(** C9. The user a refresh token was issued to plays no part in a
    logout: for an authenticated user and a refresh token that the
    backend decodes to claims of type refresh with an identifier and an
    expiry that is still ahead, whatever user the claims name, the
    answer is 200 and a row for the token is added to the blacklist. *)
Theorem logout_ignores_the_token_owner (cfg : Settings) (request : Request)
    (u : Z) (text : string) (payload : TokenPayload) (db : Database) :
  request_user request = Some u ->
  text <> "" ->
  token_backend_decode cfg text = Some payload ->
  token_type payload = "refresh" ->
  now request < exp payload ->
  is_Some (jti payload) ->
  status_of (logout cfg request (Some text) db).1 = HTTP_200_OK
  /\ token_blacklist db !! next_pk (token_blacklist db) = None
  /\ token_blacklist (logout cfg request (Some text) db).2
     = <[next_pk (token_blacklist db) :=
           {| token := token_backend_encode cfg payload;
              blacklisted_at := now request |}]> (token_blacklist db).
Proof.
  intros Hreq Hne Hdec Htype Hexp Hjti.
  assert (RefreshToken.init cfg (now request) text = Some payload) as Hinit.
  { unfold RefreshToken.init, RefreshToken.verify. rewrite Hdec, Htype.
    destruct (Z.ltb_spec (now request) (exp payload)); [|lia].
    rewrite bool_decide_eq_true_2 by assumption. reflexivity. }
  rewrite (logout_accepted cfg request u text payload db Hreq Hne Hinit). simpl.
  split; [reflexivity|]. split; [apply next_pk_fresh | reflexivity].
Qed.

Lemma logout_ignores_the_token_owner_witness :
  user_id (fixtures.refresh_of 2) <> 1
  /\ status_of (logout fixtures.test_settings (fixtures.authenticated 1)
                  (Some "refresh.testuser2") fixtures.database).1 = HTTP_200_OK
  /\ token_blacklist fixtures.database !! next_pk (token_blacklist fixtures.database)
     = None
  /\ token_blacklist (logout fixtures.test_settings (fixtures.authenticated 1)
                        (Some "refresh.testuser2") fixtures.database).2
     = <[next_pk (token_blacklist fixtures.database) :=
           {| token := "refresh.testuser2"; blacklisted_at := 1000 |}]>
         (token_blacklist fixtures.database).
Proof.
  split; [discriminate|].
  apply (logout_ignores_the_token_owner fixtures.test_settings
           (fixtures.authenticated 1) 1 "refresh.testuser2" (fixtures.refresh_of 2)
           fixtures.database).
  - reflexivity.
  - discriminate.
  - reflexivity.
  - reflexivity.
  - simpl. lia.
  - simpl. eauto.
Defined.

End logging_out.

(** ** The health check *)

(** C8. A GET request for [/up] is answered by the health check with
    status 200 and the body [{"status": "ok"}], whoever sends it and
    whatever the two routers of the API register. *)
Theorem health_check_is_open
    (users_urls budgets_urls : list (string * string)) (request : Request) :
  get users_urls budgets_urls "up" request
  = Some {| status_of := HTTP_200_OK; data := Status "ok" |}
  /\ status_code HTTP_200_OK = 200.
Proof. split; reflexivity. Qed.

(** * Further properties *)

(** ** The life of a budget *)

Section budget_life.

Import BudgetSerializer.

Lemma destroy_204 (request : Request) (pk : Z) (db : Database)
    (resp : Response) (db' : Database) :
  BudgetViewSet.destroy request pk db = (resp, db') ->
  status_of resp = HTTP_204_NO_CONTENT ->
  exists u row,
    request_user request = Some u
    /\ budgets db !! pk = Some row /\ user row = u
    /\ users db' = users db
    /\ token_blacklist db' = token_blacklist db
    /\ budgets db' = delete pk (budgets db).
Proof.
  unfold BudgetViewSet.destroy.
  destruct (request_user request) as [u|]; [|intros [= <- <-]; discriminate].
  destruct (BudgetViewSet.get_object u pk db) as [row|] eqn:Eo;
    [|intros [= <- <-]; discriminate].
  intros [= <- <-] _. exists u, row.
  apply get_queryset_lookup in Eo as [? ?]. simpl. repeat split; auto.
Qed.

(** X1. A budget that a create request has stored is shown to its
    creator under the key of the response, is not found by any other
    user, sits under a key that was free, and is one more budget of the
    creator; every other budget and the budgets of the other users are
    as they were. *)
Theorem created_budget_is_retrievable (request : Request) (u : Z)
    (payload : Payload) (db : Database) (resp : Response) (db' : Database) :
  request_user request = Some u ->
  BudgetViewSet.create request payload db = (resp, db') ->
  status_of resp = HTTP_201_CREATED ->
  exists pk row,
    data resp = BudgetData pk row
    /\ budgets db !! pk = None
    /\ (forall request', request_user request' = Some u ->
          BudgetViewSet.retrieve request' pk db'
          = {| status_of := HTTP_200_OK; data := BudgetData pk row |})
    /\ (forall request' v, request_user request' = Some v -> v <> u ->
          BudgetViewSet.retrieve request' pk db' = BudgetViewSet.not_found)
    /\ (forall pk', pk' <> pk -> budgets db' !! pk' = budgets db !! pk')
    /\ size (BudgetViewSet.get_queryset u db')
       = S (size (BudgetViewSet.get_queryset u db))
    /\ (forall v, v <> u ->
          BudgetViewSet.get_queryset v db' = BudgetViewSet.get_queryset v db).
Proof.
  intros Hreq Hc Hs.
  destruct (create_201 _ _ _ _ _ Hc Hs)
    as (u' & vd & row & Hu & _ & Hrow & Hdata & _ & _ & Hb).
  assert (u' = u) as -> by congruence.
  assert (user row = u) as Hown.
  { unfold BudgetSerializer.create in Hrow.
    destruct (vd_date vd), (vd_initial_amount vd); try discriminate.
    now injection Hrow as <-. }
  pose proof (next_pk_fresh (budgets db)) as Hfresh.
  exists (next_pk (budgets db)), row.
  split; [exact Hdata|]. split; [exact Hfresh|]. split; [|split; [|split; [|split]]].
  - intros request' Hr. unfold BudgetViewSet.retrieve, BudgetViewSet.get_object.
    rewrite Hr.
    assert (BudgetViewSet.get_queryset u db' !! next_pk (budgets db) = Some row) as ->.
    { apply get_queryset_lookup. rewrite Hb, lookup_insert_eq. auto. }
    reflexivity.
  - intros request' v Hr Hne. unfold BudgetViewSet.retrieve. rewrite Hr.
    rewrite (get_object_other_owner v u db' (next_pk (budgets db)) row); auto.
    rewrite Hb. apply lookup_insert_eq.
  - intros pk' Hne. rewrite Hb. now apply lookup_insert_ne.
  - unfold BudgetViewSet.get_queryset. rewrite Hb.
    rewrite map_filter_insert_True by exact Hown.
    apply map_size_insert_None, map_lookup_filter_None. left. exact Hfresh.
  - intros v Hne. unfold BudgetViewSet.get_queryset. rewrite Hb.
    apply map_filter_insert_not'.
    + simpl. congruence.
    + intros y Hy. congruence.
Qed.

Lemma created_budget_is_retrievable_witness :
  exists pk row,
    BudgetViewSet.retrieve (fixtures.authenticated 1) pk
      (BudgetViewSet.create (fixtures.authenticated 1) fixtures.valid_budget_data
         fixtures.database).2
    = {| status_of := HTTP_200_OK; data := BudgetData pk row |}
    /\ BudgetViewSet.retrieve (fixtures.authenticated 2) pk
         (BudgetViewSet.create (fixtures.authenticated 1) fixtures.valid_budget_data
            fixtures.database).2
       = BudgetViewSet.not_found
    /\ title row = "Monthly Budget".
Proof.
  destruct (created_budget_is_retrievable (fixtures.authenticated 1) 1
              fixtures.valid_budget_data fixtures.database _ _ eq_refl
              (surjective_pairing _))
    as (pk & row & Hd & _ & Hown & Hother & _).
  - vm_compute. reflexivity.
  - exists pk, row. split; [|split].
    + apply Hown. reflexivity.
    + apply (Hother _ 2); [reflexivity | lia].
    + assert (BudgetData pk row
              = data (BudgetViewSet.create (fixtures.authenticated 1)
                        fixtures.valid_budget_data fixtures.database).1) as E
        by (symmetry; exact Hd).
      vm_compute in E. injection E as _ ->. reflexivity.
Defined.

(** X2. A user who deletes a budget of theirs is answered 204; after
    that the key is not found by anyone, a second delete is answered
    404, the user has one budget less, and every other budget is as it
    was. *)
Theorem destroyed_budget_is_gone (request : Request) (u : Z) (pk : Z)
    (row : Budget) (db : Database) :
  request_user request = Some u ->
  budgets db !! pk = Some row ->
  user row = u ->
  status_of (BudgetViewSet.destroy request pk db).1 = HTTP_204_NO_CONTENT
  /\ budgets (BudgetViewSet.destroy request pk db).2 !! pk = None
  /\ (forall request' v, request_user request' = Some v ->
        BudgetViewSet.retrieve request' pk (BudgetViewSet.destroy request pk db).2
        = BudgetViewSet.not_found)
  /\ BudgetViewSet.destroy request pk (BudgetViewSet.destroy request pk db).2
     = (BudgetViewSet.not_found, (BudgetViewSet.destroy request pk db).2)
  /\ size (BudgetViewSet.get_queryset u db)
     = S (size (BudgetViewSet.get_queryset u (BudgetViewSet.destroy request pk db).2))
  /\ (forall pk', pk' <> pk ->
        budgets (BudgetViewSet.destroy request pk db).2 !! pk' = budgets db !! pk').
Proof.
  intros Hreq Hrow Hown.
  assert (BudgetViewSet.get_object u pk db = Some row) as Hobj
    by (apply get_queryset_lookup; auto).
  assert (BudgetViewSet.destroy request pk db
          = ({| status_of := HTTP_204_NO_CONTENT; data := NoData |},
             {| users := users db; budgets := delete pk (budgets db);
                token_blacklist := token_blacklist db |})) as ->.
  { unfold BudgetViewSet.destroy. now rewrite Hreq, Hobj. }
  simpl.
  assert (forall v, BudgetViewSet.get_object v pk
                      {| users := users db; budgets := delete pk (budgets db);
                         token_blacklist := token_blacklist db |} = None) as Hgone.
  { intros v. unfold BudgetViewSet.get_object.
    destruct (BudgetViewSet.get_queryset v _ !! pk) as [r|] eqn:E; [|reflexivity].
    apply get_queryset_lookup in E as [E _]. simpl in E.
    rewrite lookup_delete_eq in E. discriminate. }
  split; [reflexivity|]. split; [apply lookup_delete_eq|].
  split; [|split; [|split]].
  - intros request' v Hr. unfold BudgetViewSet.retrieve. now rewrite Hr, Hgone.
  - unfold BudgetViewSet.destroy. now rewrite Hreq, Hgone.
  - unfold BudgetViewSet.get_queryset. simpl. rewrite map_filter_delete.
    rewrite map_size_delete.
    assert (filter (fun r : Z * Budget => user r.2 = u) (budgets db) !! pk = Some row)
      as E by (apply map_lookup_filter_Some; auto).
    rewrite E. simpl.
    assert (size (filter (fun r : Z * Budget => user r.2 = u) (budgets db)) <> 0%nat).
    { intros Hz. apply map_size_empty_inv in Hz. rewrite Hz in E.
      rewrite lookup_empty in E. discriminate. }
    lia.
  - intros pk' Hne. now apply lookup_delete_ne.
Qed.

Lemma destroyed_budget_is_gone_witness :
  status_of (BudgetViewSet.destroy (fixtures.authenticated 1) 1 fixtures.database).1
  = HTTP_204_NO_CONTENT
  /\ BudgetViewSet.retrieve (fixtures.authenticated 1) 1
       (BudgetViewSet.destroy (fixtures.authenticated 1) 1 fixtures.database).2
     = BudgetViewSet.not_found
  /\ budgets (BudgetViewSet.destroy (fixtures.authenticated 1) 1 fixtures.database).2 !! 3
     = Some fixtures.later_budget_for_user1.
Proof.
  destruct (destroyed_budget_is_gone (fixtures.authenticated 1) 1 1
              fixtures.budget_for_user1 fixtures.database eq_refl)
    as (Hs & _ & Hr & _ & _ & Hk).
  - vm_compute. reflexivity.
  - reflexivity.
  - split; [exact Hs|]. split.
    + apply (Hr _ 1). reflexivity.
    + rewrite Hk by lia. vm_compute. reflexivity.
Defined.

End budget_life.

(** ** Updates *)

Section updates.

Import BudgetSerializer.

Lemma run_date_Parsed (partial : bool) (d : Z) :
  run_date partial (Some (Parsed d)) = Value d.
Proof. reflexivity. Qed.

(** X3. An update that succeeds rewrites the budget under its key and
    no other: the owner and the creation time stay, the modification
    time becomes the time of the request, a field whose key the body
    does not carry keeps its value, a title that is sent is stored
    stripped and a date that is sent is stored as it is. *)
Theorem update_changes_only_what_is_sent (partial : bool) (request : Request)
    (pk : Z) (payload : Payload) (db : Database) (resp : Response)
    (db' : Database) :
  BudgetViewSet.update partial request pk payload db = (resp, db') ->
  status_of resp = HTTP_200_OK ->
  exists old new,
    budgets db !! pk = Some old /\ budgets db' !! pk = Some new
    /\ data resp = BudgetData pk new
    /\ user new = user old
    /\ created_at new = created_at old
    /\ updated_at new = now request
    /\ (p_title payload = None -> title new = title old)
    /\ (p_description payload = None -> description new = description old)
    /\ (p_date payload = None -> date new = date old)
    /\ (p_initial_amount payload = None -> initial_amount new = initial_amount old)
    /\ (forall text, p_title payload = Some text -> title new = Py.strip text)
    /\ (forall d, p_date payload = Some (Parsed d) -> date new = d)
    /\ (forall pk', pk' <> pk -> budgets db' !! pk' = budgets db !! pk').
Proof.
  intros Hup Hs.
  destruct (update_200 _ _ _ _ _ _ _ Hup Hs)
    as (u & instance & vd & Hu & Hobj & Hv & Hdata & _ & _ & Hb).
  apply get_queryset_lookup in Hobj as [Hobj Hown].
  apply is_valid_inl in Hv as (Ht & Hd & Hdt & Ha & Hnt & _).
  exists instance, (BudgetSerializer.update u (now request) instance vd).
  split; [exact Hobj|]. split; [rewrite Hb; apply lookup_insert_eq|].
  split; [exact Hdata|]. simpl.
  split; [congruence|]. split; [reflexivity|]. split; [reflexivity|].
  split; [|split; [|split; [|split; [|split; [|split]]]]].
  - intros E. rewrite Ht, E. unfold run_title. simpl.
    unfold validate_empty_values. destruct partial; reflexivity.
  - intros E. rewrite Hd, E. unfold run_description. simpl.
    unfold validate_empty_values. destruct partial; reflexivity.
  - intros E. rewrite Hdt, E. unfold run_date. simpl.
    unfold validate_empty_values. destruct partial; reflexivity.
  - intros E. rewrite Ha, E. unfold run_initial_amount. simpl.
    unfold validate_empty_values. destruct partial; reflexivity.
  - intros text E. rewrite Ht, E.
    destruct (run_title_decided partial text) as [[v Ev]|[detail Ev]].
    + rewrite Ev. simpl. now apply run_title_Value in Ev.
    + exfalso. apply (Hnt detail). now rewrite E.
  - intros d E. now rewrite Hdt, E, run_date_Parsed.
  - intros pk' Hne. rewrite Hb. now apply lookup_insert_ne.
Qed.

Lemma update_changes_only_what_is_sent_witness :
  exists new,
    budgets (BudgetViewSet.update true (fixtures.authenticated 1) 1
               fixtures.hacked_budget fixtures.database).2 !! 1 = Some new
    /\ title new = "Hacked Budget"
    /\ description new = "Already created budget"
    /\ initial_amount new = initial_amount fixtures.budget_for_user1
    /\ created_at new = 10 /\ updated_at new = 1000.
Proof.
  destruct (update_changes_only_what_is_sent true (fixtures.authenticated 1) 1
              fixtures.hacked_budget fixtures.database _ _ (surjective_pairing _))
    as (old & new & Ho & Hn & _ & _ & Hc & Hm & _ & Hd & _ & Ha & Ht & _).
  - vm_compute. reflexivity.
  - assert (old = fixtures.budget_for_user1) as ->.
    { assert (budgets fixtures.database !! 1 = Some fixtures.budget_for_user1) as E
        by (vm_compute; reflexivity).
      congruence. }
    exists new. split; [exact Hn|].
    split; [exact (Ht "Hacked Budget" eq_refl)|].
    split; [exact (Hd eq_refl)|]. split; [exact (Ha eq_refl)|].
    split; [exact Hc | exact Hm].
Defined.

(** X4. A request without a valid access token is refused with 401
    before anything else is looked at: whatever the key, the page, the
    body or the refresh token, nothing is looked up, validated or
    stored. *)
Theorem anonymous_requests_are_refused_first (cfg : Settings) (request : Request)
    (number pk : Z) (partial : bool) (payload : Payload)
    (refresh_token : option string) (db : Database) :
  request_user request = None ->
  BudgetViewSet.list cfg request number db = BudgetViewSet.not_authenticated
  /\ BudgetViewSet.retrieve request pk db = BudgetViewSet.not_authenticated
  /\ BudgetViewSet.create request payload db = (BudgetViewSet.not_authenticated, db)
  /\ BudgetViewSet.update partial request pk payload db
     = (BudgetViewSet.not_authenticated, db)
  /\ BudgetViewSet.destroy request pk db = (BudgetViewSet.not_authenticated, db)
  /\ UserViewSet.logout cfg request refresh_token db
     = (BudgetViewSet.not_authenticated, db)
  /\ (me request db).1 = HTTP_401_UNAUTHORIZED
  /\ status_of BudgetViewSet.not_authenticated = HTTP_401_UNAUTHORIZED.
Proof.
  intros H.
  unfold BudgetViewSet.list, BudgetViewSet.retrieve, BudgetViewSet.create,
    BudgetViewSet.update, BudgetViewSet.destroy, UserViewSet.logout, me.
  rewrite H. repeat split.
Qed.

Lemma anonymous_requests_are_refused_first_witness :
  BudgetViewSet.retrieve fixtures.anonymous 1 fixtures.database
  = BudgetViewSet.not_authenticated
  /\ BudgetViewSet.create fixtures.anonymous fixtures.valid_budget_data fixtures.database
     = (BudgetViewSet.not_authenticated, fixtures.database).
Proof.
  destruct (anonymous_requests_are_refused_first fixtures.test_settings
              fixtures.anonymous 1 1 true fixtures.valid_budget_data None
              fixtures.database eq_refl) as (_ & Hr & Hc & _).
  split; [exact Hr | exact Hc].
Defined.

(** X5. A request that is not answered with its success status stores
    nothing, and a request that succeeds writes only the table of its
    own resource: the budget handlers leave users and blacklist alone,
    a registration leaves budgets and blacklist alone, a logout leaves
    users and budgets alone. *)
Theorem handlers_write_only_on_success (cfg : Settings) (request : Request)
    (pk : Z) (partial : bool) (payload : Payload)
    (registration : UserRegistrationSerializer.Payload)
    (refresh_token : option string) (db : Database) :
  (status_of (BudgetViewSet.create request payload db).1 <> HTTP_201_CREATED ->
     (BudgetViewSet.create request payload db).2 = db)
  /\ (status_of (BudgetViewSet.update partial request pk payload db).1 <> HTTP_200_OK ->
        (BudgetViewSet.update partial request pk payload db).2 = db)
  /\ (status_of (BudgetViewSet.destroy request pk db).1 <> HTTP_204_NO_CONTENT ->
        (BudgetViewSet.destroy request pk db).2 = db)
  /\ (status_of (UserViewSet.register cfg request registration db).1
      <> HTTP_201_CREATED ->
        (UserViewSet.register cfg request registration db).2 = db)
  /\ (status_of (UserViewSet.logout cfg request refresh_token db).1 <> HTTP_200_OK ->
        (UserViewSet.logout cfg request refresh_token db).2 = db)
  /\ (users (BudgetViewSet.create request payload db).2 = users db
      /\ token_blacklist (BudgetViewSet.create request payload db).2
         = token_blacklist db)
  /\ (users (BudgetViewSet.update partial request pk payload db).2 = users db
      /\ token_blacklist (BudgetViewSet.update partial request pk payload db).2
         = token_blacklist db)
  /\ (users (BudgetViewSet.destroy request pk db).2 = users db
      /\ token_blacklist (BudgetViewSet.destroy request pk db).2 = token_blacklist db)
  /\ (budgets (UserViewSet.register cfg request registration db).2 = budgets db
      /\ token_blacklist (UserViewSet.register cfg request registration db).2
         = token_blacklist db)
  /\ (users (UserViewSet.logout cfg request refresh_token db).2 = users db
      /\ budgets (UserViewSet.logout cfg request refresh_token db).2 = budgets db).
Proof.
  unfold BudgetViewSet.create, BudgetViewSet.perform_create, BudgetViewSet.update,
    BudgetViewSet.perform_update, BudgetViewSet.destroy, UserViewSet.register,
    UserRegistrationSerializer.create, UserViewSet.logout.
  destruct (request_user request) as [u|];
    destruct (is_valid false payload);
    destruct (is_valid partial payload);
    destruct (UserRegistrationSerializer.is_valid cfg db registration);
    try destruct (BudgetSerializer.create _ _ _);
    try destruct (BudgetViewSet.get_object _ pk db);
    try destruct (_ || _);
    try destruct refresh_token as [[|c r]|];
    try destruct (RefreshToken.init _ _ _);
    simpl; repeat split; try reflexivity; intros H; try reflexivity;
    exfalso; apply H; reflexivity.
Qed.

End updates.

(** ** The budget serializer *)

Section budget_serializer.

Import PyDecimal BudgetSerializer.




(** What the description field lets through. *)
Lemma run_description_Value (partial : bool) (text : string) :
  Py.contains "000"%char (Py.strip text) = false ->
  run_description partial (Some text) = Value (Py.strip text).
Proof.
  intros Hn. unfold run_description, CharField_run_validation,
    CharField_to_internal_value.
  destruct (Py.is_empty text || Py.is_empty (Py.strip text)) eqn:Eb.
  - simpl. apply orb_true_iff in Eb as [E|E]; apply is_empty_true in E.
    + subst text. reflexivity.
    + now rewrite E.
  - unfold run_validators, CharField_validators, ProhibitNullCharactersValidator.
    simpl. now rewrite Hn.
Qed.

(** An amount above 0.01 that fits the column is let through,
    quantized. *)
Lemma amount_accepted (partial : bool) (d : PyDecimal.t) :
  -2 <= exponent d ->
  Z.of_nat (length (digits d)) + exponent d <= 8 ->
  (1 # 100 < to_Q d)%Q ->
  exists v, run_initial_amount partial (Some (Parsed d)) = Value v
            /\ quantize 2 d = Some v /\ (to_Q v == to_Q d)%Q.
Proof.
  intros He Hw Hgt.
  destruct (quantize_Some d He) as (q & Hq & Hexp & _).
  exists q. pose proof (quantize_value d q Hq) as Hv.
  split; [|split; assumption].
  apply run_initial_amount_Value. repeat split; try assumption.
  rewrite <- Hv in Hgt. rewrite (to_Q_two_places q Hexp) in *.
  unfold Qlt, Qle, float_0_01 in *. simpl in *. lia.
Qed.

(** X7. A create request by an authenticated user is answered 201
    when its title, once stripped, is not empty, has at most 255
    characters and holds no null character, its description, if one is
    sent, holds no null character once stripped, its date is a text
    that can be read, and its amount is a text of at most 1000
    characters that reads as a decimal above 0.01 with at most two
    decimal places and eight digits before the point.  The budget is
    stored under a key that was free, with the stripped title, the
    stripped description (empty when none is sent), the date, the
    amount quantized to two places, the requesting user as owner and
    the time of the request as creation and modification time. *)
Theorem valid_budget_is_created (request : Request) (u : Z) (payload : Payload)
    (db : Database) (text : string) (dt : Z) (d : PyDecimal.t) :
  request_user request = Some u ->
  p_title payload = Some text ->
  Py.strip text <> "" ->
  Py.len (Py.strip text) <= 255 ->
  Py.contains "000"%char (Py.strip text) = false ->
  (forall t, p_description payload = Some t ->
             Py.contains "000"%char (Py.strip t) = false) ->
  p_date payload = Some (Parsed dt) ->
  p_initial_amount payload = Some (Parsed d) ->
  -2 <= exponent d ->
  Z.of_nat (length (digits d)) + exponent d <= 8 ->
  (1 # 100 < to_Q d)%Q ->
  exists pk amount row,
    budgets db !! pk = None
    /\ quantize 2 d = Some amount
    /\ row = {| user := u;
                title := Py.strip text;
                description := match p_description payload with
                               | Some t => Py.strip t
                               | None => ""
                               end;
                date := dt;
                initial_amount := amount;
                created_at := now request;
                updated_at := now request |}
    /\ BudgetViewSet.create request payload db
       = ({| status_of := HTTP_201_CREATED; data := BudgetData pk row |},
          {| users := users db;
             budgets := <[pk := row]> (budgets db);
             token_blacklist := token_blacklist db |}).
Proof.
  intros Hreq Ht Hne Hlen Hnul Hdesc Hdt Ha He Hw Hgt.
  destruct (amount_accepted false d He Hw Hgt) as (amount & Hrun & Hq & _).
  exists (next_pk (budgets db)), amount. eexists.
  split; [apply next_pk_fresh|]. split; [exact Hq|]. split; [reflexivity|].
  unfold BudgetViewSet.create, BudgetViewSet.perform_create, is_valid.
  rewrite Hreq, Ht, Hdt, Ha, Hrun, run_date_Parsed.
  assert (run_title false (Some text) = Value (Py.strip text)) as ->
    by (apply run_title_Value; auto).
  destruct (p_description payload) as [t|].
  - rewrite (run_description_Value false t (Hdesc t eq_refl)). reflexivity.
  - reflexivity.
Qed.

End budget_serializer.

Section budget_serializer_more.

Import PyDecimal BudgetSerializer.

Lemma valid_budget_is_created_witness :
  exists pk row,
    budgets fixtures.database !! pk = None
    /\ BudgetViewSet.create (fixtures.authenticated 1) fixtures.valid_budget_data
         fixtures.database
       = ({| status_of := HTTP_201_CREATED; data := BudgetData pk row |},
          {| users := users fixtures.database;
             budgets := <[pk := row]> (budgets fixtures.database);
             token_blacklist := token_blacklist fixtures.database |})
    /\ title row = "Monthly Budget" /\ user row = 1 /\ created_at row = 1000.
Proof.
  assert (Py.strip "Monthly Budget" <> "") as H1 by discriminate.
  assert (Py.len (Py.strip "Monthly Budget") <= 255) as H2
    by (vm_compute; discriminate).
  assert (forall t, p_description fixtures.valid_budget_data = Some t ->
                    Py.contains "000"%char (Py.strip t) = false) as H3
    by (intros t [= <-]; reflexivity).
  assert (-2 <= exponent (mk false [d5; d0; d0; d0; d0; d0] (-2))) as H4
    by (simpl; lia).
  assert (Z.of_nat (length (digits (mk false [d5; d0; d0; d0; d0; d0] (-2))))
          + exponent (mk false [d5; d0; d0; d0; d0; d0] (-2)) <= 8) as H5
    by (simpl; lia).
  destruct (valid_budget_is_created (fixtures.authenticated 1) 1
              fixtures.valid_budget_data fixtures.database "Monthly Budget" 739662
              (mk false [d5; d0; d0; d0; d0; d0] (-2))
              eq_refl eq_refl H1 H2 eq_refl H3 eq_refl eq_refl H4 H5 eq_refl)
    as (pk & amount & row & Hfree & _ & Hrow & Hc).
  exists pk, row. split; [exact Hfree|]. split; [exact Hc|].
  rewrite Hrow. repeat split.
Defined.

Lemma title_field_Value (partial : bool) (text v : string) :
  CharField_run_validation title_field partial (Some text) = Value v ->
  v = Py.strip text /\ Py.strip text <> "" /\ Py.len (Py.strip text) <= 255.
Proof.
  unfold CharField_run_validation, CharField_to_internal_value.
  destruct (Py.is_empty text || Py.is_empty (Py.strip text)) eqn:Eb;
    [discriminate|].
  apply orb_false_iff in Eb as [_ Eb].
  unfold run_validators, CharField_validators, MaxLengthValidator,
    ProhibitNullCharactersValidator. simpl.
  destruct (Z.ltb_spec 255 (Py.len (Py.strip text))); [discriminate|].
  destruct (Py.contains "000"%char (Py.strip text)); [discriminate|].
  intros [= <-]. repeat split; auto. intros E. rewrite E in Eb. discriminate.
Qed.

Lemma amount_field_Value (partial : bool) (d v : PyDecimal.t) :
  DecimalField_run_validation initial_amount_field partial (Some (Parsed d)) = Value v ->
  (0 < to_Q v)%Q /\ (to_Q v <= cap)%Q.
Proof.
  unfold DecimalField_run_validation, DecimalField_to_internal_value.
  change (df_decimal_places initial_amount_field) with 2.
  destruct (validate_precision initial_amount_field d) as [d'|] eqn:Ep;
    [|discriminate].
  apply validate_precision_Valid in Ep as (-> & He & Hw).
  destruct (quantize 2 d) as [q|] eqn:Eq; [|discriminate].
  unfold run_validators, DecimalField_validators, MinValueValidator. simpl.
  unfold lt_float.
  destruct (Qle_bool float_0_01 (to_Q q)) eqn:Emin; [|discriminate].
  simpl. intros [= <-]. apply Qle_bool_iff in Emin.
  destruct (quantized_bounds d q He Hw Eq) as (Hexp & _ & Hc).
  rewrite (to_Q_two_places q Hexp) in *.
  unfold Qlt, Qle, float_0_01, cap in *. simpl in *.
  unfold signed_coefficient in *. destruct (sign q); lia.
Qed.

(** X8. The three [validate_] methods of the budget serializer never
    reject and never change a value: what the field classes let through
    already satisfies them, so each field behaves as its field class
    alone, and the messages that only these methods carry are never
    sent. *)
Theorem validate_methods_change_nothing (partial : bool) :
  (forall data, run_title partial data
                = CharField_run_validation title_field partial data)
  /\ (forall data, run_initial_amount partial data
                   = DecimalField_run_validation initial_amount_field partial data)
  /\ (forall data, run_date partial data
                   = DateField_run_validation partial "Date is required."
                       "Enter a valid date (YYYY-MM-DD)." data)
  /\ (forall data, run_title partial data <> Fail ["Title cannot be empty."])
  /\ (forall data,
        run_initial_amount partial data <> Fail ["Initial amount must be greater than 0."]
        /\ run_initial_amount partial data <> Fail ["Initial amount is too large."]).
Proof.
  assert (forall data, run_title partial data
                       = CharField_run_validation title_field partial data) as Ht.
  { intros [text|]; [|unfold run_title; simpl; unfold validate_empty_values;
                       destruct partial; reflexivity].
    unfold run_title, with_validate_method.
    destruct (CharField_run_validation title_field partial (Some text))
      as [|v|] eqn:E; try reflexivity.
    apply title_field_Value in E as (-> & Hne & Hlen).
    rewrite (proj2 (validate_title_alone (Py.strip text)));
      rewrite ?strip_idempotent; auto. }
  assert (forall data, run_initial_amount partial data
            = DecimalField_run_validation initial_amount_field partial data) as Ha.
  { intros [[| |d]|]; try (unfold run_initial_amount; simpl;
                         unfold validate_empty_values; destruct partial; reflexivity).
    unfold run_initial_amount, with_validate_method.
    destruct (DecimalField_run_validation initial_amount_field partial
                (Some (Parsed d))) as [|v|] eqn:E; try reflexivity.
    apply amount_field_Value in E as [Hpos Hcap].
    now rewrite (proj2 (validate_initial_amount_alone v) Hpos Hcap). }
  split; [exact Ht|]. split; [exact Ha|].
  split; [intros [[| |d]|]; unfold run_date; simpl;
          try (unfold validate_empty_values; destruct partial); reflexivity|].
  split.
  - intros data. rewrite Ht. unfold CharField_run_validation.
    destruct data as [text|].
    + destruct (Py.is_empty text || Py.is_empty (Py.strip text)); [discriminate|].
      unfold run_validators, CharField_validators, MaxLengthValidator,
        ProhibitNullCharactersValidator. simpl.
      destruct (_ <? _), (Py.contains _ _); discriminate.
    + unfold validate_empty_values. simpl. destruct partial; discriminate.
  - intros data. rewrite Ha. unfold DecimalField_run_validation.
    destruct data as [[| |d]|].
    + split; discriminate.
    + split; discriminate.
    + unfold DecimalField_to_internal_value.
      destruct (validate_precision initial_amount_field d) as [v|detail] eqn:Ep.
      * destruct (quantize _ v); [|split; discriminate].
        unfold run_validators, DecimalField_validators, MinValueValidator. simpl.
        destruct (lt_float _ _); simpl; split; discriminate.
      * unfold validate_precision in Ep. simpl in Ep.
        repeat (match type of Ep with
                | context [if ?b then _ else _] => destruct b
                end; simpl in Ep);
          try discriminate; injection Ep as <-; split; discriminate.
    + unfold validate_empty_values. destruct partial; split; discriminate.
Qed.

End budget_serializer_more.

(** ** Round trips through the budget serializer *)

Section budget_round_trips.

Import PyDecimal BudgetSerializer.

Lemma run_description_fixed (partial partial' : bool) (data : option string)
    (v : string) :
  run_description partial data = Value v ->
  run_description partial' (Some v) = Value v.
Proof.
  intros H.
  assert (v = "" \/ (v = Py.strip v /\ Py.contains "000"%char (Py.strip v) = false))
    as [->|[Hv Hn]].
  { revert H. destruct data as [t|].
    - unfold run_description, CharField_run_validation, CharField_to_internal_value.
      destruct (Py.is_empty t || Py.is_empty (Py.strip t)) eqn:Eb.
      + simpl. intros [= <-]. now left.
      + unfold run_validators, CharField_validators,
          ProhibitNullCharactersValidator.
        simpl. destruct (Py.contains "000"%char (Py.strip t)) eqn:En;
          [discriminate|].
        simpl. intros [= <-]. right. now rewrite strip_idempotent.
    - unfold run_description. simpl. unfold validate_empty_values.
      destruct partial; discriminate. }
  - destruct partial'; reflexivity.
  - rewrite Hv at 2. now apply run_description_Value.
Qed.

Lemma run_title_fixed (partial partial' : bool) (data : option string)
    (v : string) :
  run_title partial data = Value v -> run_title partial' (Some v) = Value v.
Proof.
  destruct data as [text|].
  - intros H. apply run_title_Value in H as (-> & Hne & Hlen & Hnul).
    apply run_title_Value. rewrite strip_idempotent. auto.
  - unfold run_title. simpl. unfold validate_empty_values.
    destruct partial; discriminate.
Qed.

Lemma run_initial_amount_fixed (partial partial' : bool)
    (data : option (parse PyDecimal.t)) (v : PyDecimal.t) :
  run_initial_amount partial data = Value v ->
  run_initial_amount partial' (Some (Parsed v)) = Value v.
Proof.
  destruct data as [[| |d]|].
  - discriminate.
  - discriminate.
  - intros H. apply run_initial_amount_Value in H as (He & Hw & Hq & Hmin).
    destruct (quantized_bounds d v He Hw Hq) as (Hexp & Hlen & Hc).
    apply run_initial_amount_Value. rewrite Hexp.
    split; [lia|]. split; [lia|]. split; [|exact Hmin].
    unfold quantize. rewrite Hexp. simpl.
    destruct (Z.eqb_spec (coefficient (digits v)) 0) as [E|E].
    + exfalso. rewrite (to_Q_two_places v Hexp) in Hmin.
      unfold Qle, float_0_01, signed_coefficient in Hmin. simpl in Hmin.
      rewrite E in Hmin. destruct (sign v); simpl in Hmin; lia.
    + rewrite app_nil_r. destruct v as [s ds e]. simpl in *. now subst e.
  - unfold run_initial_amount. simpl. unfold validate_empty_values.
    destruct partial; discriminate.
Qed.

(** X9. What the serializer has let through it lets through again,
    unchanged: a title, a description or an amount that was accepted,
    submitted as it was stored, is accepted as it is, on a full and on
    a partial request alike. *)
Theorem accepted_values_are_accepted_again (partial partial' : bool) :
  (forall data v, run_title partial data = Value v ->
                  run_title partial' (Some v) = Value v)
  /\ (forall data v, run_description partial data = Value v ->
                     run_description partial' (Some v) = Value v)
  /\ (forall data v, run_date partial data = Value v ->
                     run_date partial' (Some (Parsed v)) = Value v)
  /\ (forall data v, run_initial_amount partial data = Value v ->
                     run_initial_amount partial' (Some (Parsed v)) = Value v).
Proof.
  split; [|split; [|split]].
  - intros data v. apply run_title_fixed.
  - intros data v. apply run_description_fixed.
  - intros data v _. reflexivity.
  - intros data v. apply run_initial_amount_fixed.
Qed.

(** X10. A budget that a create request has stored can be put back as
    it was shown: a full or partial update by its owner with the shown
    title, description, date and amount (and the shown user) is
    answered 200 and changes nothing of the budget but its
    modification time. *)
Theorem putting_a_budget_back_changes_nothing (partial : bool)
    (request request' : Request) (u : Z) (payload : Payload) (db : Database)
    (resp : Response) (db' : Database) :
  request_user request = Some u ->
  request_user request' = Some u ->
  BudgetViewSet.create request payload db = (resp, db') ->
  status_of resp = HTTP_201_CREATED ->
  exists pk row row',
    data resp = BudgetData pk row
    /\ row' = {| user := user row; title := title row;
                 description := description row; date := date row;
                 initial_amount := initial_amount row;
                 created_at := created_at row; updated_at := now request' |}
    /\ BudgetViewSet.update partial request' pk (payload_of row) db'
       = ({| status_of := HTTP_200_OK; data := BudgetData pk row' |},
          {| users := users db';
             budgets := <[pk := row']> (budgets db');
             token_blacklist := token_blacklist db' |}).
Proof.
  intros Hreq Hreq' Hc Hs.
  destruct (create_201 _ _ _ _ _ Hc Hs)
    as (u' & vd & row & Hu & Hv & Hrow & Hdata & _ & _ & Hb).
  assert (u' = u) as -> by congruence.
  apply is_valid_inl in Hv as (Ht & Hd & Hdt & Ha & Hnt & _).
  unfold BudgetSerializer.create in Hrow.
  destruct (vd_date vd) as [dt|] eqn:Edt; [|discriminate].
  destruct (vd_initial_amount vd) as [amount|] eqn:Eam; [|discriminate].
  injection Hrow as <-.
  exists (next_pk (budgets db)).
  exists {| user := u; title := default "" (vd_title vd);
            description := default "" (vd_description vd); date := dt;
            initial_amount := amount; created_at := now request;
            updated_at := now request |}.
  eexists. split; [exact Hdata|]. split; [reflexivity|].
  cbn [user title description date initial_amount created_at updated_at].
  unfold BudgetViewSet.update, BudgetViewSet.perform_update.
  rewrite Hreq'.
  assert (BudgetViewSet.get_object u (next_pk (budgets db)) db'
          = Some {| user := u; title := default "" (vd_title vd);
                    description := default "" (vd_description vd); date := dt;
                    initial_amount := amount; created_at := now request;
                    updated_at := now request |}) as ->.
  { apply get_queryset_lookup. rewrite Hb, lookup_insert_eq. auto. }
  assert (run_title partial (Some (default "" (vd_title vd)))
          = Value (default "" (vd_title vd))) as Et.
  { destruct (run_title false (p_title payload)) as [|v|detail] eqn:E.
    - exfalso. destruct (p_title payload) as [text|] eqn:Ep.
      + destruct (run_title_decided false text) as [[? ?]|[? ?]]; congruence.
      + discriminate E.
    - rewrite Ht. simpl. exact (run_title_fixed false partial _ _ E).
    - exfalso. now apply (Hnt detail). }
  assert (run_description partial (Some (default "" (vd_description vd)))
          = Value (default "" (vd_description vd))) as Ed.
  { rewrite Hd.
    destruct (run_description false (p_description payload)) as [|v|detail] eqn:E;
      simpl; try reflexivity.
    exact (run_description_fixed false partial _ _ E). }
  assert (run_initial_amount partial (Some (Parsed amount)) = Value amount) as Ea.
  { destruct (run_initial_amount false (p_initial_amount payload)) as [|v|detail]
      eqn:E; try discriminate.
    injection Ha as ->. exact (run_initial_amount_fixed false partial _ _ E). }
  unfold is_valid, payload_of.
  cbn [p_title p_description p_date p_initial_amount
       title description date initial_amount].
  rewrite Et, Ed, Ea. reflexivity.
Qed.

Lemma putting_a_budget_back_changes_nothing_witness :
  exists pk row,
    data (BudgetViewSet.create (fixtures.authenticated 1) fixtures.valid_budget_data
            fixtures.database).1 = BudgetData pk row
    /\ status_of
         (BudgetViewSet.update false (fixtures.authenticated 1) pk (payload_of row)
            (BudgetViewSet.create (fixtures.authenticated 1) fixtures.valid_budget_data
               fixtures.database).2).1 = HTTP_200_OK.
Proof.
  destruct (putting_a_budget_back_changes_nothing false (fixtures.authenticated 1)
              (fixtures.authenticated 1) 1 fixtures.valid_budget_data
              fixtures.database _ _ eq_refl eq_refl (surjective_pairing _))
    as (pk & row & row' & Hd & _ & Hup).
  - vm_compute. reflexivity.
  - exists pk, row. split; [exact Hd|]. now rewrite Hup.
Defined.

(** X11. Every amount the serializer accepts lies between 0.02 and
    99999999.99, and both are accepted: the lower end is 0.02 and not
    0.01 because the minimum of the model is the double 0.01, which is
    more than one hundredth, and the upper end is what ten digits with
    two decimal places can hold, not the cap of
    [validate_initial_amount]. *)
Theorem accepted_amounts_are_bounded (partial : bool) :
  (forall data v, run_initial_amount partial data = Value v ->
                  (2 # 100 <= to_Q v)%Q /\ (to_Q v <= 9999999999 # 100)%Q)
  /\ (1 # 100 < float_0_01)%Q
  /\ run_initial_amount partial (Some (Parsed (mk false [d1] (-2))))
     = Fail ["Ensure this value is greater than or equal to 0.01."]
  /\ run_initial_amount partial (Some (Parsed (mk false [d2] (-2))))
     = Value (mk false [d2] (-2))
  /\ run_initial_amount partial
       (Some (Parsed (mk false [d9; d9; d9; d9; d9; d9; d9; d9; d9; d9] (-2))))
     = Value (mk false [d9; d9; d9; d9; d9; d9; d9; d9; d9; d9] (-2)).
Proof.
  split; [|repeat split; destruct partial; reflexivity].
  intros [[| |d]|] v.
  - discriminate.
  - discriminate.
  - intros H. apply run_initial_amount_Value in H as (He & Hw & Hq & Hmin).
    destruct (quantized_bounds d v He Hw Hq) as (Hexp & _ & Hc).
    rewrite (to_Q_two_places v Hexp) in *.
    unfold Qle, float_0_01 in *. simpl in *.
    unfold signed_coefficient in *. destruct (sign v); lia.
  - unfold run_initial_amount. simpl. unfold validate_empty_values.
    destruct partial; discriminate.
Qed.

(** X12. [validate_initial_amount] on its own compares a decimal with
    doubles: it returns the value unchanged exactly when the value is
    above zero and not above the double nearest to 999999999.99, which
    is a little more than 999999999.99, so that 999999999.990000001
    passes. *)
Theorem validate_initial_amount_compares_with_a_double (value : PyDecimal.t) :
  (validate_initial_amount value = Valid value <->
   (0 < to_Q value)%Q /\ (to_Q value <= float_999999999_99)%Q)
  /\ (cap < float_999999999_99)%Q
  /\ (cap < to_Q just_above_the_cap)%Q
  /\ validate_initial_amount just_above_the_cap = Valid just_above_the_cap.
Proof.
  split; [|repeat split].
  unfold validate_initial_amount, le_zero, gt_float.
  destruct (Qle_bool (to_Q value) 0) eqn:E0;
    destruct (Qle_bool (to_Q value) float_999999999_99) eqn:E1; simpl.
  - apply Qle_bool_iff in E0. split; [discriminate|].
    intros [H _]. exfalso. eapply Qlt_not_le; eassumption.
  - apply Qle_bool_iff in E0. split; [discriminate|].
    intros [H _]. exfalso. eapply Qlt_not_le; eassumption.
  - apply Qle_bool_iff in E1. split; [|reflexivity]. intros _. split; [|exact E1].
    apply Qnot_le_lt. intros H. apply Qle_bool_iff in H. congruence.
  - split; [discriminate|]. intros [_ H]. apply Qle_bool_iff in H. congruence.
Qed.

End budget_round_trips.

(** ** Registration and the profile *)

Section users_table.

Import UserRegistrationSerializer.

Lemma username_exists_false (value : string) (db : Database) :
  username_exists value db = false <->
  forall pk row, users db !! pk = Some row -> username row <> value.
Proof.
  unfold username_exists. rewrite bool_decide_eq_false, Exists_exists. split.
  - intros H pk row Hrow E. apply H. exists (pk, row).
    split; [now apply elem_of_map_to_list | exact E].
  - intros H ([pk row] & Hin & E). apply elem_of_map_to_list in Hin.
    exact (H pk row Hin E).
Qed.

Lemma email_exists_false (value : string) (db : Database) :
  email_exists value db = false <->
  forall pk row, users db !! pk = Some row -> email row <> value.
Proof.
  unfold email_exists. rewrite bool_decide_eq_false, Exists_exists. split.
  - intros H pk row Hrow E. apply H. exists (pk, row).
    split; [now apply elem_of_map_to_list | exact E].
  - intros H ([pk row] & Hin & E). apply elem_of_map_to_list in Hin.
    exact (H pk row Hin E).
Qed.

Lemma register_201 (cfg : Settings) (request : Request) (payload : Payload)
    (db : Database) (resp : Response) (db' : Database) :
  UserViewSet.register cfg request payload db = (resp, db') ->
  status_of resp = HTTP_201_CREATED ->
  exists row,
    db' = {| users := <[next_pk (users db) := row]> (users db);
             budgets := budgets db; token_blacklist := token_blacklist db |}
    /\ data resp = Profile [("username", username row); ("email", email row)]
    /\ username_exists (username row) db = false
    /\ email_exists (email row) db = false
    /\ first_name row = "" /\ last_name row = "".
Proof.
  unfold UserViewSet.register.
  destruct (is_valid cfg db payload) as [vd|errors]; [|intros [= <- <-]; discriminate].
  unfold create.
  destruct (username_exists _ db || email_exists _ db) eqn:E;
    [intros [= <- <-]; discriminate|].
  apply orb_false_iff in E as [E1 E2].
  intros [= <- <-] _. eexists. split; [reflexivity|]. simpl. auto.
Qed.

Lemma register_not_201 (cfg : Settings) (request : Request) (payload : Payload)
    (db : Database) :
  status_of (UserViewSet.register cfg request payload db).1 <> HTTP_201_CREATED ->
  (UserViewSet.register cfg request payload db).2 = db.
Proof.
  unfold UserViewSet.register.
  destruct (is_valid cfg db payload) as [vd|errors]; [|reflexivity].
  destruct (create cfg (now request) vd db) as [[instance db']|]; [|reflexivity].
  simpl. intros H. now contradiction H.
Qed.

(** X13. Registration keeps the user table free of duplicates: when no
    two users share a username or an e-mail address before a
    registration request, none do after it, whatever the request and
    its answer; and every user who was in the table is still there,
    unchanged. *)
Theorem register_keeps_names_unique (cfg : Settings) (request : Request)
    (payload : Payload) (db : Database) :
  unique_names db ->
  unique_names (UserViewSet.register cfg request payload db).2
  /\ (forall pk row, users db !! pk = Some row ->
        users (UserViewSet.register cfg request payload db).2 !! pk = Some row).
Proof.
  intros Hu.
  destruct (decide (status_of (UserViewSet.register cfg request payload db).1
                    = HTTP_201_CREATED)) as [Hs|Hs].
  - destruct (register_201 cfg request payload db _ _ (surjective_pairing _) Hs)
      as (row & -> & _ & Xu & Xe & _).
    rewrite username_exists_false in Xu. rewrite email_exists_false in Xe.
    simpl. split.
    + intros pk1 pk2 r1 r2 H1 H2 Heq. simpl in H1, H2.
      apply lookup_insert_Some in H1 as [[<- <-]|[N1 H1]];
        apply lookup_insert_Some in H2 as [[<- <-]|[N2 H2]].
      * reflexivity.
      * exfalso. destruct Heq as [E|E];
          [exact (Xu pk2 r2 H2 (eq_sym E)) | exact (Xe pk2 r2 H2 (eq_sym E))].
      * exfalso. destruct Heq as [E|E];
          [exact (Xu pk1 r1 H1 E) | exact (Xe pk1 r1 H1 E)].
      * exact (Hu pk1 pk2 r1 r2 H1 H2 Heq).
    + intros pk r Hr. rewrite lookup_insert_ne; [exact Hr|].
      intros <-. rewrite next_pk_fresh in Hr. discriminate.
  - rewrite (register_not_201 cfg request payload db Hs). auto.
Qed.

Lemma register_keeps_names_unique_witness :
  unique_names fixtures.database
  /\ unique_names
       (UserViewSet.register fixtures.test_settings fixtures.anonymous
          (fixtures.new_user "SecurePass123!" "SecurePass123!") fixtures.database).2
  /\ size (users (UserViewSet.register fixtures.test_settings fixtures.anonymous
                    (fixtures.new_user "SecurePass123!" "SecurePass123!")
                    fixtures.database).2) = 3%nat.
Proof.
  assert (unique_names fixtures.database) as H.
  { intros pk1 pk2 r1 r2 H1 H2 Heq.
    unfold fixtures.database, fixtures.two_users in H1, H2. simpl in H1, H2.
    apply lookup_insert_Some in H1 as [[<- <-]|[N1 H1]];
      apply lookup_insert_Some in H2 as [[<- <-]|[N2 H2]];
      try apply lookup_singleton_Some in H1 as [<- <-];
      try apply lookup_singleton_Some in H2 as [<- <-];
      try reflexivity; exfalso; destruct Heq as [E|E]; discriminate E. }
  split; [exact H|]. split.
  - exact (proj1 (register_keeps_names_unique fixtures.test_settings fixtures.anonymous
                    (fixtures.new_user "SecurePass123!" "SecurePass123!")
                    fixtures.database H)).
  - vm_compute. reflexivity.
Defined.

(** X14. A registration that lacks one of its four fields, or gives it
    as empty or white space only, is answered 400 and stores nothing,
    and the errors carry under the name of each such field the message
    the serializer declares for it: the required message for a missing
    key, the blank message for an empty text. *)
Theorem registration_reports_what_is_missing (cfg : Settings) (request : Request)
    (payload : Payload) (db : Database) :
  lacks (r_username payload) \/ lacks (r_email payload)
  \/ lacks (r_password payload) \/ lacks (r_password_confirm payload) ->
  exists errors,
    UserViewSet.register cfg request payload db
    = ({| status_of := HTTP_400_BAD_REQUEST; data := Errors errors |}, db)
    /\ (r_username payload = None ->
        errors_of "username" errors = Some ["Username is required."])
    /\ (r_email payload = None ->
        errors_of "email" errors = Some ["Email is required."])
    /\ (r_password payload = None ->
        errors_of "password" errors = Some ["Password is required."])
    /\ (r_password_confirm payload = None ->
        errors_of "password_confirm" errors
        = Some ["Password confirmation is required."])
    /\ (forall text, r_username payload = Some text -> Py.strip text = "" ->
        errors_of "username" errors = Some ["Username cannot be blank."])
    /\ (forall text, r_email payload = Some text -> Py.strip text = "" ->
        errors_of "email" errors = Some ["Email cannot be blank."])
    /\ (forall text, r_password payload = Some text -> Py.strip text = "" ->
        errors_of "password" errors = Some ["Password cannot be blank."])
    /\ (forall text, r_password_confirm payload = Some text -> Py.strip text = "" ->
        errors_of "password_confirm" errors
        = Some ["Password confirmation cannot be blank."]).
Proof.
  intros Hlacks. unfold UserViewSet.register, is_valid. cbv zeta.
  assert (forall f (x : option string), cf_required f = true ->
            cf_allow_blank f = false -> lacks x ->
            exists d, CharField_run_validation f false x = Fail d) as Hl.
  { intros f [t|] Hr Hb Hx.
    - rewrite (CharField_blank f false t Hb Hx). eauto.
    - rewrite (CharField_required f Hr). eauto. }
  assert (forall f, cf_required f = true ->
            CharField_run_validation f false None = Fail [cf_msg_required f]) as Hreq
    by apply CharField_required.
  assert (forall f t, cf_allow_blank f = false -> Py.strip t = "" ->
            CharField_run_validation f false (Some t) = Fail [cf_msg_blank f]) as Hbl
    by (intros; now apply CharField_blank).
  pose proof (Hl (username_field cfg db) (r_username payload) eq_refl eq_refl) as Lu.
  pose proof (Hl (email_field cfg db) (r_email payload) eq_refl eq_refl) as Le.
  pose proof (Hl (password_field cfg) (r_password payload) eq_refl eq_refl) as Lp.
  pose proof (Hl password_confirm_field (r_password_confirm payload) eq_refl eq_refl)
    as Lc.
  pose proof (Hreq (username_field cfg db) eq_refl) as Ru.
  pose proof (Hreq (email_field cfg db) eq_refl) as Re.
  pose proof (Hreq (password_field cfg) eq_refl) as Rp.
  pose proof (Hreq password_confirm_field eq_refl) as Rc.
  pose proof (fun t => Hbl (username_field cfg db) t eq_refl) as Bu.
  pose proof (fun t => Hbl (email_field cfg db) t eq_refl) as Be.
  pose proof (fun t => Hbl (password_field cfg) t eq_refl) as Bp.
  pose proof (fun t => Hbl password_confirm_field t eq_refl) as Bc.
  clear Hl Hreq Hbl.
  change (cf_msg_required (username_field cfg db)) with "Username is required." in Ru.
  change (cf_msg_required (email_field cfg db)) with "Email is required." in Re.
  change (cf_msg_required (password_field cfg)) with "Password is required." in Rp.
  change (cf_msg_required password_confirm_field)
    with "Password confirmation is required." in Rc.
  change (cf_msg_blank (username_field cfg db)) with "Username cannot be blank." in Bu.
  change (cf_msg_blank (email_field cfg db)) with "Email cannot be blank." in Be.
  change (cf_msg_blank (password_field cfg)) with "Password cannot be blank." in Bp.
  change (cf_msg_blank password_confirm_field)
    with "Password confirmation cannot be blank." in Bc.
  destruct (r_username payload) as [tu|], (r_email payload) as [te|],
    (r_password payload) as [tp|], (r_password_confirm payload) as [tc|];
    try rewrite Ru in *; try rewrite Re in *; try rewrite Rp in *;
    try rewrite Rc in *.
  all: destruct (CharField_run_validation (username_field cfg db) false _)
         as [|vu|du] eqn:Eu;
       destruct (CharField_run_validation (email_field cfg db) false _)
         as [|ve|de] eqn:Ee;
       destruct (CharField_run_validation (password_field cfg) false _)
         as [|vp|dp] eqn:Ep;
       destruct (CharField_run_validation password_confirm_field false _)
         as [|vc|dc] eqn:Ec;
       try discriminate;
       try (exfalso;
            destruct Hlacks as [H|[H|[H|H]]];
            [destruct (Lu H) | destruct (Le H) | destruct (Lp H) | destruct (Lc H)];
            discriminate).
  all: unfold with_validate_method;
       try destruct (validate_username db vu);
       try destruct (validate_email db ve);
       cbn [field_errors app]; eexists; (split; [reflexivity|]);
       repeat split; try discriminate; try (intros _; congruence);
       intros t [= <-] Ht;
       try (rewrite (Bu _ Ht) in Eu); try (rewrite (Be _ Ht) in Ee);
       try (rewrite (Bp _ Ht) in Ep); try (rewrite (Bc _ Ht) in Ec);
       try discriminate; cbn; congruence.
Qed.

Lemma registration_reports_what_is_missing_witness :
  exists errors,
    UserViewSet.register fixtures.test_settings fixtures.anonymous
      {| r_username := Some "   "; r_email := None;
         r_password := Some "SecurePass123!"; r_password_confirm := None |}
      fixtures.database
    = ({| status_of := HTTP_400_BAD_REQUEST; data := Errors errors |},
       fixtures.database)
    /\ errors_of "username" errors = Some ["Username cannot be blank."]
    /\ errors_of "email" errors = Some ["Email is required."]
    /\ errors_of "password_confirm" errors
       = Some ["Password confirmation is required."].
Proof.
  destruct (registration_reports_what_is_missing fixtures.test_settings
              fixtures.anonymous
              {| r_username := Some "   "; r_email := None;
                 r_password := Some "SecurePass123!"; r_password_confirm := None |}
              fixtures.database (or_introl eq_refl))
    as (errors & Hr & _ & He & _ & Hc & Hu & _).
  exists errors. split; [exact Hr|]. split; [exact (Hu "   " eq_refl eq_refl)|].
  split; [exact (He eq_refl) | exact (Hc eq_refl)].
Defined.

(** X15. A user who has just registered and asks for the profile with
    a token of the new account is shown the key of the new row, the
    username and e-mail address the registration answered with, and
    empty first and last names; and the profile never has a password
    key, whoever asks. *)
Theorem registered_user_sees_the_profile (cfg : Settings) (request : Request)
    (payload : Payload) (db : Database) (resp : Response) (db' : Database) :
  UserViewSet.register cfg request payload db = (resp, db') ->
  status_of resp = HTTP_201_CREATED ->
  users db !! next_pk (users db) = None
  /\ (exists name mail,
        data resp = Profile [("username", name); ("email", mail)]
        /\ forall request', request_user request' = Some (next_pk (users db)) ->
             me request' db'
             = (HTTP_200_OK,
                [("id", JInt (next_pk (users db))); ("username", JStr name);
                 ("email", JStr mail);
                 ("first_name", JStr ""); ("last_name", JStr "")]))
  /\ (forall request'' db'', json_get "password" (me request'' db'').2 = None).
Proof.
  intros Hreg Hs.
  destruct (register_201 cfg request payload db resp db' Hreg Hs)
    as (row & -> & Hd & _ & _ & Hf & Hl).
  split; [apply next_pk_fresh|]. split.
  - exists (username row), (email row). split; [exact Hd|].
    intros request' Hr. unfold me. rewrite Hr. simpl.
    rewrite lookup_insert_eq. unfold UserSerializer.to_representation.
    now rewrite Hf, Hl.
  - intros request'' db''. unfold me.
    destruct (request_user request'') as [u|]; [|reflexivity].
    destruct (users db'' !! u); reflexivity.
Qed.

Lemma registered_user_sees_the_profile_witness :
  exists name mail,
    data (UserViewSet.register fixtures.test_settings fixtures.anonymous
            (fixtures.new_user "SecurePass123!" "SecurePass123!")
            fixtures.database).1
    = Profile [("username", name); ("email", mail)]
    /\ me (fixtures.authenticated 3)
         (UserViewSet.register fixtures.test_settings fixtures.anonymous
            (fixtures.new_user "SecurePass123!" "SecurePass123!") fixtures.database).2
       = (HTTP_200_OK,
          [("id", JInt 3); ("username", JStr name); ("email", JStr mail);
           ("first_name", JStr ""); ("last_name", JStr "")]).
Proof.
  destruct (registered_user_sees_the_profile fixtures.test_settings fixtures.anonymous
              (fixtures.new_user "SecurePass123!" "SecurePass123!")
              fixtures.database _ _ (surjective_pairing _))
    as (_ & (name & mail & Hd & Hme) & _).
  - vm_compute. reflexivity.
  - exists name, mail. split; [exact Hd|].
    exact (Hme (fixtures.authenticated 3) eq_refl).
Defined.

End users_table.

(** ** The blacklist *)

Section blacklist.

Import UserViewSet.

(** X16. A logout never reads the blacklist and never takes a row off
    it: its answer is the same whatever the database holds, every row
    of the blacklist is still there afterwards, and a token that was
    logged out once is logged out again with 200, which leaves two rows
    more than there were. *)
Theorem logout_never_reads_the_blacklist (cfg : Settings) (request : Request)
    (refresh_token : option string) (db : Database) :
  (forall db2, (logout cfg request refresh_token db2).1
               = (logout cfg request refresh_token db).1)
  /\ (forall k row, token_blacklist db !! k = Some row ->
        token_blacklist (logout cfg request refresh_token db).2 !! k = Some row)
  /\ (status_of (logout cfg request refresh_token db).1 = HTTP_200_OK ->
      status_of (logout cfg request refresh_token
                   (logout cfg request refresh_token db).2).1 = HTTP_200_OK
      /\ size (token_blacklist
                 (logout cfg request refresh_token
                    (logout cfg request refresh_token db).2).2)
         = S (S (size (token_blacklist db)))).
Proof.
  unfold logout.
  destruct (request_user request) as [u|]; [|repeat split; auto; discriminate].
  destruct refresh_token as [[|c r]|]; try (repeat split; auto; discriminate).
  destruct (RefreshToken.init cfg (now request) (String c r)) as [payload|];
    [|repeat split; auto; discriminate].
  simpl. split; [reflexivity|]. split.
  - intros k row Hk. rewrite lookup_insert_ne; [exact Hk|].
    intros <-. rewrite next_pk_fresh in Hk. discriminate.
  - intros _. split; [reflexivity|].
    rewrite !map_size_insert_None; [reflexivity|apply next_pk_fresh..].
Qed.

End blacklist.

(** ** The URL configuration *)

Section urls.

Lemma resolve_view_elem (patterns : list (string * string)) (path name : string) :
  resolve_view patterns path = Some name -> (path, name) ∈ patterns.
Proof.
  induction patterns as [|[route n] rest IH]; simpl; [discriminate|].
  destruct (String.eqb_spec route path) as [->|_].
  - intros [= ->]. apply list_elem_of_here.
  - intros H. apply list_elem_of_further, IH, H.
Qed.

(** X17. The routes of [api/urls.py]: when the included modules of the
    users and the budgets name no view [health_check], the path [up]
    and no other path leads to the health check; and the two token
    paths lead to the token views whatever the included modules
    declare, since their patterns come first. *)
Theorem only_up_leads_to_the_health_check
    (users_urls budgets_urls : list (string * string)) (path : string) :
  (forall route name,
      (route, name) ∈ (users_urls ++ budgets_urls)%list -> name <> "health_check") ->
  (resolve (urlpatterns users_urls budgets_urls) path = Some "health_check"
   <-> path = "up")
  /\ resolve (urlpatterns users_urls budgets_urls) "api/token/"
     = Some "token_obtain_pair"
  /\ resolve (urlpatterns users_urls budgets_urls) "api/token/refresh/"
     = Some "token_refresh".
Proof.
  intros Hno. split; [|split; reflexivity]. split.
  - unfold urlpatterns, resolve.
    destruct (String.eqb_spec "api/token/" path) as [_|_]; [discriminate|].
    destruct (String.eqb_spec "api/token/refresh/" path) as [_|_]; [discriminate|].
    assert (forall inner rest,
              (forall route name, (route, name) ∈ inner -> name <> "health_check") ->
              (rest = Some "health_check" -> path = "up") ->
              match strip_prefix "api/" path with
              | Some remainder =>
                  match resolve_view inner remainder with
                  | Some name => Some name
                  | None => rest
                  end
              | None => rest
              end = Some "health_check" -> path = "up") as Hinc.
    { intros inner rest Hin Hrest.
      destruct (strip_prefix "api/" path) as [remainder|]; [|exact Hrest].
      destruct (resolve_view inner remainder) as [name|] eqn:E; [|exact Hrest].
      intros [= ->]. apply resolve_view_elem in E. now apply Hin in E. }
    apply Hinc.
    { intros route name Hin. apply (Hno route name), elem_of_app. now left. }
    apply Hinc.
    { intros route name Hin. apply (Hno route name), elem_of_app. now right. }
    unfold health_check_urlpatterns. cbn [strip_prefix resolve_view].
    destruct (String.eqb_spec "up" path) as [<-|_]; [reflexivity|discriminate].
  - intros ->. reflexivity.
Qed.

Lemma only_up_leads_to_the_health_check_witness :
  resolve (urlpatterns [("users/register/", "user-register"); ("users/me/", "user-me")]
             [("budgets/", "budget-list")]) "api/up"
  <> Some "health_check"
  /\ resolve (urlpatterns [("users/register/", "user-register"); ("users/me/", "user-me")]
                [("budgets/", "budget-list")]) "up"
     = Some "health_check".
Proof.
  assert (forall route name,
            (route, name) ∈ ([("users/register/", "user-register");
                              ("users/me/", "user-me")]
                             ++ [("budgets/", "budget-list")])%list ->
            name <> "health_check") as H.
  { intros route name Hin. simpl in Hin.
    repeat (apply elem_of_cons in Hin as [[= -> ->]|Hin]; [discriminate|]).
    now apply elem_of_nil in Hin. }
  split.
  - intros E.
    apply (proj1 (only_up_leads_to_the_health_check _ _ "api/up" H)) in E.
    discriminate E.
  - apply (proj1 (only_up_leads_to_the_health_check _ _ "up" H)). reflexivity.
Defined.

End urls.

(** ** Pages of the list *)

Section pages.

Import BudgetSerializer.

Lemma ordered_length (queryset : gmap Z Budget) :
  length (ordered queryset) = size queryset.
Proof.
  rewrite (Permutation_length (ordered_permutation queryset)).
  apply length_map_to_list.
Qed.

(** X18. The budget of a user that is later than every other budget of
    theirs, by date and among equal dates by creation time, is the first
    row of the first page of their list. *)
Theorem the_latest_budget_is_listed_first (cfg : Settings) (request : Request)
    (u : Z) (db : Database) (pk : Z) (row : Budget) :
  request_user request = Some u ->
  budgets db !! pk = Some row ->
  user row = u ->
  latest_of_owner db pk row ->
  exists rest,
    results_of (BudgetViewSet.list cfg request 1 db) = Some ((pk, row) :: rest).
Proof.
  intros Hreq Hrow Hown Hlatest.
  assert (exists rest, ordered (BudgetViewSet.get_queryset u db) = (pk, row) :: rest)
    as [rest Hrows].
  { pose proof (ordered_sorted (BudgetViewSet.get_queryset u db)) as Hs.
    assert ((pk, row) ∈ ordered (BudgetViewSet.get_queryset u db)) as Hin
      by (apply ordered_elem_of; auto).
    destruct (ordered (BudgetViewSet.get_queryset u db)) as [|[pk' r] rest] eqn:E.
    - now apply elem_of_nil in Hin.
    - assert ((pk', r) ∈ ordered (BudgetViewSet.get_queryset u db)) as Hhead
        by (rewrite E; apply list_elem_of_here).
      apply ordered_elem_of in Hhead as [Hr Hu]. simpl in Hr, Hu.
      destruct (decide (pk' = pk)) as [->|Hne].
      + assert (r = row) as -> by congruence. eauto.
      + exfalso. apply elem_of_cons in Hin as [Hin|Hin]; [congruence|].
        apply StronglySorted_inv in Hs as [_ Hall].
        rewrite Forall_forall in Hall. apply Hall in Hin.
        unfold ordering in Hin. simpl in Hin.
        specialize (Hlatest pk' r Hr ltac:(congruence) Hne). lia. }
  unfold BudgetViewSet.list, results_of. rewrite Hreq, Hrows.
  destruct (N.eqb_spec (PAGE_SIZE cfg) 0) as [E|E]; simpl.
  - eauto.
  - rewrite paginate_queryset_first by lia. simpl.
    destruct (Z.to_nat (Z.of_N (PAGE_SIZE cfg))) as [|n] eqn:En; [lia|].
    simpl. eauto.
Qed.

Lemma the_latest_budget_is_listed_first_witness :
  exists rest,
    results_of (BudgetViewSet.list fixtures.test_settings (fixtures.authenticated 1) 1
                  fixtures.database)
    = Some ((3, fixtures.later_budget_for_user1) :: rest).
Proof.
  apply (the_latest_budget_is_listed_first fixtures.test_settings
           (fixtures.authenticated 1) 1 fixtures.database 3
           fixtures.later_budget_for_user1).
  - reflexivity.
  - reflexivity.
  - reflexivity.
  - intros pk' r Hr Hu Hne.
    unfold fixtures.database in Hr. simpl in Hr.
    apply lookup_insert_Some in Hr as [[<- <-]|[_ Hr]]; [simpl; lia|].
    apply lookup_insert_Some in Hr as [[<- <-]|[_ Hr]]; [discriminate Hu|].
    apply lookup_singleton_Some in Hr as [<- <-]. contradiction.
Defined.

(** X19. With a page size set, every budget of a user is on a page of
    their list: the row at position [i] of the ordered rows is row
    [i mod PAGE_SIZE] of page [i / PAGE_SIZE + 1], a page holds at most
    [PAGE_SIZE] rows, and its count is the number of budgets of the
    user.  A page number below 1 or above the number of pages, and no
    other, is answered 404. *)
Theorem every_budget_is_on_a_page (cfg : Settings) (request : Request)
    (u : Z) (db : Database) :
  request_user request = Some u ->
  PAGE_SIZE cfg <> 0%N ->
  (forall i r,
      ordered (BudgetViewSet.get_queryset u db) !! i = Some r ->
      exists page,
        BudgetViewSet.list cfg request (Z.of_nat i / Z.of_N (PAGE_SIZE cfg) + 1) db
        = {| status_of := HTTP_200_OK;
             data := Page (Z.of_nat (size (BudgetViewSet.get_queryset u db))) page |}
        /\ page !! Z.to_nat (Z.of_nat i mod Z.of_N (PAGE_SIZE cfg)) = Some r
        /\ (length page <= N.to_nat (PAGE_SIZE cfg))%nat)
  /\ (forall number,
        status_of (BudgetViewSet.list cfg request number db) = HTTP_404_NOT_FOUND
        <-> number < 1
            \/ BudgetViewSet.num_pages (Z.of_N (PAGE_SIZE cfg))
                 (Z.of_nat (size (BudgetViewSet.get_queryset u db))) < number).
Proof.
  intros Hreq Hps.
  assert (0 < Z.of_N (PAGE_SIZE cfg)) as Hpp by lia.
  assert ((PAGE_SIZE cfg =? 0)%N = false) as E0 by now apply N.eqb_neq.
  split.
  - intros i r Hi.
    unfold BudgetViewSet.list. rewrite Hreq, E0.
    unfold BudgetViewSet.paginate_queryset.
    rewrite ordered_length in *.
    pose proof (lookup_lt_Some _ _ _ Hi) as Hlt. rewrite ordered_length in Hlt.
    set (pp := Z.of_N (PAGE_SIZE cfg)) in *.
    set (count := size (BudgetViewSet.get_queryset u db)) in *.
    assert (0 <= Z.of_nat i / pp) as Hq by (apply Z.div_pos; lia).
    assert (Z.of_nat i / pp + 1 <= BudgetViewSet.num_pages pp (Z.of_nat count)) as Hn.
    { unfold BudgetViewSet.num_pages.
      destruct (Z.eqb_spec (Z.of_nat count) 0); [lia|].
      replace (Z.of_nat i / pp + 1) with ((Z.of_nat i + 1 * pp) / pp)
        by (apply Z.div_add; lia).
      apply Z.div_le_mono; lia. }
    destruct (Z.ltb_spec (Z.of_nat i / pp + 1) 1) as [?|_]; [lia|].
    destruct (Z.ltb_spec (BudgetViewSet.num_pages pp (Z.of_nat count))
                (Z.of_nat i / pp + 1)) as [?|_]; [lia|].
    simpl. eexists. split; [reflexivity|].
    pose proof (Z.div_mod (Z.of_nat i) pp ltac:(lia)) as Hdm.
    pose proof (Z.mod_pos_bound (Z.of_nat i) pp Hpp) as Hm.
    replace (Z.of_nat i / pp + 1 - 1) with (Z.of_nat i / pp) by lia.
    split.
    + rewrite lookup_take_lt by lia. rewrite lookup_drop.
      replace (Z.to_nat (Z.of_nat i / pp * pp) + Z.to_nat (Z.of_nat i mod pp))%nat
        with i; [exact Hi|].
      rewrite <- Z2Nat.inj_add by lia.
      replace (Z.of_nat i / pp * pp + Z.of_nat i mod pp) with (Z.of_nat i) by lia.
      now rewrite Nat2Z.id.
    + rewrite length_take. unfold pp. lia.
  - intros number. unfold BudgetViewSet.list. rewrite Hreq, E0.
    unfold BudgetViewSet.paginate_queryset. rewrite ordered_length.
    destruct (Z.ltb_spec number 1) as [H1|H1]; simpl.
    + split; [intros _; now left | reflexivity].
    + destruct (Z.ltb_spec
                  (BudgetViewSet.num_pages (Z.of_N (PAGE_SIZE cfg))
                     (Z.of_nat (size (BudgetViewSet.get_queryset u db))))
                  number) as [H2|H2]; simpl.
      * split; [intros _; now right | reflexivity].
      * split; [discriminate | lia].
Qed.

Lemma every_budget_is_on_a_page_witness :
  exists page,
    BudgetViewSet.list fixtures.test_settings (fixtures.authenticated 1) 1
      fixtures.database
    = {| status_of := HTTP_200_OK; data := Page 2 page |}
    /\ page !! 1%nat = Some (1, fixtures.budget_for_user1)
    /\ status_of (BudgetViewSet.list fixtures.test_settings (fixtures.authenticated 1) 2
                    fixtures.database) = HTTP_404_NOT_FOUND.
Proof.
  destruct (every_budget_is_on_a_page fixtures.test_settings (fixtures.authenticated 1)
              1 fixtures.database eq_refl ltac:(discriminate)) as [Hrow H404].
  destruct (Hrow 1%nat (1, fixtures.budget_for_user1)) as (page & Hp & Hl & _).
  - vm_compute. reflexivity.
  - exists page. split; [exact Hp|]. split; [exact Hl|].
    apply H404. right. vm_compute. reflexivity.
Defined.

End pages.

(** ** One user's writes and another user's view *)

Section isolation.

Import BudgetSerializer.

Lemma queryset_of_another (v : Z) (db db' : Database) :
  (forall k r, user r = v ->
     (budgets db' !! k = Some r <-> budgets db !! k = Some r)) ->
  BudgetViewSet.get_queryset v db' = BudgetViewSet.get_queryset v db.
Proof.
  intros H. apply map_eq. intros k. apply option_eq. intros r.
  rewrite !get_queryset_lookup. split; intros [H1 H2]; (split; [|exact H2]);
    now apply (H k r H2).
Qed.

Lemma created_row_owner (u clock : Z) (vd : ValidatedData) (row : Budget) :
  BudgetSerializer.create u clock vd = Some row -> user row = u.
Proof.
  unfold BudgetSerializer.create.
  destruct (vd_date vd), (vd_initial_amount vd); try discriminate.
  now intros [= <-].
Qed.

(** X20. What one user writes never changes what another user sees:
    after a create, update or delete request of a user, whatever its
    body and its answer, every other user has the budgets they had, and
    is answered the same on every list and retrieve request. *)
Theorem writes_of_one_user_are_not_seen_by_another (cfg : Settings)
    (request : Request) (u v : Z) (partial : bool) (pk : Z) (payload : Payload)
    (db db' : Database) :
  request_user request = Some u ->
  v <> u ->
  db' = (BudgetViewSet.create request payload db).2
  \/ db' = (BudgetViewSet.update partial request pk payload db).2
  \/ db' = (BudgetViewSet.destroy request pk db).2 ->
  BudgetViewSet.get_queryset v db' = BudgetViewSet.get_queryset v db
  /\ forall request' number pk',
       request_user request' = Some v ->
       BudgetViewSet.list cfg request' number db'
       = BudgetViewSet.list cfg request' number db
       /\ BudgetViewSet.retrieve request' pk' db'
          = BudgetViewSet.retrieve request' pk' db.
Proof.
  intros Hreq Hne Hdb.
  assert (BudgetViewSet.get_queryset v db' = BudgetViewSet.get_queryset v db) as Hq.
  { destruct Hdb as [->|[->| ->]].
    - unfold BudgetViewSet.create, BudgetViewSet.perform_create. rewrite Hreq.
      destruct (is_valid false payload) as [vd|errors]; [|reflexivity].
      destruct (BudgetSerializer.create u (now request) vd) as [row|] eqn:Ec;
        [|reflexivity].
      apply created_row_owner in Ec. simpl.
      apply queryset_of_another. intros k r Hr. simpl.
      rewrite lookup_insert_Some. split.
      + intros [[_ <-]|[_ H]]; [congruence | exact H].
      + intros H. right. split; [|exact H].
        intros <-. rewrite next_pk_fresh in H. discriminate.
    - unfold BudgetViewSet.update, BudgetViewSet.perform_update. rewrite Hreq.
      destruct (BudgetViewSet.get_object u pk db) as [instance|] eqn:Eo;
        [|reflexivity].
      apply get_queryset_lookup in Eo as [Eo Hown].
      destruct (is_valid partial payload) as [vd|errors]; [|reflexivity].
      simpl. apply queryset_of_another. intros k r Hr. simpl.
      rewrite lookup_insert_Some. split.
      + intros [[_ <-]|[_ H]]; [simpl in Hr; congruence | exact H].
      + intros H. right. split; [|exact H]. intros <-. congruence.
    - unfold BudgetViewSet.destroy. rewrite Hreq.
      destruct (BudgetViewSet.get_object u pk db) as [instance|] eqn:Eo;
        [|reflexivity].
      apply get_queryset_lookup in Eo as [Eo Hown].
      simpl. apply queryset_of_another. intros k r Hr. simpl.
      rewrite lookup_delete_Some. split.
      + intros [_ H]. exact H.
      + intros H. split; [|exact H]. intros <-. congruence. }
  split; [exact Hq|].
  intros request' number pk' Hreq'.
  unfold BudgetViewSet.list, BudgetViewSet.retrieve, BudgetViewSet.get_object.
  now rewrite Hreq', Hq.
Qed.

Lemma writes_of_one_user_are_not_seen_by_another_witness :
  BudgetViewSet.list fixtures.test_settings (fixtures.authenticated 2) 1
    (BudgetViewSet.destroy (fixtures.authenticated 1) 1 fixtures.database).2
  = BudgetViewSet.list fixtures.test_settings (fixtures.authenticated 2) 1
      fixtures.database.
Proof.
  apply (proj2 (writes_of_one_user_are_not_seen_by_another fixtures.test_settings
                  (fixtures.authenticated 1) 1 2 false 1 fixtures.valid_budget_data
                  fixtures.database _ eq_refl ltac:(discriminate)
                  (or_intror (or_intror eq_refl)))
           (fixtures.authenticated 2) 1 1 eq_refl).
Defined.

End isolation.
